(** * Pefy: ledger engine and currency / number formatting

    A shallow embedding of [src/utils/currencyFormatter.ts] (the
    [CurrencyFormatter] class and the [DataManager] ledger that follows it in
    the same file) and of [src/utils/numberFormatter.ts]
    ([NumberFormatter.abbreviate]), with the properties the specification
    states about them.

    - A JavaScript [number] is an IEEE-754 binary64 value: Rocq's primitive
      [float].  [+], [-], [/] and the comparisons are the primitive
      operations; [toFixed], [Number::toString], [Math.round], [% 1] and
      [parseFloat] are computed exactly from the value's mantissa and
      exponent ([Prim2SF]), following ECMA-262.
    - A JavaScript string is a [string]; non-ASCII symbols are their UTF-8
      bytes, which is immaterial for the concatenation, replacement and
      splitting done here.
    - [localStorage] is a record with one field per storage key; an operation
      of [DataManager] is a function from the storage to a result and the
      storage it leaves behind, a thrown [Error] included. *)

From Stdlib Require Import ZArith QArith Qround Floats Ascii String List Lia.
From Stdlib Require Import DecimalString.
From stdpp Require Import gmap strings list.

Set Warnings "-inexact-float".
Local Open Scope string_scope.

(** ** JavaScript built-ins on strings *)

Module JS.

Definition isDigit (c : ascii) : bool :=
  let n := nat_of_ascii c in (48 <=? n)%nat && (n <=? 57)%nat.

(** [\w]: ASCII letters, digits and the underscore. *)
Definition isWordChar (c : ascii) : bool :=
  let n := nat_of_ascii c in
  isDigit c || ((65 <=? n)%nat && (n <=? 90)%nat)
            || ((97 <=? n)%nat && (n <=? 122)%nat) || (n =? 95)%nat.

(** White space removed by [trim] and skipped by [parseFloat] (the ASCII part
    of ECMA-262's WhiteSpace and LineTerminator). *)
Definition isSpace (c : ascii) : bool :=
  let n := nat_of_ascii c in
  (n =? 32)%nat || ((9 <=? n)%nat && (n <=? 13)%nat).

Fixpoint all_chars (p : ascii -> bool) (s : string) : bool :=
  match s with
  | EmptyString => true
  | String c r => p c && all_chars p r
  end.

Fixpoint has_char (c : ascii) (s : string) : bool :=
  match s with
  | EmptyString => false
  | String d r => Ascii.eqb c d || has_char c r
  end.

Fixpoint dropChars (n : nat) (s : string) : string :=
  match n, s with
  | O, _ => s
  | S n', String _ r => dropChars n' r
  | S _, EmptyString => EmptyString
  end.

Fixpoint takeChars (n : nat) (s : string) : string :=
  match n, s with
  | S n', String c r => String c (takeChars n' r)
  | _, _ => EmptyString
  end.

(** [s.slice(-n)] and [s.slice(0, -n)]. *)
Definition sliceLast (n : nat) (s : string) : string :=
  dropChars (String.length s - n) s.
Definition sliceButLast (n : nat) (s : string) : string :=
  takeChars (String.length s - n) s.

(** [s.split(c)] for a one-character separator: never an empty array. *)
Fixpoint split (sep : ascii) (s : string) : list string :=
  match s with
  | EmptyString => [EmptyString]
  | String c r =>
      if Ascii.eqb c sep then EmptyString :: split sep r
      else match split sep r with
           | h :: t => String c h :: t
           | [] => [String c EmptyString]
           end
  end.

(** [s.replace(pat, rep)] with a string pattern: the first occurrence only. *)
Fixpoint replaceFirst (pat rep s : string) : string :=
  if String.prefix pat s then rep ++ dropChars (String.length pat) s
  else match s with
       | EmptyString => EmptyString
       | String c r => String c (replaceFirst pat rep r)
       end.

(** [s.replace(/\c/g, rep)]: every occurrence of one escaped character. *)
Fixpoint replaceAllChar (c : ascii) (rep s : string) : string :=
  match s with
  | EmptyString => EmptyString
  | String d r =>
      (if Ascii.eqb d c then rep else String d EmptyString)
        ++ replaceAllChar c rep r
  end.

Fixpoint trimStart (s : string) : string :=
  match s with
  | String c r => if isSpace c then trimStart r else s
  | EmptyString => EmptyString
  end.

Fixpoint trimEnd (s : string) : string :=
  match s with
  | EmptyString => EmptyString
  | String c r =>
      match trimEnd r with
      | EmptyString => if isSpace c then EmptyString else String c EmptyString
      | r' => String c r'
      end
  end.

Definition trim (s : string) : string := trimEnd (trimStart s).

(** Length of the run of digits a string starts with. *)
Fixpoint digitRun (s : string) : nat :=
  match s with
  | String c r => if isDigit c then S (digitRun r) else O
  | EmptyString => O
  end.

(** [\B] between the characters [prev] and [next] ([None] at either end of
    the string): both are word characters or neither is. *)
Definition nonBoundary (prev next : option ascii) : bool :=
  let w o := match o with Some c => isWordChar c | None => false end in
  Bool.eqb (w prev) (w next).

(** The look-ahead [(?=(\d{k})+(?!\d))] at the start of [s]: some positive
    multiple of [k] digits follows and the character after them is not a
    digit, that is, the digit run at [s] is a positive multiple of [k]. *)
Definition lookaheadGroups (k : nat) (s : string) : bool :=
  let r := digitRun s in (0 <? r)%nat && (r mod k =? 0)%nat.

(** [s.replace(/\B(?=(\d{k})+(?!\d))/g, sep)]: [sep] is inserted at every
    position where the zero-width pattern matches. *)
Fixpoint insertSeparators (k : nat) (sep : string) (prev : option ascii)
    (s : string) : string :=
  match s with
  | EmptyString => EmptyString
  | String c r =>
      (if nonBoundary prev (Some c) && lookaheadGroups k s then sep
       else EmptyString)
        ++ String c (insertSeparators k sep (Some c) r)
  end.

Definition groupDigits (k : nat) (sep : string) (s : string) : string :=
  insertSeparators k sep None s.

(** The property names every object literal inherits from
    [Object.prototype] (ECMA-262, with Annex B): [o[key]] for such a key and
    an object [o] without an own property [key] is a function, or the
    prototype itself for [__proto__], and so is truthy. *)
Definition objectPrototypeKeys : list string :=
  [ "constructor"; "hasOwnProperty"; "isPrototypeOf"; "propertyIsEnumerable";
    "toLocaleString"; "toString"; "valueOf"; "__proto__"; "__defineGetter__";
    "__defineSetter__"; "__lookupGetter__"; "__lookupSetter__" ].

Definition inheritedKey (key : string) : bool :=
  existsb (String.eqb key) objectPrototypeKeys.

End JS.

(** ** JavaScript numbers *)

Module Num.

Import JS.

Definition number : Set := float.

(** The decimal digits of a natural number ([0] gives ["0"]). *)
Definition digitsOfZ (n : Z) : string :=
  NilZero.string_of_uint (N.to_uint (Z.to_N n)).

Fixpoint zeros (n : nat) : string :=
  match n with
  | O => EmptyString
  | S n' => String "0" (zeros n')
  end.

(** The value [Z.pos m * 2^e] as a rational. *)
Definition pow2Q (e : Z) : Q :=
  if (0 <=? e)%Z then inject_Z (2 ^ e) else 1 # Z.to_pos (2 ^ (- e)).
Definition pow10Q (e : Z) : Q :=
  if (0 <=? e)%Z then inject_Z (10 ^ e) else 1 # Z.to_pos (10 ^ (- e)).
Definition valueQ (m : positive) (e : Z) : Q := Qmult (inject_Z (Z.pos m)) (pow2Q e).

Definition Qltb (a b : Q) : bool := negb (Qle_bool b a).

(** *** Number::toString (radix 10)

    ECMA-262 6.1.6.1.20: the shortest digit string [s] (of [k] digits) and the
    exponent [n] with [s * 10^(n-k)] rounding to the number; among several,
    the one closest to it. *)

(** Does the rational [q] round (to nearest, ties to even) to the binary64
    value [m * 2^e]?  The neighbour below is half as far when [m] is the
    smallest normal mantissa. *)
Definition roundsTo (m : positive) (e : Z) (q : Q) : bool :=
  let v := valueQ m e in
  let up := Qmult (1 # 2) (pow2Q e) in
  let down :=
    if (Z.pos m =? 2 ^ 52)%Z && (-1074 <? e)%Z
    then Qmult (1 # 4) (pow2Q e) else up in
  let lo := Qminus v down in
  let hi := Qplus v up in
  if Z.even (Z.pos m) then Qle_bool lo q && Qle_bool q hi
  else Qltb lo q && Qltb q hi.

(** The least [p] from [p0] on with [v < 10^p]. *)
Fixpoint searchExponent (fuel : nat) (p : Z) (v : Q) : Z :=
  match fuel with
  | O => p
  | S fuel' =>
      if Qltb v (pow10Q p) then p else searchExponent fuel' (p + 1) v
  end.

(** The [p] with [10^(p-1) <= m * 2^e < 10^p].  With [b] the position of the
    leading bit, [b * 0.30102 - 1] is below [p], and by less than 3. *)
Definition decimalExponent (m : positive) (e : Z) : Z :=
  let b := (Z.log2 (Z.pos m) + e)%Z in
  searchExponent 8 (b * 30102 / 100000 - 1)%Z (valueQ m e).

(** The [k]-digit candidate for [v] (with [10^(p-1) <= v < 10^p]), if one
    rounds to the number. *)
Definition candidate (m : positive) (e : Z) (p : Z) (k : Z) : option Z :=
  let v := valueQ m e in
  let scale := pow10Q (p - k) in
  let s := Qfloor (Qdiv v scale) in
  let below := Qmult (inject_Z s) scale in
  let above := Qmult (inject_Z (s + 1)) scale in
  match roundsTo m e below, roundsTo m e above with
  | true, false => Some s
  | false, true => Some (s + 1)%Z
  | false, false => None
  | true, true =>
      let dl := Qminus v below in
      let dh := Qminus above v in
      if Qltb dl dh then Some s
      else if Qltb dh dl then Some (s + 1)%Z
      else if Z.even s then Some s else Some (s + 1)%Z
  end.

Fixpoint shortest (fuel : nat) (m : positive) (e : Z) (p : Z) (k : Z) : Z * Z :=
  match fuel with
  | O => (Qfloor (Qdiv (valueQ m e) (pow10Q (p - k))), k)
  | S fuel' =>
      match candidate m e p k with
      | Some s => (s, k)
      | None => shortest fuel' m e p (k + 1)
      end
  end.

Fixpoint stripTrailingZeros (s : string) : string :=
  match s with
  | EmptyString => EmptyString
  | String c r =>
      match stripTrailingZeros r with
      | EmptyString => if Ascii.eqb c "0" then EmptyString else String c EmptyString
      | r' => String c r'
      end
  end.

(** The digits without the zeros that end them, the first digit kept: a
    candidate that rounded up to a power of ten has one digit. *)
Definition significantDigits (s : string) : string :=
  match s with
  | EmptyString => EmptyString
  | String c r => String c (stripTrailingZeros r)
  end.

(** The digits and the exponent [n] of a positive finite number. *)
Definition shortestDigits (m : positive) (e : Z) : string * Z :=
  let p := decimalExponent m e in
  let '(s, k) := shortest 17 m e p 1 in
  let ds := digitsOfZ s in
  (significantDigits ds, (p + (Z.of_nat (String.length ds) - k))%Z).

Definition formatDigits (ds : string) (n : Z) : string :=
  let k := Z.of_nat (String.length ds) in
  if (k <=? n)%Z && (n <=? 21)%Z then ds ++ zeros (Z.to_nat (n - k))
  else if (0 <? n)%Z && (n <=? 21)%Z then
    takeChars (Z.to_nat n) ds ++ "." ++ dropChars (Z.to_nat n) ds
  else if (-6 <? n)%Z && (n <=? 0)%Z then
    "0." ++ zeros (Z.to_nat (- n)) ++ ds
  else
    let ex := (n - 1)%Z in
    let sgn := if (ex <? 0)%Z then "-" else "+" in
    let mant := match ds with
                | String c EmptyString => ds
                | String c r => String c ("." ++ r)
                | EmptyString => ds
                end in
    mant ++ "e" ++ sgn ++ digitsOfZ (Z.abs ex).

Definition toStringSF (x : spec_float) : string :=
  match x with
  | S754_nan => "NaN"
  | S754_zero _ => "0"
  | S754_infinity s => if s then "-Infinity" else "Infinity"
  | S754_finite s m e =>
      let '(ds, n) := shortestDigits m e in
      (if s then "-" else "") ++ formatDigits ds n
  end.

Definition toString (x : number) : string := toStringSF (Prim2SF x).

(** *** Number.prototype.toFixed

    ECMA-262 21.1.3.3: the integer [n] with [n / 10^f] closest to the number,
    the larger one on a tie, printed with [f] digits after the point; a
    leading ["-"] for every number below zero. *)
Definition roundScaled (m : positive) (e : Z) (f : nat) : Z :=
  let a := (Z.pos m * 10 ^ Z.of_nat f)%Z in
  if (0 <=? e)%Z then (a * 2 ^ e)%Z
  else ((2 * a + 2 ^ (- e)) / (2 * 2 ^ (- e)))%Z.

Definition fixedDigits (n : Z) (f : nat) : string :=
  let m := digitsOfZ n in
  match f with
  | O => m
  | _ =>
      let m' := zeros (S f - String.length m) ++ m in
      sliceButLast f m' ++ "." ++ sliceLast f m'
  end.

(** [10^21 <= m * 2^e]. *)
Definition atLeast1e21 (m : positive) (e : Z) : bool :=
  Qle_bool (inject_Z (10 ^ 21)) (valueQ m e).

Definition toFixedSF (x : spec_float) (f : nat) : string :=
  match x with
  | S754_nan => "NaN"
  | S754_infinity s => if s then "-Infinity" else "Infinity"
  | S754_zero _ => fixedDigits 0 f
  | S754_finite s m e =>
      (if s then "-" else "")
        ++ (if atLeast1e21 m e then toStringSF (S754_finite false m e)
            else fixedDigits (roundScaled m e f) f)
  end.

Definition toFixed (x : number) (f : nat) : string := toFixedSF (Prim2SF x) f.

(** The numbers [toFixed] prints in fixed-point digits: the finite ones of
    absolute value below [10^21]. *)
Definition fixedRange (x : number) : bool :=
  match Prim2SF x with
  | S754_zero _ => true
  | S754_finite _ m e => negb (atLeast1e21 m e)
  | _ => false
  end.

(** *** Math.round and the remainder [x % 1] *)

Definition ofZ (z : Z) (negZero : bool) : number :=
  SF2Prim (binary_normalize prec emax z 0 negZero).

(** [Math.round]: the nearest integer, the one towards [+∞] on a tie;
    [-0] when a negative number rounds to zero. *)
Definition round (x : number) : number :=
  match Prim2SF x with
  | S754_finite s m e =>
      if (0 <=? e)%Z then x
      else
        let num := (if s then - Z.pos m else Z.pos m)%Z in
        ofZ ((2 * num + 2 ^ (- e)) / (2 * 2 ^ (- e)))%Z s
  | _ => x
  end.

(** [x % 1]: the fractional part with the sign of [x]; [NaN] for an infinite
    or [NaN] dividend. *)
Definition rem1 (x : number) : number :=
  match Prim2SF x with
  | S754_nan | S754_infinity _ => PrimFloat.nan
  | S754_zero _ => x
  | S754_finite s m e =>
      if (0 <=? e)%Z then (if s then PrimFloat.neg_zero else PrimFloat.zero)
      else
        let r := (Z.pos m mod 2 ^ (- e))%Z in
        SF2Prim (binary_normalize prec emax (if s then - r else r)%Z e s)
  end.

(** *** parseFloat *)

Definition digitValue (c : ascii) : Z := Z.of_nat (nat_of_ascii c - 48).

Fixpoint digitsValue (acc : Z) (s : string) : Z :=
  match s with
  | String c r => if isDigit c then digitsValue (10 * acc + digitValue c) r else acc
  | EmptyString => acc
  end.

(** The nearest binary64 value (ties to even) of [mant * 10^e10]. *)
Definition ofDecimal (neg : bool) (mant : Z) (e10 : Z) : number :=
  match mant with
  | Z.pos p =>
      if (0 <=? e10)%Z
      then SF2Prim (binary_normalize prec emax
                      (if neg then - (mant * 10 ^ e10) else mant * 10 ^ e10)%Z 0 neg)
      else SF2Prim (SFdiv prec emax (S754_finite neg p 0)
                      (S754_finite false (Z.to_pos (10 ^ (- e10))) 0))
  | _ => if neg then PrimFloat.neg_zero else PrimFloat.zero
  end.

(** The exponent part [e][+-]digits, if [s] starts with one. *)
Definition exponentPart (s : string) : Z :=
  match s with
  | String c r =>
      if Ascii.eqb c "e" || Ascii.eqb c "E" then
        match r with
        | String "-" r' => if (0 <? digitRun r')%nat then - digitsValue 0 r' else 0
        | String "+" r' => digitsValue 0 r'
        | _ => digitsValue 0 r
        end%Z
      else 0%Z
  | EmptyString => 0%Z
  end.

(** The longest prefix of the unsigned text that is a StrDecimalLiteral. *)
Definition parseUnsigned (neg : bool) (s : string) : number :=
  if String.prefix "Infinity" s then (if neg then PrimFloat.neg_infinity else PrimFloat.infinity)
  else
    let ni := digitRun s in
    let rest := dropChars ni s in
    match rest with
    | String "." r =>
        let nf := digitRun r in
        if (ni + nf =? 0)%nat then PrimFloat.nan
        else
          ofDecimal neg (digitsValue (digitsValue 0 s) r)
            (exponentPart (dropChars nf r) - Z.of_nat nf)
    | _ =>
        if (ni =? 0)%nat then PrimFloat.nan
        else ofDecimal neg (digitsValue 0 s) (exponentPart rest)
    end.

Definition parseFloat (s : string) : number :=
  match trimStart s with
  | String "-" r => parseUnsigned true r
  | String "+" r => parseUnsigned false r
  | r => parseUnsigned false r
  end.

(** [x || 0]: [NaN] and both zeros are falsy. *)
Definition orZero (x : number) : number :=
  if is_nan x || PrimFloat.eqb x 0 then 0%float else x.

(** [JSON.parse(JSON.stringify(x))]: [NaN] and the infinities are written as
    [null] ([None] here), [-0] is written as [0], and every other number
    comes back as it was. *)
Definition jsonNumber (x : number) : option number :=
  match Prim2SF x with
  | S754_nan | S754_infinity _ => None
  | S754_zero _ => Some 0%float
  | S754_finite _ _ _ => Some x
  end.

End Num.

(** ** src/utils/currencyFormatter.ts: the currency table *)

Inductive SymbolPosition := before | after.

Record CurrencyConfig := {
  code : string;
  symbol : string;
  name : string;
  locale : string;
  decimals : nat;
  symbolPosition : SymbolPosition;
  thousandsSeparator : string;
  decimalSeparator : string
}.

Definition mkCurrency (c sy n l : string) (d : nat) (p : SymbolPosition)
    (t ds : string) : string * CurrencyConfig :=
  (c, {| code := c; symbol := sy; name := n; locale := l; decimals := d;
         symbolPosition := p; thousandsSeparator := t; decimalSeparator := ds |}).

Definition USD : CurrencyConfig :=
  snd (mkCurrency "USD" "$" "US Dollar" "en-US" 2 before "," ".").

(** [CURRENCIES], in the order of the object literal. *)
Definition CURRENCIES : list (string * CurrencyConfig) :=
  [ ("USD", USD);
    mkCurrency "EUR" "€" "Euro" "de-DE" 2 after "." ",";
    mkCurrency "GBP" "£" "British Pound" "en-GB" 2 before "," ".";
    mkCurrency "JPY" "¥" "Japanese Yen" "ja-JP" 0 before "," ".";
    mkCurrency "IDR" "Rp" "Indonesian Rupiah" "id-ID" 2 before "." ",";
    mkCurrency "INR" "₹" "Indian Rupee" "en-IN" 2 before "," ".";
    mkCurrency "CNY" "¥" "Chinese Yuan" "zh-CN" 2 before "," ".";
    mkCurrency "KRW" "₩" "South Korean Won" "ko-KR" 0 before "," ".";
    mkCurrency "AUD" "A$" "Australian Dollar" "en-AU" 2 before "," ".";
    mkCurrency "CAD" "C$" "Canadian Dollar" "en-CA" 2 before "," ".";
    mkCurrency "CHF" "CHF" "Swiss Franc" "de-CH" 2 before "'" ".";
    mkCurrency "SEK" "kr" "Swedish Krona" "sv-SE" 2 after " " ",";
    mkCurrency "NOK" "kr" "Norwegian Krone" "nb-NO" 2 after " " ",";
    mkCurrency "DKK" "kr" "Danish Krone" "da-DK" 2 after "." ",";
    mkCurrency "PLN" "zł" "Polish Zloty" "pl-PL" 2 after " " ",";
    mkCurrency "RUB" "₽" "Russian Ruble" "ru-RU" 2 after " " ",";
    mkCurrency "BRL" "R$" "Brazilian Real" "pt-BR" 2 before "." ",";
    mkCurrency "MXN" "$" "Mexican Peso" "es-MX" 2 before "," ".";
    mkCurrency "ZAR" "R" "South African Rand" "en-ZA" 2 before " " ",";
    mkCurrency "SGD" "S$" "Singapore Dollar" "en-SG" 2 before "," ".";
    mkCurrency "HKD" "HK$" "Hong Kong Dollar" "en-HK" 2 before "," ".";
    mkCurrency "TWD" "NT$" "Taiwan Dollar" "zh-TW" 0 before "," ".";
    mkCurrency "THB" "฿" "Thai Baht" "th-TH" 2 before "," ".";
    mkCurrency "MYR" "RM" "Malaysian Ringgit" "ms-MY" 2 before "," ".";
    mkCurrency "PHP" "₱" "Philippine Peso" "en-PH" 2 before "," ".";
    mkCurrency "VND" "₫" "Vietnamese Dong" "vi-VN" 0 after "." ",";
    mkCurrency "AED" "AED" "UAE Dirham" "ar-AE" 2 before "," ".";
    mkCurrency "SAR" "SR" "Saudi Riyal" "ar-SA" 2 before "," ".";
    mkCurrency "EGP" "E£" "Egyptian Pound" "ar-EG" 2 before "," ".";
    mkCurrency "ILS" "₪" "Israeli Shekel" "he-IL" 2 before "," ".";
    mkCurrency "TRY" "₺" "Turkish Lira" "tr-TR" 2 before "." "," ].

(** [CURRENCIES[key]] for the own properties of the table.  For a key that
    names a member of [Object.prototype] ([JS.inheritedKey]) the source reads
    that member, which is truthy and has none of the fields of a
    configuration: such keys are outside this definition, and every property
    below about an arbitrary currency code asks [JS.inheritedKey] to be
    [false] of it. *)
Fixpoint lookupCurrency (table : list (string * CurrencyConfig)) (key : string)
    : option CurrencyConfig :=
  match table with
  | [] => None
  | (k, c) :: rest => if String.eqb k key then Some c else lookupCurrency rest key
  end.

(** [CURRENCIES[currencyCode] || CURRENCIES.USD], for a code that is no
    member of [Object.prototype]. *)
Definition configOf (currencyCode : string) : CurrencyConfig :=
  default USD (lookupCurrency CURRENCIES currencyCode).

(** The supported currency codes: the keys of [CURRENCIES]. *)
Definition supportedCodes : list string := map fst CURRENCIES.

(** ** src/utils/currencyFormatter.ts: [CurrencyFormatter] *)

Module CurrencyFormatter.

Import JS Num.

(** A part of [s.split('.')] is truthy when it is there and not empty. *)
Definition truthyPart (p : option string) : bool :=
  match p with
  | Some (String _ _) => true
  | _ => false
  end.

(** The closing lines of each branch of [formatNumber]. *)
Definition joinParts (config : CurrencyConfig) (integerPart : string)
    (decimalPart : option string) : string :=
  if (0 <? decimals config)%nat && truthyPart decimalPart
  then integerPart ++ decimalSeparator config ++ default "" decimalPart
  else integerPart.

(** The [if (integerPart.length > 3)] block of the INR branch: the last
    three digits, then groups of two. *)
Definition lakhGrouping (integerPart : string) : string :=
  if (3 <? String.length integerPart)%nat then
    let lastThree := sliceLast 3 integerPart in
    let remaining := sliceButLast 3 integerPart in
    let formattedRemaining := groupDigits 2 "," remaining in
    formattedRemaining ++ "," ++ lastThree
  else integerPart.

Definition formatNumber (amount : number) (config : CurrencyConfig) : string :=
  if String.eqb (code config) "IDR" then
    let parts := split "." (toFixed amount (decimals config)) in
    let integerPart := default "" (parts !! 0%nat) in
    let decimalPart := parts !! 1%nat in
    let formattedInteger := groupDigits 3 (thousandsSeparator config) integerPart in
    joinParts config formattedInteger decimalPart
  else if String.eqb (code config) "INR" then
    let parts := split "." (toFixed amount (decimals config)) in
    let integerPart := default "" (parts !! 0%nat) in
    let decimalPart := parts !! 1%nat in
    let integerPart := lakhGrouping integerPart in
    joinParts config integerPart decimalPart
  else
    let parts := split "." (toFixed amount (decimals config)) in
    let integerPart := default "" (parts !! 0%nat) in
    let decimalPart := parts !! 1%nat in
    let formattedInteger := groupDigits 3 (thousandsSeparator config) integerPart in
    joinParts config formattedInteger decimalPart.

Definition format (amount : number) (currencyCode : string) : string :=
  let config := configOf currencyCode in
  let formattedNumber := formatNumber amount config in
  match symbolPosition config with
  | before => symbol config ++ formattedNumber
  | after => formattedNumber ++ " " ++ symbol config
  end.


Definition getSymbol (currencyCode : string) : string :=
  symbol (configOf currencyCode).

Definition getCurrency (currencyCode : string) : CurrencyConfig :=
  configOf currencyCode.

Definition getAllCurrencies : list CurrencyConfig := map snd CURRENCIES.

(** [cleaned.replace(new RegExp(`\\${sep}`, 'g'), '')]: every separator of
    the table is one character, and the escaped pattern matches exactly it. *)
Definition stripSeparator (sep : string) (s : string) : string :=
  match sep with
  | String c EmptyString => replaceAllChar c "" s
  | _ => s
  end.

Definition parse (formattedAmount : string) (currencyCode : string) : number :=
  let config := configOf currencyCode in
  let cleaned := trim (replaceFirst (symbol config) "" formattedAmount) in
  let cleaned :=
    if negb (String.eqb (thousandsSeparator config) ".")
    then stripSeparator (thousandsSeparator config) cleaned
    else cleaned in
  let cleaned :=
    if negb (String.eqb (decimalSeparator config) ".")
    then replaceFirst (decimalSeparator config) "." cleaned
    else cleaned in
  let cleaned :=
    if String.eqb (code config) "IDR" then
      match split "," cleaned with
      | [p0; p1] => replaceAllChar "." "" p0 ++ "." ++ p1
      | _ => replaceAllChar "." "" cleaned
      end
    else cleaned in
  orZero (parseFloat cleaned).

End CurrencyFormatter.

(** ** src/utils/numberFormatter.ts: [NumberFormatter.abbreviate] *)

Module NumberFormatter.

Import Num.

Record Abbreviation := {
  threshold : number;
  suffix : string;
  decimals : nat
}.

Definition abbreviations : list Abbreviation :=
  [ {| threshold := 1e12; suffix := "T"; decimals := 1 |};
    {| threshold := 1e9; suffix := "B"; decimals := 1 |};
    {| threshold := 1e6; suffix := "M"; decimals := 1 |};
    {| threshold := 1e3; suffix := "K"; decimals := 1 |} ]%float.

(** The body of the [for] loop for one entry that passed the test. *)
Definition render (value : number) (forceDecimals : bool) (abbrev : Abbreviation)
    : string :=
  let abbreviated := (value / threshold abbrev)%float in
  let showDecimals :=
    forceDecimals
    || (negb (PrimFloat.eqb (rem1 abbreviated) 0) && PrimFloat.ltb abbreviated 100) in
  if showDecimals
  then toFixed abbreviated (decimals abbrev) ++ suffix abbrev
  else toString (round abbreviated) ++ suffix abbrev.

(** The [for] loop: the first entry whose threshold [|value|] reaches. *)
Fixpoint abbreviateLoop (value : number) (forceDecimals : bool)
    (l : list Abbreviation) : string :=
  match l with
  | [] => toString value
  | abbrev :: rest =>
      if PrimFloat.leb (threshold abbrev) (PrimFloat.abs value)
      then render value forceDecimals abbrev
      else abbreviateLoop value forceDecimals rest
  end.

Definition abbreviate (value : number) (forceDecimals : bool) : string :=
  if PrimFloat.ltb (PrimFloat.abs value) 1000
  then (if forceDecimals then toFixed value 1 else toString value)
  else abbreviateLoop value forceDecimals abbreviations.

Definition abbreviateCurrency (value : number) (currencySymbol : string)
    (forceDecimals : bool) : string :=
  currencySymbol ++ abbreviate value forceDecimals.

(** The body of the [for] loop of [formatForChart] for the entry reached. *)
Definition renderForChart (value : number) (abbrev : Abbreviation) : string :=
  let abbreviated := (value / threshold abbrev)%float in
  if PrimFloat.leb 100 abbreviated then
    toString (round abbreviated) ++ suffix abbrev
  else if PrimFloat.leb 10 abbreviated then
    if PrimFloat.eqb (rem1 abbreviated) 0
    then toString (round abbreviated) ++ suffix abbrev
    else toFixed abbreviated 1 ++ suffix abbrev
  else toFixed abbreviated 1 ++ suffix abbrev.

Fixpoint chartLoop (value : number) (currencySymbol : string)
    (l : list Abbreviation) : string :=
  match l with
  | [] => currencySymbol ++ toString (round value)
  | abbrev :: rest =>
      if PrimFloat.leb (threshold abbrev) (PrimFloat.abs value)
      then currencySymbol ++ renderForChart value abbrev
      else chartLoop value currencySymbol rest
  end.

Definition formatForChart (value : number) (currencySymbol : string) : string :=
  if PrimFloat.eqb value 0 then currencySymbol ++ "0"
  else if PrimFloat.ltb (PrimFloat.abs value) 1000
  then currencySymbol ++ toString (round value)
  else chartLoop value currencySymbol abbreviations.

End NumberFormatter.

(** ** src/utils/currencyFormatter.ts: the data model of [DataManager] *)

Inductive EntryType := expense | transfer.

Module SpendingEntry.
Record t := {
  id : string;
  date : string;
  amount : Num.number;
  category : string;
  description : option string;
  accountId : option string;
  type : EntryType;
  transferToAccountId : option string;
  createdAt : string;
  updatedAt : string
}.

(** [Omit<SpendingEntry, 'id' | 'createdAt' | 'updatedAt'>]. *)
Record input := {
  i_date : string;
  i_amount : Num.number;
  i_category : string;
  i_description : option string;
  i_accountId : option string;
  i_type : EntryType;
  i_transferToAccountId : option string
}.

(** [Partial<SpendingEntry>]: [None] is a key that is absent; for an
    optional field [Some None] is the key given as [undefined]. *)
Record partial := {
  u_id : option string;
  u_date : option string;
  u_amount : option Num.number;
  u_category : option string;
  u_description : option (option string);
  u_accountId : option (option string);
  u_type : option EntryType;
  u_transferToAccountId : option (option string);
  u_createdAt : option string
}.

Definition noUpdates : partial :=
  {| u_id := None; u_date := None; u_amount := None; u_category := None;
     u_description := None; u_accountId := None; u_type := None;
     u_transferToAccountId := None; u_createdAt := None |}.
End SpendingEntry.

Module SavingsAccount.
Record t := {
  id : string;
  bankName : string;
  accountName : string;
  balance : Num.number;
  createdAt : string;
  updatedAt : string
}.

Record input := {
  i_bankName : string;
  i_accountName : string;
  i_balance : Num.number
}.

Record partial := {
  u_id : option string;
  u_bankName : option string;
  u_accountName : option string;
  u_balance : option Num.number;
  u_createdAt : option string
}.

(** The object literal [{ balance: b }]. *)
Definition balanceOnly (b : Num.number) : partial :=
  {| u_id := None; u_bankName := None; u_accountName := None;
     u_balance := Some b; u_createdAt := None |}.
End SavingsAccount.

Module Investment.
Record t := {
  id : string;
  name : string;
  amount : Num.number;
  date : string;
  notes : option string;
  createdAt : string;
  updatedAt : string
}.
End Investment.

Abbreviation CategoryColor := (gmap string string).

Module AppSettings.
Record t := {
  monthlyTarget : Num.number;
  categories : list string;
  currency : string;
  darkMode : bool;
  appTitle : string;
  logoUrl : option string;
  categoryColors : CategoryColor
}.

(** A settings object as it is parsed from storage, or as a spread builds
    it: a field is [None] when its key is missing or [undefined]. *)
Record json := {
  j_monthlyTarget : option Num.number;
  j_categories : option (list string);
  j_currency : option string;
  j_darkMode : option bool;
  j_appTitle : option string;
  j_logoUrl : option string;
  j_categoryColors : option CategoryColor
}.

(** [Partial<AppSettings>]: [None] is an absent key, [Some None] a key
    given as [undefined]. *)
Record partial := {
  u_monthlyTarget : option (option Num.number);
  u_categories : option (option (list string));
  u_currency : option (option string);
  u_darkMode : option (option bool);
  u_appTitle : option (option string);
  u_logoUrl : option (option string);
  u_categoryColors : option (option CategoryColor)
}.


Definition toJson (s : t) : json :=
  {| j_monthlyTarget := Some (monthlyTarget s);
     j_categories := Some (categories s);
     j_currency := Some (currency s);
     j_darkMode := Some (darkMode s);
     j_appTitle := Some (appTitle s);
     j_logoUrl := logoUrl s;
     j_categoryColors := Some (categoryColors s) |}.

(** [JSON.parse(JSON.stringify(s))]: a [monthlyTarget] that is no finite
    number comes back as [null], which reads as a missing key. *)
Definition jsonImage (s : json) : json :=
  {| j_monthlyTarget := j_monthlyTarget s ≫= Num.jsonNumber;
     j_categories := j_categories s;
     j_currency := j_currency s;
     j_darkMode := j_darkMode s;
     j_appTitle := j_appTitle s;
     j_logoUrl := j_logoUrl s;
     j_categoryColors := j_categoryColors s |}.
End AppSettings.

Definition defaultCategories : list string :=
  [ "Food"; "Transport"; "Entertainment"; "Shopping"; "Utilities";
    "Healthcare"; "Education"; "Transfer"; "Other" ].

Definition defaultGray : string := "#6b7280".

Definition defaultCategoryColors : CategoryColor :=
  list_to_map
    [ ("Food", "#ef4444"); ("Transport", "#f97316");
      ("Entertainment", "#eab308"); ("Shopping", "#22c55e");
      ("Utilities", "#06b6d4"); ("Healthcare", "#3b82f6");
      ("Education", "#8b5cf6"); ("Transfer", "#f59e0b");
      ("Other", "#6b7280") ].

Definition defaultSettings : AppSettings.t :=
  {| AppSettings.monthlyTarget := 1000%float;
     AppSettings.categories := defaultCategories;
     AppSettings.currency := "USD";
     AppSettings.darkMode := false;
     AppSettings.appTitle := "Personal Finance Dashboard";
     AppSettings.logoUrl := None;
     AppSettings.categoryColors := defaultCategoryColors |}.

(** [localStorage] under the four keys [financial_dashboard_<type>].  A list
    key that is absent reads as the empty list, which is its default; the
    settings key may be absent.  The record holds what [JSON.parse] reads.

    Two things [saveToStorage] does are not in the record.  [setItem] may
    fail, and the call then throws ["Failed to save <key>"]: writes are taken
    to succeed.  And [JSON.stringify] writes a number that is not finite as
    [null] and [-0] as [0]: a number field of the three lists is taken to
    come back as it was written, which holds when it is its own JSON image
    ([Num.jsonNumber x = Some x]); the properties below ask this of every
    number they compute or take from the caller and have written.  The
    settings are written as their JSON image ([AppSettings.jsonImage]). *)
Record Storage := {
  spending : list SpendingEntry.t;
  savings : list SavingsAccount.t;
  investments : list Investment.t;
  settings : option AppSettings.json
}.

Definition setSpending (l : list SpendingEntry.t) (st : Storage) : Storage :=
  {| spending := l; savings := savings st; investments := investments st;
     settings := settings st |}.
Definition setSavings (l : list SavingsAccount.t) (st : Storage) : Storage :=
  {| spending := spending st; savings := l; investments := investments st;
     settings := settings st |}.
Definition setSettings (s : AppSettings.json) (st : Storage) : Storage :=
  {| spending := spending st; savings := savings st;
     investments := investments st; settings := Some s |}.

Definition setInvestments (l : list Investment.t) (st : Storage) : Storage :=
  {| spending := spending st; savings := savings st; investments := l;
     settings := settings st |}.

(** [Omit<Investment, 'id' | 'createdAt' | 'updatedAt'>]. *)
Record NewInvestment := {
  n_name : string;
  n_amount : Num.number;
  n_date : string;
  n_notes : option string
}.

(** The clock of one call: [Date.now().toString()] and
    [new Date().toISOString()] (every reading within a call gives the same
    instant). *)
Record Clock := { nowMs : string; nowIso : string }.

(** ** The storage monad: a result or a thrown [Error], and the storage left *)

Inductive Result (A : Type) :=
  | Ok (a : A)
  | Throw (message : string).
Arguments Ok {A} a.
Arguments Throw {A} message.

Definition M (A : Type) : Type := Storage -> Result A * Storage.

#[global] Instance M_ret : MRet M := fun A a st => (Ok a, st).
#[global] Instance M_bind : MBind M := fun A B f m st =>
  match m st with
  | (Ok a, st') => f a st'
  | (Throw e, st') => (Throw e, st')
  end.

Definition throw {A} (message : string) : M A := fun st => (Throw message, st).
Definition getStorage : M Storage := fun st => (Ok st, st).
(** [saveToStorage], for a write that succeeds and numbers that are their
    own JSON image (see [Storage]). *)
Definition modifyStorage (f : Storage -> Storage) : M unit :=
  fun st => (Ok tt, f st).

(** A string-valued optional field in a condition: [undefined] and the empty
    string are falsy. *)
Definition truthy (o : option string) : option string :=
  match o with
  | Some (String c r) => Some (String c r)
  | _ => None
  end.

(** [l.findIndex(p)] together with [l[index]]; [None] for the index [-1]. *)
Fixpoint findIndex {A} (p : A -> bool) (l : list A) : option (nat * A) :=
  match l with
  | [] => None
  | x :: r =>
      if p x then Some (0%nat, x)
      else match findIndex p r with
           | Some (i, y) => Some (S i, y)
           | None => None
           end
  end.

(** ** src/utils/currencyFormatter.ts: [DataManager] *)

Module DataManager.

Import Num.

Definition InsufficientBalance : string :=
  "Insufficient balance in selected account".
Definition TransferFailed : string :=
  "Transfer failed: insufficient balance or invalid accounts".

Definition hasId (id : string) (a : SavingsAccount.t) : bool :=
  String.eqb (SavingsAccount.id a) id.

Section Operations.

Variable clock : Clock.

(** *** Savings accounts *)

Definition getSavingsAccounts : M (list SavingsAccount.t) :=
  st ← getStorage; mret (savings st).

(** [{ ...account, ...updates, updatedAt: now }]. *)
Definition mergeAccount (a : SavingsAccount.t) (u : SavingsAccount.partial)
    : SavingsAccount.t :=
  {| SavingsAccount.id := default (SavingsAccount.id a) (SavingsAccount.u_id u);
     SavingsAccount.bankName :=
       default (SavingsAccount.bankName a) (SavingsAccount.u_bankName u);
     SavingsAccount.accountName :=
       default (SavingsAccount.accountName a) (SavingsAccount.u_accountName u);
     SavingsAccount.balance :=
       default (SavingsAccount.balance a) (SavingsAccount.u_balance u);
     SavingsAccount.createdAt :=
       default (SavingsAccount.createdAt a) (SavingsAccount.u_createdAt u);
     SavingsAccount.updatedAt := nowIso clock |}.

Definition addSavingsAccount (account : SavingsAccount.input)
    : M SavingsAccount.t :=
  accounts ← getSavingsAccounts;
  let newAccount :=
    {| SavingsAccount.id := nowMs clock;
       SavingsAccount.bankName := SavingsAccount.i_bankName account;
       SavingsAccount.accountName := SavingsAccount.i_accountName account;
       SavingsAccount.balance := SavingsAccount.i_balance account;
       SavingsAccount.createdAt := nowIso clock;
       SavingsAccount.updatedAt := nowIso clock |} in
  modifyStorage (setSavings (accounts ++ [newAccount]));;
  mret newAccount.

Definition updateSavingsAccount (id : string) (updates : SavingsAccount.partial)
    : M (option SavingsAccount.t) :=
  accounts ← getSavingsAccounts;
  match findIndex (hasId id) accounts with
  | None => mret None
  | Some (index, account) =>
      let updated := mergeAccount account updates in
      modifyStorage (setSavings (<[index := updated]> accounts));;
      mret (Some updated)
  end.

Definition deleteSavingsAccount (id : string) : M bool :=
  accounts ← getSavingsAccounts;
  let filteredAccounts := List.filter (fun a => negb (hasId id a)) accounts in
  if (length filteredAccounts =? length accounts)%nat then mret false
  else modifyStorage (setSavings filteredAccounts);; mret true.

(** Both balances are computed from the accounts read on entry. *)
Definition transferBetweenAccounts (fromId toId : string) (amount : number)
    : M bool :=
  accounts ← getSavingsAccounts;
  match List.find (hasId fromId) accounts, List.find (hasId toId) accounts with
  | Some fromAccount, Some toAccount =>
      if PrimFloat.ltb (SavingsAccount.balance fromAccount) amount then mret false
      else
        updateSavingsAccount fromId
          (SavingsAccount.balanceOnly (SavingsAccount.balance fromAccount - amount)%float);;
        updateSavingsAccount toId
          (SavingsAccount.balanceOnly (SavingsAccount.balance toAccount + amount)%float);;
        mret true
  | _, _ => mret false
  end.

(** *** Spending entries *)

Definition getSpendingEntries : M (list SpendingEntry.t) :=
  st ← getStorage; mret (spending st).

Definition newSpendingEntry (entry : SpendingEntry.input) : SpendingEntry.t :=
  {| SpendingEntry.id := nowMs clock;
     SpendingEntry.date := SpendingEntry.i_date entry;
     SpendingEntry.amount := SpendingEntry.i_amount entry;
     SpendingEntry.category := SpendingEntry.i_category entry;
     SpendingEntry.description := SpendingEntry.i_description entry;
     SpendingEntry.accountId := SpendingEntry.i_accountId entry;
     SpendingEntry.type := SpendingEntry.i_type entry;
     SpendingEntry.transferToAccountId := SpendingEntry.i_transferToAccountId entry;
     SpendingEntry.createdAt := nowIso clock;
     SpendingEntry.updatedAt := nowIso clock |}.

Definition addSpendingEntry (entry : SpendingEntry.input) : M SpendingEntry.t :=
  entries ← getSpendingEntries;
  let newEntry := newSpendingEntry entry in
  match SpendingEntry.i_type entry, truthy (SpendingEntry.i_accountId entry),
        truthy (SpendingEntry.i_transferToAccountId entry) with
  | expense, Some accountId, _ =>
      accounts ← getSavingsAccounts;
      match List.find (hasId accountId) accounts with
      | Some account =>
          if PrimFloat.leb (SpendingEntry.i_amount entry) (SavingsAccount.balance account)
          then
            updateSavingsAccount accountId
              (SavingsAccount.balanceOnly
                 (SavingsAccount.balance account - SpendingEntry.i_amount entry)%float);;
            mret tt
          else throw InsufficientBalance
      | None => throw InsufficientBalance
      end
  | transfer, Some accountId, Some transferToAccountId =>
      success ← transferBetweenAccounts accountId transferToAccountId
                  (SpendingEntry.i_amount entry);
      if success : bool then mret tt else throw TransferFailed
  | _, _, _ => mret tt
  end;;
  modifyStorage (setSpending (entries ++ [newEntry]));;
  mret newEntry.

(** [{ ...originalEntry, ...updates, updatedAt: now }]. *)
Definition mergeEntry (e : SpendingEntry.t) (u : SpendingEntry.partial)
    : SpendingEntry.t :=
  {| SpendingEntry.id := default (SpendingEntry.id e) (SpendingEntry.u_id u);
     SpendingEntry.date := default (SpendingEntry.date e) (SpendingEntry.u_date u);
     SpendingEntry.amount :=
       default (SpendingEntry.amount e) (SpendingEntry.u_amount u);
     SpendingEntry.category :=
       default (SpendingEntry.category e) (SpendingEntry.u_category u);
     SpendingEntry.description :=
       default (SpendingEntry.description e) (SpendingEntry.u_description u);
     SpendingEntry.accountId :=
       default (SpendingEntry.accountId e) (SpendingEntry.u_accountId u);
     SpendingEntry.type := default (SpendingEntry.type e) (SpendingEntry.u_type u);
     SpendingEntry.transferToAccountId :=
       default (SpendingEntry.transferToAccountId e)
               (SpendingEntry.u_transferToAccountId u);
     SpendingEntry.createdAt :=
       default (SpendingEntry.createdAt e) (SpendingEntry.u_createdAt u);
     SpendingEntry.updatedAt := nowIso clock |}.

Definition entryHasId (id : string) (e : SpendingEntry.t) : bool :=
  String.eqb (SpendingEntry.id e) id.

Definition updateSpendingEntry (id : string) (updates : SpendingEntry.partial)
    : M (option SpendingEntry.t) :=
  entries ← getSpendingEntries;
  match findIndex (entryHasId id) entries with
  | None => mret None
  | Some (index, originalEntry) =>
      (* Revert original account changes if they exist *)
      match SpendingEntry.type originalEntry,
            truthy (SpendingEntry.accountId originalEntry),
            truthy (SpendingEntry.transferToAccountId originalEntry) with
      | expense, Some accountId, _ =>
          accounts ← getSavingsAccounts;
          match List.find (hasId accountId) accounts with
          | Some account =>
              updateSavingsAccount accountId
                (SavingsAccount.balanceOnly
                   (SavingsAccount.balance account
                    + SpendingEntry.amount originalEntry)%float);;
              mret tt
          | None => mret tt
          end
      | transfer, Some accountId, Some transferToAccountId =>
          transferBetweenAccounts transferToAccountId accountId
            (SpendingEntry.amount originalEntry);;
          mret tt
      | _, _, _ => mret tt
      end;;
      let updatedEntry := mergeEntry originalEntry updates in
      (* Apply new account changes *)
      match SpendingEntry.type updatedEntry,
            truthy (SpendingEntry.accountId updatedEntry),
            truthy (SpendingEntry.transferToAccountId updatedEntry) with
      | expense, Some accountId, _ =>
          accounts ← getSavingsAccounts;
          match List.find (hasId accountId) accounts with
          | Some account =>
              if PrimFloat.leb (SpendingEntry.amount updatedEntry)
                   (SavingsAccount.balance account)
              then
                updateSavingsAccount accountId
                  (SavingsAccount.balanceOnly
                     (SavingsAccount.balance account
                      - SpendingEntry.amount updatedEntry)%float);;
                mret tt
              else throw InsufficientBalance
          | None => throw InsufficientBalance
          end
      | transfer, Some accountId, Some transferToAccountId =>
          success ← transferBetweenAccounts accountId transferToAccountId
                      (SpendingEntry.amount updatedEntry);
          if success : bool then mret tt else throw TransferFailed
      | _, _, _ => mret tt
      end;;
      modifyStorage (setSpending (<[index := updatedEntry]> entries));;
      mret (Some updatedEntry)
  end.

Definition deleteSpendingEntry (id : string) : M bool :=
  entries ← getSpendingEntries;
  match findIndex (entryHasId id) entries with
  | None => mret false
  | Some (entryIndex, entry) =>
      (* Revert account changes *)
      match SpendingEntry.type entry, truthy (SpendingEntry.accountId entry),
            truthy (SpendingEntry.transferToAccountId entry) with
      | expense, Some accountId, _ =>
          accounts ← getSavingsAccounts;
          match List.find (hasId accountId) accounts with
          | Some account =>
              updateSavingsAccount accountId
                (SavingsAccount.balanceOnly
                   (SavingsAccount.balance account + SpendingEntry.amount entry)%float);;
              mret tt
          | None => mret tt
          end
      | transfer, Some accountId, Some transferToAccountId =>
          transferBetweenAccounts transferToAccountId accountId
            (SpendingEntry.amount entry);;
          mret tt
      | _, _, _ => mret tt
      end;;
      modifyStorage
        (setSpending (List.filter (fun e => negb (entryHasId id e)) entries));;
      mret true
  end.

(** *** Investments and totals *)

Definition getInvestments : M (list Investment.t) :=
  st ← getStorage; mret (investments st).

(** [reduce((total, account) => total + account.balance, 0)]. *)
Definition getTotalSavings : M number :=
  accounts ← getSavingsAccounts;
  mret (fold_left (fun total account => total + SavingsAccount.balance account)%float
          accounts 0%float).

(** [reduce((total, investment) => investment.amount, 0)]. *)
Definition getTotalInvestments : M number :=
  l ← getInvestments;
  mret (fold_left (fun total investment => Investment.amount investment) l 0%float).

(** *** Settings *)

(** [colors[category]] is truthy: an own colour that is not the empty
    string, or, for a category without an own key, a member inherited from
    [Object.prototype]. *)
Definition hasColor (colors : CategoryColor) (category : string) : bool :=
  match colors !! category with
  | Some color => negb (String.eqb color "")
  | None => JS.inheritedKey category
  end.

(** [if (!colors[category]) colors[category] = '#6b7280'], for each category
    in turn. *)
Definition ensureColor (colors : CategoryColor) (category : string) : CategoryColor :=
  if hasColor colors category then colors
  else <[category := defaultGray]> colors.

Definition ensureColors (categories : list string) (colors : CategoryColor)
    : CategoryColor :=
  fold_left ensureColor categories colors.

Definition getSettings : M AppSettings.t :=
  st ← getStorage;
  let settings := default (AppSettings.toJson defaultSettings) (settings st) in
  let mergedSettings :=
    {| AppSettings.monthlyTarget :=
         default (AppSettings.monthlyTarget defaultSettings)
                 (AppSettings.j_monthlyTarget settings);
       AppSettings.categories :=
         default (AppSettings.categories defaultSettings)
                 (AppSettings.j_categories settings);
       AppSettings.currency :=
         default (AppSettings.currency defaultSettings)
                 (AppSettings.j_currency settings);
       AppSettings.darkMode :=
         default (AppSettings.darkMode defaultSettings)
                 (AppSettings.j_darkMode settings);
       AppSettings.appTitle :=
         default (AppSettings.appTitle defaultSettings)
                 (AppSettings.j_appTitle settings);
       AppSettings.logoUrl := AppSettings.j_logoUrl settings;
       AppSettings.categoryColors :=
         default (AppSettings.categoryColors defaultSettings)
                 (AppSettings.j_categoryColors settings) |} in
  let updatedCategoryColors :=
    ensureColors (AppSettings.categories mergedSettings) defaultCategoryColors in
  mret {| AppSettings.monthlyTarget := AppSettings.monthlyTarget mergedSettings;
          AppSettings.categories := AppSettings.categories mergedSettings;
          AppSettings.currency := AppSettings.currency mergedSettings;
          AppSettings.darkMode := AppSettings.darkMode mergedSettings;
          AppSettings.appTitle := AppSettings.appTitle mergedSettings;
          AppSettings.logoUrl := AppSettings.logoUrl mergedSettings;
          AppSettings.categoryColors := updatedCategoryColors |}.

(** One key of [{ ...currentSettings, ...updates }]. *)
Definition spread {A} (current : option A) (update : option (option A)) : option A :=
  match update with
  | None => current
  | Some v => v
  end.

Definition updateSettings (updates : AppSettings.partial) : M AppSettings.json :=
  currentSettings ← getSettings;
  let current := AppSettings.toJson currentSettings in
  let newColors :=
    spread (AppSettings.j_categoryColors current) (AppSettings.u_categoryColors updates) in
  let newSettings :=
    {| AppSettings.j_monthlyTarget :=
         spread (AppSettings.j_monthlyTarget current) (AppSettings.u_monthlyTarget updates);
       AppSettings.j_categories :=
         spread (AppSettings.j_categories current) (AppSettings.u_categories updates);
       AppSettings.j_currency :=
         spread (AppSettings.j_currency current) (AppSettings.u_currency updates);
       AppSettings.j_darkMode :=
         spread (AppSettings.j_darkMode current) (AppSettings.u_darkMode updates);
       AppSettings.j_appTitle :=
         spread (AppSettings.j_appTitle current) (AppSettings.u_appTitle updates);
       AppSettings.j_logoUrl :=
         spread (AppSettings.j_logoUrl current) (AppSettings.u_logoUrl updates);
       AppSettings.j_categoryColors :=
         match AppSettings.u_categories updates with
         | Some (Some categories) =>
             Some (ensureColors categories (default ∅ newColors))
         | _ => newColors
         end |} in
  modifyStorage (setSettings (AppSettings.jsonImage newSettings));;
  mret newSettings.

(** *** Investments: create, update, delete *)

Definition addInvestment (investment : NewInvestment) : M Investment.t :=
  investments ← getInvestments;
  let newInvestment :=
    {| Investment.id := nowMs clock;
       Investment.name := n_name investment;
       Investment.amount := n_amount investment;
       Investment.date := n_date investment;
       Investment.notes := n_notes investment;
       Investment.createdAt := nowIso clock;
       Investment.updatedAt := nowIso clock |} in
  modifyStorage (setInvestments (investments ++ [newInvestment]));;
  mret newInvestment.

Definition investmentHasId (id : string) (i : Investment.t) : bool :=
  String.eqb (Investment.id i) id.

Definition deleteInvestment (id : string) : M bool :=
  investments ← getInvestments;
  let filteredInvestments :=
    List.filter (fun i => negb (investmentHasId id i)) investments in
  if (length filteredInvestments =? length investments)%nat then mret false
  else modifyStorage (setInvestments filteredInvestments);; mret true.

(** *** Currency helpers

    (As [configOf]: for a stored currency that is no member of
    [Object.prototype].) *)

Definition getCurrencySymbol : M string :=
  settings ← getSettings;
  mret (CurrencyFormatter.getSymbol (AppSettings.currency settings)).

Definition formatCurrency (amount : number) : M string :=
  settings ← getSettings;
  mret (CurrencyFormatter.format amount (AppSettings.currency settings)).

Definition parseCurrency (formattedAmount : string) : M number :=
  settings ← getSettings;
  mret (CurrencyFormatter.parse formattedAmount (AppSettings.currency settings)).

(** *** Number formatting helpers for charts and display *)

Definition formatNumberForChart (amount : number) : M string :=
  currencySymbol ← getCurrencySymbol;
  mret (NumberFormatter.formatForChart amount currencySymbol).

Definition abbreviateCurrency (amount : number) : M string :=
  currencySymbol ← getCurrencySymbol;
  mret (NumberFormatter.abbreviateCurrency amount currencySymbol false).

End Operations.

(** *** Analytics

    [new Date(s)] is read through [getFullYear], [getMonth] and its time
    value ([NaN] for a text that is no date), which are taken as given. *)

Section Analytics.

Variable getFullYear : string -> number.
Variable getMonth : string -> number.
Variable getTime : string -> number.

Definition isExpense (entry : SpendingEntry.t) : bool :=
  match SpendingEntry.type entry with
  | expense => true
  | transfer => false
  end.

Definition getMonthlySpending (year month : number) : M number :=
  entries ← getSpendingEntries;
  mret (fold_left
          (fun total entry => (total + SpendingEntry.amount entry)%float)
          (List.filter
             (fun entry =>
                PrimFloat.eqb (getFullYear (SpendingEntry.date entry)) year
                && PrimFloat.eqb (getMonth (SpendingEntry.date entry)) month
                && isExpense entry)
             entries)
          0%float).



End Analytics.

End DataManager.

(** ** Sample ledgers *)

Module Sample.

Definition clock : Clock :=
  {| nowMs := "1700000000000"; nowIso := "2023-11-14T22:13:20.000Z" |}.

Definition account (id : string) (balance : Num.number) : SavingsAccount.t :=
  {| SavingsAccount.id := id; SavingsAccount.bankName := "Bank";
     SavingsAccount.accountName := "Main"; SavingsAccount.balance := balance;
     SavingsAccount.createdAt := "2023-11-01T00:00:00.000Z";
     SavingsAccount.updatedAt := "2023-11-01T00:00:00.000Z" |}.

(** An expense of [amount] on [accountId], as the form submits it. *)
Definition expenseOf (amount : Num.number) (accountId : option string)
    : SpendingEntry.input :=
  {| SpendingEntry.i_date := "2023-11-02"; SpendingEntry.i_amount := amount;
     SpendingEntry.i_category := "Food"; SpendingEntry.i_description := None;
     SpendingEntry.i_accountId := accountId; SpendingEntry.i_type := expense;
     SpendingEntry.i_transferToAccountId := None |}.

(** The entry ["e1"]: an expense of 40 already applied to account ["a"]. *)
Definition entry40 : SpendingEntry.t :=
  {| SpendingEntry.id := "e1"; SpendingEntry.date := "2023-11-02";
     SpendingEntry.amount := 40%float; SpendingEntry.category := "Food";
     SpendingEntry.description := None; SpendingEntry.accountId := Some "a";
     SpendingEntry.type := expense; SpendingEntry.transferToAccountId := None;
     SpendingEntry.createdAt := "2023-11-02T00:00:00.000Z";
     SpendingEntry.updatedAt := "2023-11-02T00:00:00.000Z" |}.

(** One account ["a"] with balance 100 and no entry. *)
Definition ledger100 : Storage :=
  {| spending := []; savings := [account "a" 100%float]; investments := [];
     settings := None |}.

(** Account ["a"] with balance 100 after the expense [entry40]. *)
Definition ledgerWithEntry : Storage :=
  {| spending := [entry40]; savings := [account "a" 100%float];
     investments := []; settings := None |}.

(** The entry ["t1"]: a transfer of 40 from ["a"] to ["b"]. *)
Definition transfer40 : SpendingEntry.t :=
  {| SpendingEntry.id := "t1"; SpendingEntry.date := "2023-11-02";
     SpendingEntry.amount := 40%float; SpendingEntry.category := "Transfer";
     SpendingEntry.description := None; SpendingEntry.accountId := Some "a";
     SpendingEntry.type := transfer; SpendingEntry.transferToAccountId := Some "b";
     SpendingEntry.createdAt := "2023-11-02T00:00:00.000Z";
     SpendingEntry.updatedAt := "2023-11-02T00:00:00.000Z" |}.

(** Accounts ["a"] and ["b"], at 60 and 40 after the transfer [transfer40]. *)
Definition ledgerWithTransfer : Storage :=
  {| spending := [transfer40];
     savings := [account "a" 60%float; account "b" 40%float];
     investments := []; settings := None |}.

(** The update [{ amount: 500 }]. *)
Definition amount500 : SpendingEntry.partial :=
  {| SpendingEntry.u_id := None; SpendingEntry.u_date := None;
     SpendingEntry.u_amount := Some 500%float; SpendingEntry.u_category := None;
     SpendingEntry.u_description := None; SpendingEntry.u_accountId := None;
     SpendingEntry.u_type := None; SpendingEntry.u_transferToAccountId := None;
     SpendingEntry.u_createdAt := None |}.

Definition investment (id : string) (amount : Num.number) : Investment.t :=
  {| Investment.id := id; Investment.name := "Fund"; Investment.amount := amount;
     Investment.date := "2023-11-03"; Investment.notes := None;
     Investment.createdAt := "2023-11-03T00:00:00.000Z";
     Investment.updatedAt := "2023-11-03T00:00:00.000Z" |}.

(** Two investments, of 10 and of 20. *)
Definition portfolio : Storage :=
  {| spending := []; savings := [];
     investments := [investment "i1" 10%float; investment "i2" 20%float];
     settings := None |}.


(** The updates [{ categories }] and [{ currency }]. *)
Definition withCategories (categories : list string) : AppSettings.partial :=
  {| AppSettings.u_monthlyTarget := None;
     AppSettings.u_categories := Some (Some categories);
     AppSettings.u_currency := None; AppSettings.u_darkMode := None;
     AppSettings.u_appTitle := None; AppSettings.u_logoUrl := None;
     AppSettings.u_categoryColors := None |}.

Definition withCurrency (currency : string) : AppSettings.partial :=
  {| AppSettings.u_monthlyTarget := None; AppSettings.u_categories := None;
     AppSettings.u_currency := Some (Some currency); AppSettings.u_darkMode := None;
     AppSettings.u_appTitle := None; AppSettings.u_logoUrl := None;
     AppSettings.u_categoryColors := None |}.

(** A new account with 250, and a new investment of 5, as the forms submit
    them. *)
Definition accountOf250 : SavingsAccount.input :=
  {| SavingsAccount.i_bankName := "Bank"; SavingsAccount.i_accountName := "Second";
     SavingsAccount.i_balance := 250%float |}.

Definition investmentOf5 : NewInvestment :=
  {| n_name := "Bond"; n_amount := 5%float; n_date := "2023-11-04";
     n_notes := None |}.

(** A transfer of 25 from ["a"] to ["b"], as the form submits it. *)
Definition transferOf25 : SpendingEntry.input :=
  {| SpendingEntry.i_date := "2023-11-05"; SpendingEntry.i_amount := 25%float;
     SpendingEntry.i_category := "Transfer"; SpendingEntry.i_description := None;
     SpendingEntry.i_accountId := Some "a"; SpendingEntry.i_type := transfer;
     SpendingEntry.i_transferToAccountId := Some "b" |}.

(** Accounts ["a"] at 60 and ["b"] at 10, after [transfer40] and a later
    withdrawal of 30 from ["b"]. *)
Definition ledgerAfterWithdrawal : Storage :=
  {| spending := [transfer40];
     savings := [account "a" 60%float; account "b" 10%float];
     investments := []; settings := None |}.

End Sample.

(** ** Definitions that follow the specification's wording *)

Module Spec.

Import JS Num.

(** The amounts of the round-trip law. *)
Definition roundTripAmounts : list number :=
  [0; 0.5; 999.99; 1000; 1234567.89]%float.

(** Half a unit of the last rendered decimal place: [0.5 / 10^decimals]. *)
Definition precision (decimals : nat) : number :=
  (0.5 / ofZ (10 ^ Z.of_nat decimals) false)%float.

(** [parse(format(amount, code), code)] is [amount] up to the precision of
    [code]. *)
Definition roundTrips (code : string) (amount : number) : bool :=
  let back := CurrencyFormatter.parse (CurrencyFormatter.format amount code) code in
  PrimFloat.leb (PrimFloat.abs (back - amount)%float)
                (precision (decimals (configOf code))).

(** Digits grouped from the right in groups of [k]: a separator follows a
    digit when the digits to its right are a positive multiple of [k]. *)
Fixpoint groupFromRight (k : nat) (sep : string) (digits : string) : string :=
  match digits with
  | EmptyString => EmptyString
  | String c r =>
      let n := String.length r in
      String c ((if (0 <? n)%nat && (n mod k =? 0)%nat then sep else EmptyString)
                  ++ groupFromRight k sep r)
  end.

(** The thresholds and suffixes of the abbreviation, as the specification
    lists them. *)
Definition suffixes : list (number * string) :=
  [ (1e3, "K"); (1e6, "M"); (1e9, "B"); (1e12, "T") ]%float.

(** The entry of [suffixes] with the largest threshold not exceeding [x]. *)
Definition largestNotExceeding (x : number) : option (number * string) :=
  fold_left
    (fun best ts =>
       if PrimFloat.leb (fst ts) x then
         match best with
         | Some b => if PrimFloat.ltb (fst b) (fst ts) then Some ts else best
         | None => Some ts
         end
       else best)
    suffixes None.

(** The quotient has a fractional part that is not zero. *)
Definition hasFraction (q : number) : bool := negb (PrimFloat.eqb (rem1 q) 0).

(** [abbreviate] in the words of the specification: below 1000 the value as
    it is (one decimal place when forced); otherwise the value divided by
    the largest threshold it reaches, with one decimal place exactly when
    forced or when the quotient has a fraction and is below 100, and rounded
    to an integer otherwise.  (Only [NaN] is neither below 1000 nor reaches a
    threshold; it is printed as it is.) *)
Definition abbreviate_spec (value : number) (forceDecimals : bool) : string :=
  if PrimFloat.ltb (PrimFloat.abs value) 1000 then
    if forceDecimals then toFixed value 1 else toString value
  else
    match largestNotExceeding (PrimFloat.abs value) with
    | Some (t, suffix) =>
        let quotient := (value / t)%float in
        if forceDecimals || (hasFraction quotient && PrimFloat.ltb quotient 100)
        then toFixed quotient 1 ++ suffix
        else toString (round quotient) ++ suffix
    | None => toString value
    end.


(** The shape of what [toFixed] prints in its fixed-point range: integer
    digits, and after a point exactly [f] digits when [f] is not zero. *)
Definition fixedShape (f : nat) (int frac : string) : string :=
  match f with
  | O => int
  | S _ => int ++ String "." frac
  end.

(** A value with no minus sign to print: not a negative finite number and
    not [-Infinity]. *)
Definition unsigned (x : spec_float) : Prop :=
  match x with
  | S754_finite true _ _ | S754_infinity true => False
  | _ => True
  end.

(** The integer digits as a currency groups them: for INR the last three
    together and pairs before them, otherwise threes from the right. *)
Definition integerGrouping (config : CurrencyConfig) (digits : string) : string :=
  if String.eqb (code config) "INR" then
    if (3 <? String.length digits)%nat
    then groupFromRight 2 "," (sliceButLast 3 digits) ++ "," ++ sliceLast 3 digits
    else digits
  else groupFromRight 3 (thousandsSeparator config) digits.

(** The grouped integer digits, then the decimal separator and the decimals
    when the currency has any. *)
Definition rendered (config : CurrencyConfig) (int frac : string) : string :=
  match decimals config with
  | O => integerGrouping config int
  | S _ => integerGrouping config int ++ decimalSeparator config ++ frac
  end.



(** The sum of the amounts of a list of investments. *)
Definition sumOfAmounts (l : list Investment.t) : number :=
  fold_right (fun i total => (Investment.amount i + total)%float) 0%float l.

End Spec.

(** ** Conditions used in the statements below *)

Module Conditions.

Import JS Num.

(** The string is empty or ends with a character that is no white space. *)
Fixpoint endsWithoutSpace (s : string) : bool :=
  match s with
  | EmptyString => true
  | String c EmptyString => negb (isSpace c)
  | String _ r => endsWithoutSpace r
  end.

(** A character that [format] writes inside the number or right after it: a
    digit, the two separators [t] and [d], or the space before the symbol. *)
Definition numericChar (t d c : ascii) : bool :=
  isDigit c || Ascii.eqb c t || Ascii.eqb c d || Ascii.eqb c " ".

(** The configurations whose formatted amounts [parse] can take apart: the
    separators are single characters, different from each other and no
    digits, the thousands separator is not the dot, the code is not IDR (and
    INR, which groups with commas, has the comma as its separator), and a
    symbol written after the number starts with a character the number and
    the space before the symbol do not contain. *)
Definition plainSeparators (config : CurrencyConfig) : bool :=
  match thousandsSeparator config, decimalSeparator config with
  | String t EmptyString, String d EmptyString =>
      negb (isDigit t) && negb (isDigit d) && negb (Ascii.eqb t d)
      && negb (Ascii.eqb t ".") && negb (isSpace d)
      && negb (String.eqb (code config) "IDR")
      && (negb (String.eqb (code config) "INR") || Ascii.eqb t ",")
      && match symbolPosition config, symbol config with
         | before, _ => true
         | after, String s0 _ => negb (numericChar t d s0)
         | after, EmptyString => false
         end
  | _, _ => false
  end.

(** The quotient [abbreviate] and [formatForChart] print: the value divided
    by the largest threshold it reaches. *)
Definition quotientOf (value : number) : option number :=
  match Spec.largestNotExceeding (PrimFloat.abs value) with
  | Some (t, _) => Some (value / t)%float
  | None => None
  end.

(** The savings account stored under [id], the first one if several. *)
Definition accountOf (id : string) (st : Storage) : option SavingsAccount.t :=
  List.find (DataManager.hasId id) (savings st).

(** The balance stored under [id]. *)
Definition balanceOf (id : string) (st : Storage) : option number :=
  SavingsAccount.balance <$> accountOf id st.

(** Some stored spending entry has the id. *)
Definition hasEntry (id : string) (st : Storage) : bool :=
  existsb (DataManager.entryHasId id) (spending st).

(** Two storages that differ in the savings accounts at most. *)
Definition sameButSavings (st st' : Storage) : Prop :=
  spending st' = spending st /\ investments st' = investments st
  /\ settings st' = settings st.

(** The update [{ amount: x }]. *)
Definition amountOnly (x : number) : SpendingEntry.partial :=
  {| SpendingEntry.u_id := None; SpendingEntry.u_date := None;
     SpendingEntry.u_amount := Some x; SpendingEntry.u_category := None;
     SpendingEntry.u_description := None; SpendingEntry.u_accountId := None;
     SpendingEntry.u_type := None; SpendingEntry.u_transferToAccountId := None;
     SpendingEntry.u_createdAt := None |}.

(** The reverting block of [updateSpendingEntry] and [deleteSpendingEntry],
    as it stands in both, for the entry found. *)
Definition revertOf (clock : Clock) (entry : SpendingEntry.t) : M unit :=
  match SpendingEntry.type entry, truthy (SpendingEntry.accountId entry),
        truthy (SpendingEntry.transferToAccountId entry) with
  | expense, Some accountId, _ =>
      accounts ← DataManager.getSavingsAccounts;
      match List.find (DataManager.hasId accountId) accounts with
      | Some account =>
          DataManager.updateSavingsAccount clock accountId
            (SavingsAccount.balanceOnly
               (SavingsAccount.balance account + SpendingEntry.amount entry)%float);;
          mret tt
      | None => mret tt
      end
  | transfer, Some accountId, Some transferToAccountId =>
      DataManager.transferBetweenAccounts clock transferToAccountId accountId
        (SpendingEntry.amount entry);;
      mret tt
  | _, _, _ => mret tt
  end.

(** The applying block of [addSpendingEntry] and [updateSpendingEntry], as it
    stands in both, for the type, accounts and amount of the entry. *)
Definition applyOf (clock : Clock) (type : EntryType)
    (accountId transferToAccountId : option string) (amount : number) : M unit :=
  match type, truthy accountId, truthy transferToAccountId with
  | expense, Some accountId, _ =>
      accounts ← DataManager.getSavingsAccounts;
      match List.find (DataManager.hasId accountId) accounts with
      | Some account =>
          if PrimFloat.leb amount (SavingsAccount.balance account)
          then
            DataManager.updateSavingsAccount clock accountId
              (SavingsAccount.balanceOnly
                 (SavingsAccount.balance account - amount)%float);;
            mret tt
          else throw DataManager.InsufficientBalance
      | None => throw DataManager.InsufficientBalance
      end
  | transfer, Some accountId, Some transferToAccountId =>
      success ← DataManager.transferBetweenAccounts clock accountId
                  transferToAccountId amount;
      if success : bool then mret tt else throw DataManager.TransferFailed
  | _, _, _ => mret tt
  end.

End Conditions.

(** * Properties *)

(** ** Strings *)

Section Strings.

Import JS.

Lemma append_cons (c : ascii) (a b : string) : String c a ++ b = String c (a ++ b).
Proof. reflexivity. Qed.

Lemma append_empty_l (b : string) : "" ++ b = b.
Proof. reflexivity. Qed.

Lemma length_append (a b : string) :
  String.length (a ++ b) = (String.length a + String.length b)%nat.
Proof.
  induction a as [|c a IH]; [reflexivity|].
  rewrite append_cons. cbn [String.length]. now rewrite IH.
Qed.

Lemma append_empty_r (a : string) : a ++ "" = a.
Proof.
  induction a as [|c a IH]; [reflexivity|]. now rewrite append_cons, IH.
Qed.

Lemma append_assoc (a b c : string) : (a ++ b) ++ c = a ++ b ++ c.
Proof.
  induction a as [|x a IH]; [reflexivity|]. now rewrite !append_cons, IH.
Qed.

Lemma dropChars_append (a b : string) : dropChars (String.length a) (a ++ b) = b.
Proof.
  induction a as [|c a IH]; [now destruct b|].
  rewrite append_cons. exact IH.
Qed.

Lemma takeChars_append (a b : string) : takeChars (String.length a) (a ++ b) = a.
Proof.
  induction a as [|c a IH]; [now destruct b|].
  rewrite append_cons. cbn [String.length takeChars]. now rewrite IH.
Qed.

Lemma all_chars_append (p : ascii -> bool) (a b : string) :
  all_chars p (a ++ b) = all_chars p a && all_chars p b.
Proof.
  induction a as [|c a IH]; [reflexivity|].
  rewrite append_cons. cbn [all_chars]. rewrite IH. now destruct (p c).
Qed.

Lemma isDigit_isWordChar (c : ascii) : isDigit c = true -> isWordChar c = true.
Proof. unfold isWordChar. now intros ->. Qed.

Lemma digitRun_digits (s : string) :
  all_chars isDigit s = true -> digitRun s = String.length s.
Proof.
  induction s as [|c s IH]; cbn [all_chars digitRun String.length]; [reflexivity|].
  destruct (isDigit c); cbn [andb]; [|discriminate]. intros H. now rewrite IH.
Qed.

(** After a digit, the pattern matches in front of a run of digits exactly
    when the run is a positive multiple of [k] long. *)
Lemma insertSeparators_digits (k : nat) (sep : string) (d : ascii) (s : string) :
  isDigit d = true -> all_chars isDigit s = true ->
  insertSeparators k sep (Some d) s
  = (if (0 <? String.length s)%nat && (String.length s mod k =? 0)%nat
     then sep else "") ++ Spec.groupFromRight k sep s.
Proof.
  revert d. induction s as [|c s IH]; intros d Hd Hs; [reflexivity|].
  cbn [all_chars] in Hs. apply andb_prop in Hs as [Hc Hs].
  cbn [insertSeparators Spec.groupFromRight].
  rewrite (IH c Hc Hs).
  unfold nonBoundary, lookaheadGroups.
  rewrite (isDigit_isWordChar d Hd), (isDigit_isWordChar c Hc).
  rewrite digitRun_digits by (cbn; now rewrite Hc, Hs).
  reflexivity.
Qed.

(** On a string of digits the replacement groups from the right. *)
Lemma groupDigits_digits (k : nat) (sep : string) (s : string) :
  all_chars isDigit s = true -> groupDigits k sep s = Spec.groupFromRight k sep s.
Proof.
  destruct s as [|c s]; [reflexivity|]. intros Hs.
  cbn [all_chars] in Hs. apply andb_prop in Hs as [Hc Hs].
  unfold groupDigits. cbn [insertSeparators Spec.groupFromRight].
  rewrite (insertSeparators_digits k sep c s Hc Hs).
  unfold nonBoundary. rewrite (isDigit_isWordChar c Hc). reflexivity.
Qed.

End Strings.

(** ** Printed numbers *)

Section PrintedNumbers.

Import JS Num Spec.

Lemma all_chars_takeChars (p : ascii -> bool) (n : nat) (s : string) :
  all_chars p s = true -> all_chars p (takeChars n s) = true.
Proof.
  revert n. induction s as [|c s IH]; intros [|n] H; try reflexivity.
  cbn [all_chars takeChars] in *. apply andb_prop in H as [-> H].
  now rewrite IH.
Qed.

Lemma all_chars_dropChars (p : ascii -> bool) (n : nat) (s : string) :
  all_chars p s = true -> all_chars p (dropChars n s) = true.
Proof.
  revert n. induction s as [|c s IH]; intros [|n] H; try reflexivity; try exact H.
  cbn [all_chars dropChars] in *. apply andb_prop in H as [_ H]. now apply IH.
Qed.

Lemma length_dropChars (n : nat) (s : string) :
  String.length (dropChars n s) = (String.length s - n)%nat.
Proof.
  revert n. induction s as [|c s IH]; intros [|n]; try reflexivity.
  cbn [dropChars String.length]. now rewrite IH.
Qed.

Lemma length_takeChars (n : nat) (s : string) :
  (n <= String.length s)%nat -> String.length (takeChars n s) = n.
Proof.
  revert n. induction s as [|c s IH]; intros [|n] H; try reflexivity.
  - cbn in H. lia.
  - cbn [takeChars String.length] in *. rewrite IH; [reflexivity | lia].
Qed.

Lemma length_zeros (n : nat) : String.length (zeros n) = n.
Proof. induction n as [|n IH]; cbn; [reflexivity | now rewrite IH]. Qed.

Lemma zeros_digits (n : nat) : all_chars isDigit (zeros n) = true.
Proof. induction n as [|n IH]; [reflexivity | exact IH]. Qed.

Lemma string_of_uint_digits (d : Decimal.uint) :
  all_chars isDigit (NilEmpty.string_of_uint d) = true.
Proof. induction d; cbn [NilEmpty.string_of_uint all_chars]; try reflexivity; exact IHd. Qed.

Lemma digitsOfZ_digits (n : Z) : all_chars isDigit (digitsOfZ n) = true.
Proof.
  unfold digitsOfZ, NilZero.string_of_uint.
  destruct (N.to_uint (Z.to_N n)); try reflexivity; apply string_of_uint_digits.
Qed.

Lemma digitsOfZ_length (n : Z) : (1 <= String.length (digitsOfZ n))%nat.
Proof.
  unfold digitsOfZ, NilZero.string_of_uint.
  destruct (N.to_uint (Z.to_N n)); cbn [NilEmpty.string_of_uint String.length]; lia.
Qed.


(** On digits, [split('.')] finds nothing to split. *)
Lemma split_digits (s : string) :
  all_chars isDigit s = true -> split "." s = [s].
Proof.
  induction s as [|c s IH]; [reflexivity|]. cbn [all_chars split].
  intros H. apply andb_prop in H as [Hc Hs]. rewrite (IH Hs).
  destruct (Ascii.eqb_spec c "."); [|reflexivity].
  subst c. discriminate.
Qed.

Lemma split_digits_point (a b : string) :
  all_chars isDigit a = true -> all_chars isDigit b = true ->
  split "." (a ++ String "." b) = [a; b].
Proof.
  intros Ha Hb. induction a as [|c a IH].
  - rewrite append_empty_l. cbn [split Ascii.eqb Bool.eqb].
    now rewrite split_digits.
  - cbn [all_chars] in Ha. apply andb_prop in Ha as [Hc Ha].
    rewrite append_cons. cbn [split]. rewrite (IH Ha).
    destruct (Ascii.eqb_spec c "."); [|reflexivity].
    subst c. discriminate.
Qed.

Lemma fixedDigits_shape (n : Z) (f : nat) :
  exists int frac,
    fixedDigits n f = fixedShape f int frac
    /\ all_chars isDigit int = true /\ (1 <= String.length int)%nat
    /\ all_chars isDigit frac = true /\ String.length frac = f.
Proof.
  unfold fixedDigits, fixedShape. destruct f as [|f].
  - exists (digitsOfZ n), "". repeat split.
    + apply digitsOfZ_digits.
    + apply digitsOfZ_length.
  - set (m := zeros (S (S f) - String.length (digitsOfZ n)) ++ digitsOfZ n).
    assert (all_chars isDigit m = true) as Hm.
    { unfold m. now rewrite all_chars_append, zeros_digits, digitsOfZ_digits. }
    assert (S (S f) <= String.length m)%nat as Hlen.
    { unfold m. rewrite length_append, length_zeros.
      pose proof (digitsOfZ_length n). lia. }
    exists (sliceButLast (S f) m), (sliceLast (S f) m).
    unfold sliceButLast, sliceLast. repeat split.
    + now apply all_chars_takeChars.
    + rewrite length_takeChars; lia.
    + now apply all_chars_dropChars.
    + rewrite length_dropChars. lia.
Qed.

(** *** The sign of a number and the first character printed *)

Lemma Prim2SF_zero : Prim2SF 0%float = S754_zero false.
Proof. reflexivity. Qed.


Lemma leb_zero_unsigned (x : number) :
  PrimFloat.leb 0 x = true -> unsigned (Prim2SF x) /\ SFabs (Prim2SF x) = match Prim2SF x with S754_zero _ => S754_zero false | y => y end.
Proof.
  rewrite leb_spec, Prim2SF_zero.
  destruct (Prim2SF x) as [[|]|[|]| |[|] m e]; cbn; try discriminate; auto.
Qed.


Lemma stripTrailingZeros_digits (s : string) :
  all_chars isDigit s = true -> all_chars isDigit (stripTrailingZeros s) = true.
Proof.
  induction s as [|c s IH]; [reflexivity|]. cbn [all_chars stripTrailingZeros].
  intros H. apply andb_prop in H as [Hc Hs]. specialize (IH Hs).
  destruct (stripTrailingZeros s) as [|d r].
  - destruct (Ascii.eqb c "0"); [reflexivity|]. cbn. now rewrite Hc.
  - cbn [all_chars] in *. now rewrite Hc, IH.
Qed.









(** In the fixed-point range a non-negative number prints as digits. *)
Lemma toFixed_shape (x : number) (f : nat) :
  PrimFloat.leb 0 x = true -> fixedRange x = true ->
  exists int frac,
    toFixed x f = fixedShape f int frac
    /\ all_chars isDigit int = true /\ (1 <= String.length int)%nat
    /\ all_chars isDigit frac = true /\ String.length frac = f.
Proof.
  intros Hpos Hr. unfold toFixed, fixedRange in *.
  destruct (leb_zero_unsigned x Hpos) as [Hu _].
  destruct (Prim2SF x) as [s|s| |[|] m e]; try discriminate; try (cbn in Hu; tauto).
  - apply fixedDigits_shape.
  - cbn [toFixedSF]. rewrite append_empty_l.
    apply negb_true_iff in Hr. rewrite Hr. apply fixedDigits_shape.
Qed.

End PrintedNumbers.

(** ** The ledger *)

Section Ledger.

Import DataManager.

(** The reducer of [getTotalInvestments] drops its accumulator: the result is
    the amount of the last investment, or [0] when there is none. *)
Lemma fold_left_last_amount (l : list Investment.t) (acc : Num.number) :
  fold_left (fun _ i => Investment.amount i) l acc
  = default acc (Investment.amount <$> last l).
Proof.
  revert acc. induction l as [|i l IH]; intros acc; [reflexivity|].
  cbn [fold_left]. rewrite IH. destruct l as [|j l]; [reflexivity|].
  change (last (i :: j :: l)) with (last (j :: l)).
  destruct (last (j :: l)) eqn:E; [reflexivity|].
  apply last_None in E. discriminate.
Qed.

Lemma getTotalInvestments_last (st : Storage) :
  getTotalInvestments st
  = (Ok (default 0%float (Investment.amount <$> last (investments st))), st).
Proof.
  unfold getTotalInvestments, getInvestments, getStorage.
  cbv [mbind M_bind mret M_ret]. now rewrite fold_left_last_amount.
Qed.

(** C3: on the investments of 10 and 20, [getTotalInvestments] returns 20,
    the amount of the last one, where the sum of the amounts is 30. *)
Theorem getTotalInvestments_returns_last_amount :
  getTotalInvestments Sample.portfolio = (Ok 20%float, Sample.portfolio)
  /\ Spec.sumOfAmounts (investments Sample.portfolio) = 30%float.
Proof. split; reflexivity. Qed.

(** C1: updating the applied expense of 40 on an account of balance 100 to
    an amount of 500 throws [InsufficientBalance] and leaves the entry as it
    was stored, but the balance at 140: the revert alone stays applied.  The
    same for a transfer of 40 between accounts left at 60 and 40: the update
    throws [TransferFailed] with the balances back at 100 and 0. *)
Theorem updateSpendingEntry_failed_reapply_keeps_revert :
  (let r := updateSpendingEntry Sample.clock "e1" Sample.amount500
              Sample.ledgerWithEntry in
   fst r = Throw InsufficientBalance
   /\ spending (snd r) = spending Sample.ledgerWithEntry
   /\ map SavingsAccount.balance (savings Sample.ledgerWithEntry) = [100%float]
   /\ map SavingsAccount.balance (savings (snd r)) = [140%float])
  /\ (let r := updateSpendingEntry Sample.clock "t1" Sample.amount500
                 Sample.ledgerWithTransfer in
      fst r = Throw TransferFailed
      /\ spending (snd r) = spending Sample.ledgerWithTransfer
      /\ map SavingsAccount.balance (savings Sample.ledgerWithTransfer)
         = [60%float; 40%float]
      /\ map SavingsAccount.balance (savings (snd r)) = [100%float; 0%float]).
Proof. vm_compute. repeat split. Qed.

(** [transferBetweenAccounts] changes nothing when it returns [false] (its
    writes are taken to succeed). *)
Lemma transferBetweenAccounts_result (clock : Clock) (fromId toId : string)
    (amount : Num.number) (st : Storage) :
  transferBetweenAccounts clock fromId toId amount st = (Ok false, st)
  \/ exists st', transferBetweenAccounts clock fromId toId amount st = (Ok true, st').
Proof.
  unfold transferBetweenAccounts, getSavingsAccounts, getStorage.
  cbv [mbind M_bind mret M_ret].
  destruct (List.find (hasId fromId) (savings st)) as [fromAccount|]; [|now left].
  destruct (List.find (hasId toId) (savings st)) as [toAccount|]; [|now left].
  destruct (PrimFloat.ltb (SavingsAccount.balance fromAccount) amount); [now left|].
  right.
  unfold updateSavingsAccount, getSavingsAccounts, getStorage, modifyStorage.
  cbv [mbind M_bind mret M_ret].
  destruct (findIndex (hasId fromId) (savings st)) as [[i a]|]; cbn [savings setSavings];
    match goal with
    | |- context [findIndex (hasId toId) ?l] =>
        destruct (findIndex (hasId toId) l) as [[j b]|]
    end; eauto.
Qed.

(** [addSpendingEntry] checks before it writes: when it throws, the storage
    is as it was. *)
Lemma addSpendingEntry_throw_unchanged (clock : Clock)
    (entry : SpendingEntry.input) (st st' : Storage) (message : string) :
  addSpendingEntry clock entry st = (Throw message, st') -> st' = st.
Proof.
  unfold addSpendingEntry, getSpendingEntries, getSavingsAccounts, getStorage,
    modifyStorage, throw.
  cbv [mbind M_bind mret M_ret].
  destruct (SpendingEntry.i_type entry);
    destruct (truthy (SpendingEntry.i_accountId entry)) as [accountId|];
    try destruct (truthy (SpendingEntry.i_transferToAccountId entry)) as [toId|];
    try discriminate.
  - destruct (List.find (hasId accountId) (savings st)) as [account|]; [|congruence].
    destruct (PrimFloat.leb (SpendingEntry.i_amount entry)
                (SavingsAccount.balance account)); [|congruence].
    destruct (updateSavingsAccount clock accountId _ st) as [[r|e] st1] eqn:E;
      [discriminate|].
    revert E. unfold updateSavingsAccount, getSavingsAccounts, getStorage, modifyStorage.
    cbv [mbind M_bind mret M_ret].
    destruct (findIndex (hasId accountId) (savings st)) as [[i a]|]; discriminate.
  - destruct (List.find (hasId accountId) (savings st)) as [account|]; [|congruence].
    destruct (PrimFloat.leb (SpendingEntry.i_amount entry)
                (SavingsAccount.balance account)); [|congruence].
    destruct (updateSavingsAccount clock accountId _ st) as [[r|e] st1] eqn:E;
      [discriminate|].
    revert E. unfold updateSavingsAccount, getSavingsAccounts, getStorage, modifyStorage.
    cbv [mbind M_bind mret M_ret].
    destruct (findIndex (hasId accountId) (savings st)) as [[i a]|]; discriminate.
  - destruct (transferBetweenAccounts_result clock accountId toId
                (SpendingEntry.i_amount entry) st) as [E|[st1 E]];
      rewrite E; [congruence | discriminate].
Qed.

(** C7: an expense of 150 on an existing account of balance 100 throws
    [InsufficientBalance] and leaves the whole storage as it was: the balance
    stays 100 and the entry is not stored. *)
Theorem addSpendingEntry_insufficient_balance
    (clock : Clock) (st : Storage) (entry : SpendingEntry.input)
    (accId : string) (account : SavingsAccount.t) :
  SpendingEntry.i_type entry = expense ->
  SpendingEntry.i_accountId entry = Some accId ->
  accId <> "" ->
  List.find (hasId accId) (savings st) = Some account ->
  SavingsAccount.balance account = 100%float ->
  SpendingEntry.i_amount entry = 150%float ->
  addSpendingEntry clock entry st = (Throw InsufficientBalance, st).
Proof.
  intros Hty Hacc Hne Hfind Hbal Hamt.
  unfold addSpendingEntry, getSpendingEntries, getSavingsAccounts, getStorage.
  rewrite Hty, Hacc, Hamt.
  destruct accId as [|c r]; [congruence|].
  cbv [truthy mbind M_bind mret M_ret].
  rewrite Hfind, Hbal. reflexivity.
Qed.

Lemma addSpendingEntry_insufficient_balance_witness :
  addSpendingEntry Sample.clock (Sample.expenseOf 150%float (Some "a"))
    Sample.ledger100
  = (Throw InsufficientBalance, Sample.ledger100).
Proof.
  apply (addSpendingEntry_insufficient_balance Sample.clock Sample.ledger100
           (Sample.expenseOf 150%float (Some "a")) "a"
           (Sample.account "a" 100%float));
    first [reflexivity | discriminate].
Defined.



End Ledger.

(** ** The currency formatter *)

Section Currency.

Import CurrencyFormatter.

(** C4 as stated fails: a whole IDR amount is not rendered without decimals. *)
Lemma format_IDR_whole_amount_has_decimals :
  format 1234567%float "IDR" <> "Rp1.234.567".
Proof. vm_compute. discriminate. Qed.

(** C2: the round trip fails.  [format(0.5, 'IDR')] is ["Rp0,50"], which
    [parse] reads as 50; [format(1000, 'EUR')] is ["1.000,00 €"], read as 1.
    The codes for which some amount of the law does not come back are the six
    whose thousands separator is the dot. *)
Theorem parse_format_round_trip_fails :
  format 0.5%float "IDR" = "Rp0,50"
  /\ parse (format 0.5%float "IDR") "IDR" = 50%float
  /\ format 1000%float "EUR" = "1.000,00 €"
  /\ parse (format 1000%float "EUR") "EUR" = 1%float
  /\ List.filter (fun code => negb (forallb (Spec.roundTrips code) Spec.roundTripAmounts))
       supportedCodes
     = ["EUR"; "IDR"; "DKK"; "BRL"; "VND"; "TRY"].
Proof. vm_compute. repeat split. Qed.

(** *** The sign and the decimals of a formatted amount *)







Lemma lakhGrouping_digits (int : string) :
  JS.all_chars JS.isDigit int = true ->
  lakhGrouping int
  = if (3 <? String.length int)%nat
    then Spec.groupFromRight 2 "," (JS.sliceButLast 3 int) ++ "," ++ JS.sliceLast 3 int
    else int.
Proof.
  intros H. unfold lakhGrouping.
  destruct (3 <? String.length int)%nat; [|reflexivity].
  rewrite groupDigits_digits; [reflexivity|].
  now apply all_chars_takeChars.
Qed.

(** A non-negative amount in the fixed-point range is rendered as its
    grouped integer digits followed by exactly [decimals] digits. *)
Lemma formatNumber_rendered (amount : Num.number) (config : CurrencyConfig) :
  PrimFloat.leb 0 amount = true -> Num.fixedRange amount = true ->
  exists int frac,
    JS.all_chars JS.isDigit int = true /\ (1 <= String.length int)%nat
    /\ JS.all_chars JS.isDigit frac = true
    /\ String.length frac = decimals config
    /\ Num.toFixed amount (decimals config) = Spec.fixedShape (decimals config) int frac
    /\ formatNumber amount config = Spec.rendered config int frac.
Proof.
  intros Hpos Hr.
  destruct (toFixed_shape amount (decimals config) Hpos Hr)
    as (int & frac & E & Hi & Hl & Hf & Hlf).
  exists int, frac. repeat (split; [assumption|]).
  unfold formatNumber, Spec.rendered, Spec.integerGrouping, joinParts.
  cbv zeta. rewrite E. unfold Spec.fixedShape.
  destruct (decimals config) as [|d] eqn:Ed.
  - rewrite (split_digits int Hi).
    change ([int] !! 0%nat) with (Some int). change ([int] !! 1%nat) with (@None string).
    cbn [default from_option id truthyPart Nat.ltb Nat.leb andb].
    destruct (String.eqb_spec (code config) "IDR") as [Ec|_].
    + rewrite Ec. cbn [String.eqb Ascii.eqb Bool.eqb andb].
      now rewrite groupDigits_digits.
    + destruct (String.eqb (code config) "INR").
      * now apply lakhGrouping_digits.
      * now rewrite groupDigits_digits.
  - rewrite (split_digits_point int frac Hi Hf).
    change ([int; frac] !! 0%nat) with (Some int).
    change ([int; frac] !! 1%nat) with (Some frac).
    destruct frac as [|c frac]; [discriminate|].
    cbn [default from_option id truthyPart Nat.ltb Nat.leb andb].
    destruct (String.eqb_spec (code config) "IDR") as [Ec|_].
    + rewrite Ec. cbn [String.eqb Ascii.eqb Bool.eqb andb].
      now rewrite groupDigits_digits.
    + destruct (String.eqb (code config) "INR").
      * now rewrite lakhGrouping_digits.
      * now rewrite groupDigits_digits.
Qed.


(** The INR block on a string of more than three characters: the last three
    stay together and the digits before them are grouped in pairs. *)
Lemma lakhGrouping_pairs (hi lo : string) :
  JS.all_chars JS.isDigit hi = true -> hi <> "" -> String.length lo = 3%nat ->
  lakhGrouping (hi ++ lo) = Spec.groupFromRight 2 "," hi ++ "," ++ lo.
Proof.
  intros Hd Hne Hlo. unfold lakhGrouping, JS.sliceLast, JS.sliceButLast.
  rewrite length_append, Hlo.
  replace (String.length hi + 3 - 3)%nat with (String.length hi) by lia.
  rewrite dropChars_append, takeChars_append, groupDigits_digits by exact Hd.
  destruct hi as [|c hi]; [congruence|].
  cbn [String.length]. replace (3 <? S (String.length hi) + 3)%nat with true; [reflexivity|].
  symmetry. apply Nat.ltb_lt. lia.
Qed.

(** C6: [format(1234567.89, 'INR')] is ["₹12,34,567.89"].  The INR branch
    keeps the last three digits of the integer part together and groups the
    digits before them in pairs from the right; up to three digits are left
    alone; the grouping of the other currencies, every three digits, gives
    ["1,234,567"] on the same digits. *)
Theorem format_INR_lakh_grouping :
  format 1234567.89%float "INR" = "₹12,34,567.89"
  /\ (forall hi lo : string,
        JS.all_chars JS.isDigit hi = true -> hi <> "" -> String.length lo = 3%nat ->
        lakhGrouping (hi ++ lo) = Spec.groupFromRight 2 "," hi ++ "," ++ lo)
  /\ (forall ds : string, (String.length ds <= 3)%nat -> lakhGrouping ds = ds)
  /\ lakhGrouping "1234567" = "12,34,567"
  /\ JS.groupDigits 3 "," "1234567" = "1,234,567".
Proof.
  split; [vm_compute; reflexivity|].
  split; [exact lakhGrouping_pairs|].
  split; [|split; reflexivity].
  intros ds Hle. unfold lakhGrouping.
  replace (3 <? String.length ds)%nat with false; [reflexivity|].
  symmetry. apply Nat.ltb_ge. exact Hle.
Qed.

End Currency.

(** ** Signed amounts *)

Section SignedAmounts.

Import JS Num Spec CurrencyFormatter.









(** C4, amended: for every amount from zero up to [10^21], excluded,
    [format(amount, 'IDR')] is ["Rp"], the integer digits of
    [amount.toFixed(2)] grouped in threes by dots, a comma, and the two
    decimal digits of [amount.toFixed(2)]; so [format(1234567, 'IDR')] is
    ["Rp1.234.567,00"] and [format(1234567.5, 'IDR')] is
    ["Rp1.234.567,50"]. *)
Theorem format_IDR_examples :
  format 1234567%float "IDR" = "Rp1.234.567,00"
  /\ format 1234567.5%float "IDR" = "Rp1.234.567,50"
  /\ decimals (configOf "IDR") = 2%nat
  /\ thousandsSeparator (configOf "IDR") = "."
  /\ forall amount : number,
       PrimFloat.leb 0 amount = true -> fixedRange amount = true ->
       exists int frac,
         all_chars isDigit int = true /\ (1 <= String.length int)%nat
         /\ all_chars isDigit frac = true /\ String.length frac = 2%nat
         /\ toFixed amount 2 = int ++ "." ++ frac
         /\ format amount "IDR" = "Rp" ++ groupFromRight 3 "." int ++ "," ++ frac.
Proof.
  do 4 (split; [vm_compute; reflexivity|]).
  intros amount Hpos Hr.
  destruct (formatNumber_rendered amount (configOf "IDR") Hpos Hr)
    as (int & frac & Hi & Hl & Hf & Hlf & E & F).
  exists int, frac. do 3 (split; [assumption|]). split; [exact Hlf|].
  split.
  - rewrite (append_cons "." "" frac), append_empty_l. exact E.
  - unfold format. cbv zeta. rewrite F. reflexivity.
Qed.


End SignedAmounts.


(** ** Settings *)

Section Settings.

Import DataManager Spec.

Lemma truthy_Some (o : option string) (v : string) :
  o = Some v -> v <> "" -> truthy o = Some v.
Proof. intros -> Hv. destruct v; [congruence | reflexivity]. Qed.


Lemma elem_of_cons_ne (k c : string) (l : list string) :
  k <> c -> k ∈ c :: l <-> k ∈ l.
Proof. intros Hne. rewrite elem_of_cons. tauto. Qed.

Lemma hasColor_insert_ne (m : CategoryColor) (c k v : string) :
  c <> k -> hasColor (<[c := v]> m) k = hasColor m k.
Proof. intros Hne. unfold hasColor. now rewrite lookup_insert_ne. Qed.

(** What [forEach] leaves in the map, key by key: gray for a listed category
    whose colour was falsy, and what was there before otherwise. *)
Lemma ensureColors_lookup (categories : list string) (m : CategoryColor) (k : string) :
  ensureColors categories m !! k
  = if hasColor m k || negb (bool_decide (k ∈ categories)) then m !! k
    else Some defaultGray.
Proof.
  revert m. induction categories as [|c categories IH]; intros m.
  - cbn [ensureColors fold_left].
    rewrite bool_decide_eq_false_2 by apply not_elem_of_nil.
    now rewrite orb_true_r.
  - unfold ensureColors in *. cbn [fold_left]. rewrite IH. unfold ensureColor.
    destruct (hasColor m c) eqn:Ec.
    + destruct (decide (k = c)) as [->|Hne]; [now rewrite Ec|].
      now rewrite (bool_decide_ext _ _ (elem_of_cons_ne k c categories Hne)).
    + destruct (decide (c = k)) as [<-|Hck].
      * rewrite lookup_insert_eq, Ec.
        rewrite (bool_decide_eq_true_2 (c ∈ c :: categories))
          by apply list_elem_of_here.
        unfold hasColor at 1. now rewrite lookup_insert_eq.
      * rewrite lookup_insert_ne, hasColor_insert_ne by exact Hck.
        now rewrite (bool_decide_ext _ _
                       (elem_of_cons_ne k c categories (not_eq_sym Hck))).
Qed.


(** [getSettings] never throws, leaves the storage alone, reads its
    categories from the stored settings, and takes its colours from the
    built-in table and those categories only. *)
Lemma getSettings_eq (st : Storage) :
  exists s,
    getSettings st = (Ok s, st)
    /\ AppSettings.categories s
       = default defaultCategories
           (settings st ≫= AppSettings.j_categories)
    /\ AppSettings.categoryColors s
       = ensureColors (AppSettings.categories s) defaultCategoryColors.
Proof.
  unfold getSettings, getStorage. cbv [mbind M_bind mret M_ret].
  eexists. split; [reflexivity|]. cbn.
  split; [|reflexivity]. now destruct (settings st).
Qed.



End Settings.

(** ** The number abbreviator *)

Section Abbreviation.

Import NumberFormatter.

(** The loop, which takes the first threshold reached in the descending
    table, selects the largest threshold not exceeding [|value|]. *)
Lemma abbreviate_refines_spec (value : Num.number) (forceDecimals : bool) :
  abbreviate value forceDecimals = Spec.abbreviate_spec value forceDecimals.
Proof.
  unfold abbreviate, Spec.abbreviate_spec.
  destruct (PrimFloat.ltb (PrimFloat.abs value) 1000); [reflexivity|].
  unfold Spec.largestNotExceeding, Spec.suffixes, abbreviations.
  cbn [abbreviateLoop fold_left threshold fst snd].
  destruct (PrimFloat.leb 1e12 (PrimFloat.abs value));
    destruct (PrimFloat.leb 1e9 (PrimFloat.abs value));
    destruct (PrimFloat.leb 1e6 (PrimFloat.abs value));
    destruct (PrimFloat.leb 1e3 (PrimFloat.abs value));
    reflexivity.
Qed.

(** [Spec.largestNotExceeding] does select an entry of the table that [x]
    reaches and that no other entry [x] reaches exceeds. *)
Lemma largestNotExceeding_largest (x t : Num.number) (s : string) :
  Spec.largestNotExceeding x = Some (t, s) ->
  In (t, s) Spec.suffixes
  /\ PrimFloat.leb t x = true
  /\ forall t' s', In (t', s') Spec.suffixes ->
        PrimFloat.leb t' x = true -> PrimFloat.leb t' t = true.
Proof.
  unfold Spec.largestNotExceeding, Spec.suffixes. cbn [fold_left fst].
  destruct (PrimFloat.leb 1e3 x) eqn:E3; destruct (PrimFloat.leb 1e6 x) eqn:E6;
    destruct (PrimFloat.leb 1e9 x) eqn:E9; destruct (PrimFloat.leb 1e12 x) eqn:E12;
    cbv; intros [= <- <-]; (split; [tauto|]); (split; [assumption|]);
    intros t' s' H; repeat destruct H as [[= <- <-]|H]; try contradiction;
    intros Hle; first [reflexivity | congruence].
Qed.

(** C8: [abbreviate] is the abbreviation the specification words: the value
    as it is below 1000 (one decimal place when forced), otherwise the
    quotient by the largest threshold not exceeding [|value|] with its
    suffix, with one decimal place exactly when forced or when the quotient
    has a fraction and is below 100, and rounded otherwise; so
    [abbreviate(1500)] is ["1.5K"] and [abbreviate(150000000)] is ["150M"]. *)
Theorem abbreviate_as_specified :
  (forall (value : Num.number) (forceDecimals : bool),
      abbreviate value forceDecimals = Spec.abbreviate_spec value forceDecimals)
  /\ (forall (x t : Num.number) (s : string),
        Spec.largestNotExceeding x = Some (t, s) ->
        In (t, s) Spec.suffixes
        /\ PrimFloat.leb t x = true
        /\ forall t' s', In (t', s') Spec.suffixes ->
              PrimFloat.leb t' x = true -> PrimFloat.leb t' t = true)
  /\ abbreviate 1500%float false = "1.5K"
  /\ abbreviate 150000000%float false = "150M".
Proof.
  split; [exact abbreviate_refines_spec|].
  split; [exact largestNotExceeding_largest|].
  split; vm_compute; reflexivity.
Qed.

End Abbreviation.

(** ** Look-ups in the stored lists *)

Section Lookups.

Context {A : Type}.

Lemma find_findIndex (p : A -> bool) (l : list A) :
  List.find p l = snd <$> findIndex p l.
Proof.
  induction l as [|x l IH]; [reflexivity|]. cbn [List.find findIndex].
  destruct (p x); [reflexivity|]. rewrite IH.
  now destruct (findIndex p l) as [[i y]|].
Qed.

Lemma findIndex_of_find (p : A -> bool) (l : list A) (x : A) :
  List.find p l = Some x -> exists i, findIndex p l = Some (i, x).
Proof.
  rewrite find_findIndex. destruct (findIndex p l) as [[i y]|]; [|discriminate].
  intros [= <-]. eauto.
Qed.

Lemma findIndex_None (p : A -> bool) (l : list A) :
  List.find p l = None -> findIndex p l = None.
Proof.
  rewrite find_findIndex. now destruct (findIndex p l) as [[i y]|].
Qed.

Lemma findIndex_Some (p : A -> bool) (l : list A) (i : nat) (x : A) :
  findIndex p l = Some (i, x) -> l !! i = Some x /\ p x = true.
Proof.
  revert i. induction l as [|y l IH]; intros i; [discriminate|].
  cbn [findIndex]. destruct (p y) eqn:Ey.
  - intros [= <- <-]. now split.
  - destruct (findIndex p l) as [[j z]|]; [|discriminate].
    intros [= <- <-]. exact (IH j eq_refl).
Qed.

(** Writing at the index found an element that still passes the test. *)
Lemma findIndex_insert_hit (p : A -> bool) (l : list A) (i : nat) (x y : A) :
  findIndex p l = Some (i, x) -> p y = true ->
  findIndex p (<[i := y]> l) = Some (i, y).
Proof.
  revert i. induction l as [|z l IH]; intros i; [discriminate|].
  cbn [findIndex]. destruct (p z) eqn:Ez.
  - intros [= <- <-] Hy.
    change (<[0%nat := y]> (z :: l)) with (y :: l).
    cbn [findIndex]. now rewrite Hy.
  - destruct (findIndex p l) as [[j w]|] eqn:E; [|discriminate].
    intros [= <- <-] Hy.
    change (<[S j := y]> (z :: l)) with (z :: <[j := y]> l).
    cbn [findIndex]. rewrite Ez, (IH j eq_refl Hy). reflexivity.
Qed.

(** Replacing an element that fails a test by one that fails it too. *)
Lemma findIndex_insert_miss (q : A -> bool) (l : list A) (i : nat) (x y : A) :
  l !! i = Some x -> q x = false -> q y = false ->
  findIndex q (<[i := y]> l) = findIndex q l.
Proof.
  revert i. induction l as [|z l IH]; intros i; [discriminate|].
  destruct i as [|i].
  - intros [= ->] Hx Hy.
    change (<[0%nat := y]> (x :: l)) with (y :: l).
    cbn [findIndex]. now rewrite Hx, Hy.
  - intros Hl Hx Hy.
    change (<[S i := y]> (z :: l)) with (z :: <[i := y]> l).
    cbn [findIndex]. now rewrite (IH i Hl Hx Hy).
Qed.

Lemma find_insert_miss (q : A -> bool) (l : list A) (i : nat) (x y : A) :
  l !! i = Some x -> q x = false -> q y = false ->
  List.find q (<[i := y]> l) = List.find q l.
Proof.
  intros Hl Hx Hy. now rewrite !find_findIndex, (findIndex_insert_miss q l i x y).
Qed.

Lemma find_insert_hit (p : A -> bool) (l : list A) (i : nat) (x y : A) :
  findIndex p l = Some (i, x) -> p y = true ->
  List.find p (<[i := y]> l) = Some y.
Proof.
  intros E Hy. now rewrite find_findIndex, (findIndex_insert_hit p l i x y E Hy).
Qed.

(** The first match of an appended list is that of the list when there is
    one. *)
Lemma find_app (p : A -> bool) (l r : list A) :
  List.find p (l ++ r) = match List.find p l with
                         | Some x => Some x
                         | None => List.find p r
                         end.
Proof.
  induction l as [|x l IH]; [reflexivity|]. cbn. now destruct (p x).
Qed.

(** What [filter] keeps when nothing is dropped, and how the lengths tell. *)
Lemma filter_length_eqb (p : A -> bool) (l : list A) :
  (length (List.filter p l) =? length l)%nat = forallb p l.
Proof.
  induction l as [|x l IH]; [reflexivity|]. cbn [List.filter forallb].
  pose proof (List.filter_length_le p l) as Hle.
  destruct (p x); cbn [length andb].
  - exact IH.
  - apply Nat.eqb_neq. lia.
Qed.

Lemma filter_forallb (p : A -> bool) (l : list A) :
  forallb p l = true -> List.filter p l = l.
Proof.
  induction l as [|x l IH]; [reflexivity|]. cbn [List.filter forallb].
  intros H. apply andb_prop in H as [-> H]. now rewrite IH.
Qed.

Lemma find_filter_none (q p : A -> bool) (l : list A) :
  (forall x, q x = true -> p x = false) -> List.find q (List.filter p l) = None.
Proof.
  intros H. induction l as [|x l IH]; [reflexivity|]. cbn [List.filter].
  destruct (p x) eqn:Ep; [|exact IH]. cbn [List.find].
  destruct (q x) eqn:Eq; [|exact IH]. rewrite (H x Eq) in Ep. discriminate.
Qed.

Lemma find_filter_same (q p : A -> bool) (l : list A) :
  (forall x, q x = true -> p x = true) ->
  List.find q (List.filter p l) = List.find q l.
Proof.
  intros H. induction l as [|x l IH]; [reflexivity|]. cbn [List.filter List.find].
  destruct (q x) eqn:Eq.
  - rewrite (H x Eq). cbn [List.find]. now rewrite Eq.
  - destruct (p x); [cbn [List.find]; rewrite Eq|]; exact IH.
Qed.

Lemma existsb_forallb_negb (p : A -> bool) (l : list A) :
  forallb (fun x => negb (p x)) l = negb (existsb p l).
Proof.
  induction l as [|x l IH]; [reflexivity|]. cbn. rewrite IH. now destruct (p x).
Qed.

Lemma existsb_find (p : A -> bool) (l : list A) :
  existsb p l = match List.find p l with Some _ => true | None => false end.
Proof.
  induction l as [|x l IH]; [reflexivity|]. cbn [existsb List.find].
  destruct (p x); [reflexivity | exact IH].
Qed.

End Lookups.

(** ** Savings accounts *)

Ltac run_storage :=
  cbv [mbind M_bind mret M_ret throw getStorage modifyStorage].

Section Accounts.

Import DataManager Conditions.

Variable clock : Clock.

Lemma hasId_eq (id : string) (a : SavingsAccount.t) :
  hasId id a = true -> SavingsAccount.id a = id.
Proof. apply String.eqb_eq. Qed.

Lemma hasId_other (id other : string) (a : SavingsAccount.t) :
  hasId id a = true -> other <> id -> hasId other a = false.
Proof.
  intros H Hne. apply hasId_eq in H. unfold hasId. apply String.eqb_neq. congruence.
Qed.

Lemma updateSavingsAccount_found (id : string) (u : SavingsAccount.partial)
    (st : Storage) (i : nat) (a : SavingsAccount.t) :
  findIndex (hasId id) (savings st) = Some (i, a) ->
  updateSavingsAccount clock id u st
  = (Ok (Some (mergeAccount clock a u)),
     setSavings (<[i := mergeAccount clock a u]> (savings st)) st).
Proof.
  intros E. unfold updateSavingsAccount, getSavingsAccounts. run_storage.
  now rewrite E.
Qed.

Lemma updateSavingsAccount_missing (id : string) (u : SavingsAccount.partial)
    (st : Storage) :
  accountOf id st = None -> updateSavingsAccount clock id u st = (Ok None, st).
Proof.
  intros E. apply findIndex_None in E.
  unfold updateSavingsAccount, getSavingsAccounts. run_storage. now rewrite E.
Qed.

(** The storage after the balance of the account at index [i] is set. *)
Lemma balance_written (id : string) (b : Num.number) (st : Storage) (i : nat)
    (a : SavingsAccount.t) :
  findIndex (hasId id) (savings st) = Some (i, a) ->
  let a' := mergeAccount clock a (SavingsAccount.balanceOnly b) in
  let st' := setSavings (<[i := a']> (savings st)) st in
  findIndex (hasId id) (savings st') = Some (i, a')
  /\ accountOf id st' = Some a'
  /\ (forall other, other <> id ->
        findIndex (hasId other) (savings st') = findIndex (hasId other) (savings st)
        /\ accountOf other st' = accountOf other st).
Proof.
  intros E a' st'. destruct (findIndex_Some _ _ _ _ E) as [Hl Ha].
  assert (hasId id a' = true) as Ha' by exact Ha.
  split; [exact (findIndex_insert_hit _ _ _ _ _ E Ha')|].
  split; [exact (find_insert_hit _ _ _ _ _ E Ha')|].
  intros other Hne.
  assert (hasId other a = false) as Ho by now apply (hasId_other id).
  split.
  - now apply (findIndex_insert_miss _ _ _ a).
  - now apply (find_insert_miss _ _ _ a).
Qed.

(** [updateSavingsAccount(id, { balance })] is an overwrite: the first
    account stored under [id] gets the balance given, whatever it held; its
    names and every account under another id stay; an unknown [id] gives
    [null] and changes nothing.  The balance given is its own JSON image. *)
Theorem updateSavingsAccount_overwrites_balance
    (id : string) (b : Num.number) (st : Storage) :
  Num.jsonNumber b = Some b ->
  (forall a, accountOf id st = Some a ->
     exists a' st',
       updateSavingsAccount clock id (SavingsAccount.balanceOnly b) st
       = (Ok (Some a'), st')
       /\ accountOf id st' = Some a'
       /\ SavingsAccount.balance a' = b
       /\ SavingsAccount.bankName a' = SavingsAccount.bankName a
       /\ SavingsAccount.accountName a' = SavingsAccount.accountName a
       /\ (forall other, other <> id -> accountOf other st' = accountOf other st)
       /\ length (savings st') = length (savings st)
       /\ spending st' = spending st)
  /\ (accountOf id st = None ->
        updateSavingsAccount clock id (SavingsAccount.balanceOnly b) st
        = (Ok None, st)).
Proof.
  intros _. split; [|apply updateSavingsAccount_missing].
  intros a Ha. destruct (findIndex_of_find _ _ _ Ha) as [i E].
  destruct (balance_written id b st i a E) as (_ & Hid & Hother).
  eexists _, _. split; [exact (updateSavingsAccount_found id _ st i a E)|].
  split; [exact Hid|]. repeat split.
  - intros other Hne. exact (proj2 (Hother other Hne)).
  - cbn [savings setSavings]. apply length_insert.
Qed.

End Accounts.

Lemma updateSavingsAccount_overwrites_balance_witness :
  exists a' st',
    DataManager.updateSavingsAccount Sample.clock "a"
      (SavingsAccount.balanceOnly 7%float) Sample.ledger100 = (Ok (Some a'), st')
    /\ Conditions.accountOf "a" st' = Some a'.
Proof.
  destruct (proj1 (updateSavingsAccount_overwrites_balance Sample.clock "a" 7%float
                     Sample.ledger100 eq_refl)
              (Sample.account "a" 100%float) eq_refl)
    as (a' & st' & E & Hid & _).
  exists a', st'. split; assumption.
Defined.

(** ** Transfers between accounts *)

Section Transfers.

Import DataManager Conditions.

Variable clock : Clock.

Lemma balanceOf_account (id : string) (st : Storage) (a : SavingsAccount.t) :
  accountOf id st = Some a -> balanceOf id st = Some (SavingsAccount.balance a).
Proof. unfold balanceOf. now intros ->. Qed.

(** A transfer that passes the test, step by step: the source is written
    first, then the destination, each with a balance computed from the
    accounts read on entry. *)
Lemma transferBetweenAccounts_steps (fromId toId : string) (amount : Num.number)
    (st : Storage) (i j : nat) (f t t1 : SavingsAccount.t) :
  accountOf fromId st = Some f -> accountOf toId st = Some t ->
  PrimFloat.ltb (SavingsAccount.balance f) amount = false ->
  findIndex (hasId fromId) (savings st) = Some (i, f) ->
  let f' := mergeAccount clock f
              (SavingsAccount.balanceOnly (SavingsAccount.balance f - amount)%float) in
  let st1 := setSavings (<[i := f']> (savings st)) st in
  findIndex (hasId toId) (savings st1) = Some (j, t1) ->
  let t' := mergeAccount clock t1
              (SavingsAccount.balanceOnly (SavingsAccount.balance t + amount)%float) in
  transferBetweenAccounts clock fromId toId amount st
  = (Ok true, setSavings (<[j := t']> (savings st1)) st1).
Proof.
  intros Hf Ht Hlt Ei f' st1 Ej t'.
  unfold transferBetweenAccounts, getSavingsAccounts. run_storage.
  unfold accountOf in Hf, Ht. rewrite Hf, Ht, Hlt.
  rewrite (updateSavingsAccount_found clock fromId _ st i f Ei).
  fold f' st1. rewrite (updateSavingsAccount_found clock toId _ st1 j t1 Ej).
  reflexivity.
Qed.

Lemma transferBetweenAccounts_moved
    (fromId toId : string) (amount : Num.number) (st : Storage)
    (f t : SavingsAccount.t) :
  fromId <> toId ->
  accountOf fromId st = Some f -> accountOf toId st = Some t ->
  PrimFloat.ltb (SavingsAccount.balance f) amount = false ->
  exists st',
    transferBetweenAccounts clock fromId toId amount st = (Ok true, st')
    /\ balanceOf fromId st' = Some (SavingsAccount.balance f - amount)%float
    /\ balanceOf toId st' = Some (SavingsAccount.balance t + amount)%float
    /\ (forall other, other <> fromId -> other <> toId ->
          accountOf other st' = accountOf other st)
    /\ spending st' = spending st.
Proof.
  intros Hne Hf Ht Hlt.
  destruct (findIndex_of_find _ _ _ Hf) as [i Ei].
  destruct (findIndex_of_find _ _ _ Ht) as [j Ej].
  destruct (balance_written clock fromId (SavingsAccount.balance f - amount)%float
              st i f Ei) as (_ & Hf1 & Ho1).
  destruct (Ho1 toId (not_eq_sym Hne)) as [Ej1 _]. rewrite Ej in Ej1.
  set (f' := mergeAccount clock f _) in *.
  set (st1 := setSavings (<[i := f']> (savings st)) st) in *.
  destruct (balance_written clock toId (SavingsAccount.balance t + amount)%float
              st1 j t Ej1) as (_ & Ht2 & Ho2).
  set (t' := mergeAccount clock t _) in *.
  set (st2 := setSavings (<[j := t']> (savings st1)) st1) in *.
  exists st2. split.
  { exact (transferBetweenAccounts_steps fromId toId amount st i j f t t
             Hf Ht Hlt Ei Ej1). }
  split.
  { unfold balanceOf. rewrite (proj2 (Ho2 fromId Hne)), Hf1. reflexivity. }
  split; [unfold balanceOf; now rewrite Ht2|].
  split; [|reflexivity].
  intros other H1 H2. rewrite (proj2 (Ho2 other H2)). exact (proj2 (Ho1 other H1)).
Qed.

(** A transfer between two different accounts that the source can cover
    debits the source and credits the destination by the amount, and leaves
    every other account alone, when the two new balances are their own JSON
    images (finite, and not [-0]).  Nothing asks the amount to be
    positive. *)
Theorem transferBetweenAccounts_moves_amount
    (fromId toId : string) (amount : Num.number) (st : Storage)
    (f t : SavingsAccount.t) :
  fromId <> toId ->
  accountOf fromId st = Some f -> accountOf toId st = Some t ->
  PrimFloat.ltb (SavingsAccount.balance f) amount = false ->
  Num.jsonNumber (SavingsAccount.balance f - amount)%float
  = Some (SavingsAccount.balance f - amount)%float ->
  Num.jsonNumber (SavingsAccount.balance t + amount)%float
  = Some (SavingsAccount.balance t + amount)%float ->
  exists st',
    transferBetweenAccounts clock fromId toId amount st = (Ok true, st')
    /\ balanceOf fromId st' = Some (SavingsAccount.balance f - amount)%float
    /\ balanceOf toId st' = Some (SavingsAccount.balance t + amount)%float
    /\ (forall other, other <> fromId -> other <> toId ->
          accountOf other st' = accountOf other st)
    /\ spending st' = spending st.
Proof.
  intros Hne Hf Ht Hlt _ _.
  destruct (transferBetweenAccounts_moved fromId toId amount st f t Hne Hf Ht Hlt)
    as (st' & E & H).
  exists st'. split; [exact E | exact H].
Qed.

(** A transfer from an account to itself is not refused: the debit is
    overwritten by the credit, both computed from the balance read on entry,
    and the account ends with its balance plus the amount (the two balances
    written being their own JSON images). *)
Theorem transferBetweenAccounts_to_itself
    (id : string) (amount : Num.number) (st : Storage) (a : SavingsAccount.t) :
  accountOf id st = Some a ->
  PrimFloat.ltb (SavingsAccount.balance a) amount = false ->
  Num.jsonNumber (SavingsAccount.balance a - amount)%float
  = Some (SavingsAccount.balance a - amount)%float ->
  Num.jsonNumber (SavingsAccount.balance a + amount)%float
  = Some (SavingsAccount.balance a + amount)%float ->
  exists st',
    transferBetweenAccounts clock id id amount st = (Ok true, st')
    /\ balanceOf id st' = Some (SavingsAccount.balance a + amount)%float
    /\ (forall other, other <> id -> accountOf other st' = accountOf other st).
Proof.
  intros Ha Hlt _ _.
  destruct (findIndex_of_find _ _ _ Ha) as [i Ei].
  destruct (balance_written clock id (SavingsAccount.balance a - amount)%float
              st i a Ei) as (Ei1 & _ & Ho1).
  set (a1 := mergeAccount clock a _) in *.
  set (st1 := setSavings (<[i := a1]> (savings st)) st) in *.
  destruct (balance_written clock id (SavingsAccount.balance a + amount)%float
              st1 i a1 Ei1) as (_ & Ha2 & Ho2).
  set (a2 := mergeAccount clock a1 _) in *.
  set (st2 := setSavings (<[i := a2]> (savings st1)) st1) in *.
  exists st2. split.
  { exact (transferBetweenAccounts_steps id id amount st i i a a a1 Ha Ha Hlt Ei Ei1). }
  split; [unfold balanceOf; now rewrite Ha2|].
  intros other Hne. rewrite (proj2 (Ho2 other Hne)). exact (proj2 (Ho1 other Hne)).
Qed.

Lemma transferBetweenAccounts_refused
    (fromId toId : string) (amount : Num.number) (st : Storage) :
  accountOf fromId st = None \/ accountOf toId st = None
  \/ (exists f, accountOf fromId st = Some f
                /\ PrimFloat.ltb (SavingsAccount.balance f) amount = true) ->
  transferBetweenAccounts clock fromId toId amount st = (Ok false, st).
Proof.
  unfold accountOf, transferBetweenAccounts, getSavingsAccounts. run_storage.
  intros [H|[H|(f & Hf & Hlt)]].
  - now rewrite H.
  - rewrite H. now destruct (List.find (hasId fromId) (savings st)).
  - rewrite Hf, Hlt. now destruct (List.find (hasId toId) (savings st)).
Qed.

(** [transferBetweenAccounts] answers [false] exactly when an account is
    missing or the source holds less than the amount; it then has written
    nothing, and the storage is as it was. *)
Theorem transferBetweenAccounts_refusal
    (fromId toId : string) (amount : Num.number) (st : Storage) :
  (accountOf fromId st = None \/ accountOf toId st = None
   \/ (exists f, accountOf fromId st = Some f
                 /\ PrimFloat.ltb (SavingsAccount.balance f) amount = true) ->
   transferBetweenAccounts clock fromId toId amount st = (Ok false, st))
  /\ (forall st',
        transferBetweenAccounts clock fromId toId amount st = (Ok false, st') ->
        st' = st
        /\ (accountOf fromId st = None \/ accountOf toId st = None
            \/ (exists f, accountOf fromId st = Some f
                          /\ PrimFloat.ltb (SavingsAccount.balance f) amount = true))).
Proof.
  split; [apply transferBetweenAccounts_refused|].
  intros st' H. split.
  - destruct (transferBetweenAccounts_result clock fromId toId amount st)
      as [E|[st1 E]]; rewrite E in H; congruence.
  - revert H. unfold accountOf, transferBetweenAccounts, getSavingsAccounts.
    run_storage.
    destruct (List.find (hasId fromId) (savings st)) as [f|]; [|now left].
    destruct (List.find (hasId toId) (savings st)) as [t|]; [|now right; left].
    destruct (PrimFloat.ltb (SavingsAccount.balance f) amount) eqn:Hlt;
      [intros _; right; right; now exists f|].
    unfold updateSavingsAccount, getSavingsAccounts. run_storage.
    destruct (findIndex (hasId fromId) (savings st)) as [[i a]|];
      cbn [savings setSavings];
      match goal with
      | |- context [findIndex (hasId toId) ?l] =>
          destruct (findIndex (hasId toId) l) as [[j b]|]
      end; discriminate.
Qed.

End Transfers.

Lemma transferBetweenAccounts_moves_amount_witness :
  exists st',
    DataManager.transferBetweenAccounts Sample.clock "a" "b" (-50)%float
      Sample.ledgerWithTransfer = (Ok true, st')
    /\ Conditions.balanceOf "a" st' = Some 110%float
    /\ Conditions.balanceOf "b" st' = Some (-10)%float.
Proof.
  destruct (transferBetweenAccounts_moves_amount Sample.clock "a" "b" (-50)%float
              Sample.ledgerWithTransfer (Sample.account "a" 60%float)
              (Sample.account "b" 40%float))
    as (st' & E & Ha & Hb & _);
    [discriminate | reflexivity | reflexivity | reflexivity | reflexivity
     | reflexivity |].
  exists st'. repeat split; assumption.
Defined.

Lemma transferBetweenAccounts_to_itself_witness :
  exists st',
    DataManager.transferBetweenAccounts Sample.clock "a" "a" 40%float
      Sample.ledger100 = (Ok true, st')
    /\ Conditions.balanceOf "a" st' = Some 140%float.
Proof.
  destruct (transferBetweenAccounts_to_itself Sample.clock "a" 40%float
              Sample.ledger100 (Sample.account "a" 100%float))
    as (st' & E & Ha & _); [reflexivity | reflexivity | reflexivity | reflexivity |].
  exists st'. split; assumption.
Defined.

(** ** Creating and deleting accounts and investments *)

Section CreateDelete.

Import DataManager Conditions.

(** [deleteSavingsAccount] removes every account stored under the id and
    nothing else: it answers whether there was one, no account is left under
    the id, the accounts under other ids and the spending entries, also those
    that name the deleted account, stay as they were. *)
Theorem deleteSavingsAccount_removes (id : string) (st : Storage) :
  exists st',
    deleteSavingsAccount id st = (Ok (existsb (hasId id) (savings st)), st')
    /\ savings st' = List.filter (fun a => negb (hasId id a)) (savings st)
    /\ accountOf id st' = None
    /\ (forall other, other <> id -> accountOf other st' = accountOf other st)
    /\ spending st' = spending st
    /\ (accountOf id st = None -> st' = st).
Proof.
  unfold deleteSavingsAccount, getSavingsAccounts. run_storage.
  rewrite filter_length_eqb, existsb_forallb_negb.
  assert (forall l, List.find (hasId id) (List.filter (fun a => negb (hasId id a)) l)
                    = None) as Hnone.
  { intros l. apply find_filter_none. now intros x ->. }
  assert (forall other l, other <> id ->
            List.find (hasId other) (List.filter (fun a => negb (hasId id a)) l)
            = List.find (hasId other) l) as Hsame.
  { intros other l Hne. apply find_filter_same. intros x Hx.
    destruct (hasId id x) eqn:E; [|reflexivity].
    rewrite (hasId_other id other x E Hne) in Hx. discriminate. }
  destruct (existsb (hasId id) (savings st)) eqn:E; cbn [negb].
  - eexists. split; [reflexivity|]. cbn [savings setSavings spending].
    split; [reflexivity|]. unfold accountOf. cbn [savings setSavings].
    split; [apply Hnone|]. split; [intros; now apply Hsame|].
    split; [reflexivity|].
    intros Hn. rewrite existsb_find in E. unfold accountOf in Hn.
    rewrite Hn in E. discriminate.
  - exists st. split; [reflexivity|].
    assert (List.filter (fun a => negb (hasId id a)) (savings st) = savings st) as Hf.
    { apply filter_forallb. now rewrite existsb_forallb_negb, E. }
    split; [now rewrite Hf|]. unfold accountOf.
    split; [rewrite <- Hf; apply Hnone|]. repeat split.
Qed.

(** [addSavingsAccount] appends the account with the balance given, when
    that is its own JSON image, and [getTotalSavings] grows by exactly that
    balance.  Looking the new id up finds the new account unless an older
    account already has the id (two accounts created within one
    millisecond). *)
Theorem addSavingsAccount_adds_to_total
    (clock : Clock) (account : SavingsAccount.input) (st : Storage) :
  Num.jsonNumber (SavingsAccount.i_balance account)
  = Some (SavingsAccount.i_balance account) ->
  exists a,
    addSavingsAccount clock account st = (Ok a, setSavings (savings st ++ [a]) st)
    /\ SavingsAccount.id a = nowMs clock
    /\ SavingsAccount.balance a = SavingsAccount.i_balance account
    /\ (forall total, fst (getTotalSavings st) = Ok total ->
          fst (getTotalSavings (setSavings (savings st ++ [a]) st))
          = Ok (total + SavingsAccount.i_balance account)%float)
    /\ accountOf (nowMs clock) (setSavings (savings st ++ [a]) st)
       = Some (default a (accountOf (nowMs clock) st)).
Proof.
  intros _. unfold addSavingsAccount, getSavingsAccounts. run_storage. cbv zeta.
  eexists. split; [reflexivity|]. split; [reflexivity|]. split; [reflexivity|].
  split.
  - unfold getTotalSavings, getSavingsAccounts. run_storage.
    cbn [fst savings setSavings]. intros total [= <-].
    now rewrite fold_left_app.
  - unfold accountOf. cbn [savings setSavings]. rewrite find_app.
    destruct (List.find (hasId (nowMs clock)) (savings st)); [reflexivity|].
    cbn [List.find]. unfold hasId at 1. cbn [SavingsAccount.id].
    now rewrite String.eqb_refl.
Qed.

(** After [addInvestment] of an amount that is its own JSON image,
    [getTotalInvestments] is the amount of the investment just added,
    whatever was stored before. *)
Theorem addInvestment_then_total
    (clock : Clock) (investment : NewInvestment) (st : Storage) :
  Num.jsonNumber (n_amount investment) = Some (n_amount investment) ->
  exists i st',
    addInvestment clock investment st = (Ok i, st')
    /\ investments st' = (investments st ++ [i])%list
    /\ Investment.amount i = n_amount investment
    /\ getTotalInvestments st' = (Ok (n_amount investment), st').
Proof.
  intros _. unfold addInvestment, getInvestments. run_storage. cbv zeta.
  eexists _, _. split; [reflexivity|]. split; [reflexivity|].
  split; [reflexivity|].
  rewrite getTotalInvestments_last. cbn [investments setInvestments].
  now rewrite last_snoc.
Qed.

(** [deleteInvestment] answers whether an investment had the id, and leaves
    the investments that have another id, in their order. *)
Theorem deleteInvestment_removes (id : string) (st : Storage) :
  exists st',
    deleteInvestment id st
    = (Ok (existsb (investmentHasId id) (investments st)), st')
    /\ investments st'
       = List.filter (fun i => negb (investmentHasId id i)) (investments st)
    /\ existsb (investmentHasId id) (investments st') = false
    /\ savings st' = savings st /\ spending st' = spending st.
Proof.
  unfold deleteInvestment, getInvestments. run_storage.
  rewrite filter_length_eqb, existsb_forallb_negb.
  assert (forall l, existsb (investmentHasId id)
                      (List.filter (fun i => negb (investmentHasId id i)) l) = false)
    as Hnone.
  { intros l. rewrite existsb_find. rewrite find_filter_none; [reflexivity|].
    now intros x ->. }
  destruct (existsb (investmentHasId id) (investments st)) eqn:E; cbn [negb].
  - eexists. split; [reflexivity|]. cbn [investments setInvestments].
    split; [reflexivity|]. split; [apply Hnone|]. split; reflexivity.
  - exists st. split; [reflexivity|].
    assert (List.filter (fun i => negb (investmentHasId id i)) (investments st)
            = investments st) as Hf.
    { apply filter_forallb. now rewrite existsb_forallb_negb, E. }
    split; [now rewrite Hf|]. split; [exact E|]. split; reflexivity.
Qed.

End CreateDelete.

Lemma addSavingsAccount_adds_to_total_witness :
  exists a,
    DataManager.addSavingsAccount Sample.clock Sample.accountOf250 Sample.ledger100
    = (Ok a, setSavings (savings Sample.ledger100 ++ [a]) Sample.ledger100)
    /\ fst (DataManager.getTotalSavings
              (setSavings (savings Sample.ledger100 ++ [a]) Sample.ledger100))
       = Ok 350%float.
Proof.
  destruct (addSavingsAccount_adds_to_total Sample.clock Sample.accountOf250
              Sample.ledger100 eq_refl) as (a & E & _ & _ & Ht & _).
  exists a. split; [exact E|]. exact (Ht 100%float eq_refl).
Defined.

Lemma addInvestment_then_total_witness :
  exists i st',
    DataManager.addInvestment Sample.clock Sample.investmentOf5 Sample.portfolio
    = (Ok i, st')
    /\ DataManager.getTotalInvestments st' = (Ok 5%float, st').
Proof.
  destruct (addInvestment_then_total Sample.clock Sample.investmentOf5
              Sample.portfolio eq_refl) as (i & st' & E & _ & _ & Ht).
  exists i, st'. split; assumption.
Defined.

(** ** Spending entries: add, update, delete *)

Section Entries.

Import DataManager Conditions.

Variable clock : Clock.

(** The three operations, read as their blocks in sequence. *)
Lemma addSpendingEntry_blocks (entry : SpendingEntry.input) (st : Storage) :
  addSpendingEntry clock entry st
  = match applyOf clock (SpendingEntry.i_type entry) (SpendingEntry.i_accountId entry)
            (SpendingEntry.i_transferToAccountId entry)
            (SpendingEntry.i_amount entry) st with
    | (Ok _, st1) =>
        (Ok (newSpendingEntry clock entry),
         setSpending (spending st ++ [newSpendingEntry clock entry]) st1)
    | (Throw e, st1) => (Throw e, st1)
    end.
Proof.
  unfold addSpendingEntry, applyOf, getSpendingEntries. run_storage. cbv zeta.
  match goal with |- context [match ?x with (r, st') => _ end] => destruct x as [[u|e] st1] end;
    reflexivity.
Qed.

Lemma deleteSpendingEntry_blocks (id : string) (st : Storage) :
  deleteSpendingEntry clock id st
  = match findIndex (entryHasId id) (spending st) with
    | None => (Ok false, st)
    | Some (_, entry) =>
        match revertOf clock entry st with
        | (Ok _, st1) =>
            (Ok true,
             setSpending (List.filter (fun e => negb (entryHasId id e)) (spending st))
               st1)
        | (Throw e, st1) => (Throw e, st1)
        end
    end.
Proof.
  unfold deleteSpendingEntry, revertOf, getSpendingEntries. run_storage.
  destruct (findIndex (entryHasId id) (spending st)) as [[i entry]|]; [|reflexivity].
  match goal with |- context [match ?x with (r, st') => _ end] => destruct x as [[u|e] st1] end;
    reflexivity.
Qed.

Lemma updateSpendingEntry_blocks (id : string) (updates : SpendingEntry.partial)
    (st : Storage) :
  updateSpendingEntry clock id updates st
  = match findIndex (entryHasId id) (spending st) with
    | None => (Ok None, st)
    | Some (index, originalEntry) =>
        match revertOf clock originalEntry st with
        | (Ok _, st1) =>
            let updatedEntry := mergeEntry clock originalEntry updates in
            match applyOf clock (SpendingEntry.type updatedEntry)
                    (SpendingEntry.accountId updatedEntry)
                    (SpendingEntry.transferToAccountId updatedEntry)
                    (SpendingEntry.amount updatedEntry) st1 with
            | (Ok _, st2) =>
                (Ok (Some updatedEntry),
                 setSpending (<[index := updatedEntry]> (spending st)) st2)
            | (Throw e, st2) => (Throw e, st2)
            end
        | (Throw e, st1) => (Throw e, st1)
        end
    end.
Proof.
  unfold updateSpendingEntry, revertOf, applyOf, getSpendingEntries. run_storage.
  destruct (findIndex (entryHasId id) (spending st)) as [[i entry]|]; [|reflexivity].
  match goal with |- context [match ?x with (r, st') => _ end] => destruct x as [[u|e] st1] end;
    [|reflexivity].
  cbv zeta.
  match goal with |- context [match ?x with (r, st') => _ end] => destruct x as [[u'|e] st2] end;
    reflexivity.
Qed.

Lemma sameButSavings_refl (st : Storage) : sameButSavings st st.
Proof. repeat split. Qed.

Lemma sameButSavings_set (l : list SavingsAccount.t) (st st1 : Storage) :
  sameButSavings st st1 -> sameButSavings st (setSavings l st1).
Proof. intros H. exact H. Qed.

Lemma truthy_nonempty (s : string) : s <> "" -> truthy (Some s) = Some s.
Proof. destruct s; [congruence | reflexivity]. Qed.

Lemma updateSavingsAccount_frame (id : string) (u : SavingsAccount.partial)
    (st : Storage) :
  exists r st1, updateSavingsAccount clock id u st = (Ok r, st1)
                /\ sameButSavings st st1.
Proof.
  unfold updateSavingsAccount, getSavingsAccounts. run_storage.
  destruct (findIndex (hasId id) (savings st)) as [[i a]|]; eexists _, _;
    (split; [reflexivity | repeat split]).
Qed.

Lemma transferBetweenAccounts_frame (fromId toId : string) (amount : Num.number)
    (st : Storage) :
  exists b st1, transferBetweenAccounts clock fromId toId amount st = (Ok b, st1)
                /\ sameButSavings st st1.
Proof.
  unfold transferBetweenAccounts, getSavingsAccounts. run_storage.
  destruct (List.find (hasId fromId) (savings st)) as [f|];
    [|eexists _, _; split; [reflexivity | repeat split]].
  destruct (List.find (hasId toId) (savings st)) as [t|];
    [|eexists _, _; split; [reflexivity | repeat split]].
  destruct (PrimFloat.ltb (SavingsAccount.balance f) amount);
    [eexists _, _; split; [reflexivity | repeat split]|].
  destruct (updateSavingsAccount_frame fromId
              (SavingsAccount.balanceOnly (SavingsAccount.balance f - amount)%float) st)
    as (r1 & st1 & -> & H1).
  destruct (updateSavingsAccount_frame toId
              (SavingsAccount.balanceOnly (SavingsAccount.balance t + amount)%float) st1)
    as (r2 & st2 & -> & H2).
  eexists _, _. split; [reflexivity|].
  destruct H1 as (A1 & B1 & C1), H2 as (A2 & B2 & C2).
  repeat split; congruence.
Qed.

(** Reverting throws no error of its own and touches the savings accounts
    only. *)
Lemma revertOf_frame (entry : SpendingEntry.t) (st : Storage) :
  exists st1, revertOf clock entry st = (Ok tt, st1) /\ sameButSavings st st1.
Proof.
  unfold revertOf, getSavingsAccounts.
  destruct (SpendingEntry.type entry);
    destruct (truthy (SpendingEntry.accountId entry)) as [accountId|];
    try destruct (truthy (SpendingEntry.transferToAccountId entry)) as [toId|];
    run_storage;
    try (exists st; split; [reflexivity | apply sameButSavings_refl]).
  - destruct (List.find (hasId accountId) (savings st)) as [account|];
      [|exists st; split; [reflexivity | apply sameButSavings_refl]].
    destruct (updateSavingsAccount_frame accountId
                (SavingsAccount.balanceOnly
                   (SavingsAccount.balance account + SpendingEntry.amount entry)%float)
                st) as (r & st1 & -> & H).
    exists st1. split; [reflexivity | exact H].
  - destruct (List.find (hasId accountId) (savings st)) as [account|];
      [|exists st; split; [reflexivity | apply sameButSavings_refl]].
    destruct (updateSavingsAccount_frame accountId
                (SavingsAccount.balanceOnly
                   (SavingsAccount.balance account + SpendingEntry.amount entry)%float)
                st) as (r & st1 & -> & H).
    exists st1. split; [reflexivity | exact H].
  - destruct (transferBetweenAccounts_frame toId accountId
                (SpendingEntry.amount entry) st) as (b & st1 & -> & H).
    exists st1. split; [reflexivity | exact H].
Qed.

Lemma revertOf_expense (entry : SpendingEntry.t) (st : Storage) (accId : string)
    (k : nat) (account : SavingsAccount.t) :
  SpendingEntry.type entry = expense ->
  SpendingEntry.accountId entry = Some accId -> accId <> "" ->
  findIndex (hasId accId) (savings st) = Some (k, account) ->
  revertOf clock entry st
  = (Ok tt,
     setSavings
       (<[k := mergeAccount clock account
                 (SavingsAccount.balanceOnly
                    (SavingsAccount.balance account
                     + SpendingEntry.amount entry)%float)]> (savings st)) st).
Proof.
  intros Hty Hacc Hne E. unfold revertOf, getSavingsAccounts.
  rewrite Hty, Hacc, (truthy_nonempty accId Hne). run_storage.
  rewrite find_findIndex, E. cbn [fmap option_fmap option_map snd].
  now rewrite (updateSavingsAccount_found clock accId _ st k account E).
Qed.

Lemma applyOf_expense (accId : string) (transferTo : option string)
    (amount : Num.number) (st : Storage) (k : nat) (account : SavingsAccount.t) :
  accId <> "" ->
  findIndex (hasId accId) (savings st) = Some (k, account) ->
  applyOf clock expense (Some accId) transferTo amount st
  = if PrimFloat.leb amount (SavingsAccount.balance account)
    then (Ok tt,
          setSavings
            (<[k := mergeAccount clock account
                      (SavingsAccount.balanceOnly
                         (SavingsAccount.balance account - amount)%float)]>
               (savings st)) st)
    else (Throw InsufficientBalance, st).
Proof.
  intros Hne E. unfold applyOf, getSavingsAccounts.
  rewrite (truthy_nonempty accId Hne). run_storage.
  rewrite find_findIndex, E. cbn [fmap option_fmap option_map snd].
  destruct (PrimFloat.leb amount (SavingsAccount.balance account)); [|reflexivity].
  now rewrite (updateSavingsAccount_found clock accId _ st k account E).
Qed.

Lemma hasEntry_findIndex (id : string) (st : Storage) :
  hasEntry id st = match findIndex (entryHasId id) (spending st) with
                   | Some _ => true
                   | None => false
                   end.
Proof.
  unfold hasEntry. rewrite existsb_find, find_findIndex.
  now destruct (findIndex (entryHasId id) (spending st)).
Qed.

Lemma hasEntry_filtered (id : string) (l : list SpendingEntry.t) (st : Storage) :
  hasEntry id (setSpending (List.filter (fun e => negb (entryHasId id e)) l) st)
  = false.
Proof.
  unfold hasEntry. cbn [spending setSpending]. rewrite existsb_find.
  rewrite find_filter_none; [reflexivity|]. now intros x ->.
Qed.

(** An expense the account can cover is stored, and the account is debited
    by its amount; the accounts under other ids stay as they were.  The
    amount and the new balance are their own JSON images. *)
Theorem addSpendingEntry_expense_debits
    (entry : SpendingEntry.input) (st : Storage) (accId : string)
    (account : SavingsAccount.t) :
  SpendingEntry.i_type entry = expense ->
  SpendingEntry.i_accountId entry = Some accId -> accId <> "" ->
  accountOf accId st = Some account ->
  PrimFloat.leb (SpendingEntry.i_amount entry) (SavingsAccount.balance account) = true ->
  Num.jsonNumber (SpendingEntry.i_amount entry) = Some (SpendingEntry.i_amount entry) ->
  Num.jsonNumber (SavingsAccount.balance account - SpendingEntry.i_amount entry)%float
  = Some (SavingsAccount.balance account - SpendingEntry.i_amount entry)%float ->
  exists st',
    addSpendingEntry clock entry st = (Ok (newSpendingEntry clock entry), st')
    /\ spending st' = (spending st ++ [newSpendingEntry clock entry])%list
    /\ balanceOf accId st'
       = Some (SavingsAccount.balance account - SpendingEntry.i_amount entry)%float
    /\ (forall other, other <> accId -> accountOf other st' = accountOf other st).
Proof.
  intros Hty Hacc Hne Ha Hle _ _.
  destruct (findIndex_of_find _ _ _ Ha) as [k Ek].
  rewrite addSpendingEntry_blocks, Hty, Hacc.
  rewrite (applyOf_expense accId _ _ st k account Hne Ek), Hle.
  destruct (balance_written clock accId
              (SavingsAccount.balance account - SpendingEntry.i_amount entry)%float
              st k account Ek) as (_ & Hid & Ho).
  eexists. split; [reflexivity|]. split; [reflexivity|].
  split.
  - unfold balanceOf, accountOf in *. cbn [savings setSpending] in *.
    now rewrite Hid.
  - intros other Hother. exact (proj2 (Ho other Hother)).
Qed.

(** The two errors of its own that [addSpendingEntry] throws come before
    any write: the storage is as it was, the insufficient-balance error is
    that of an expense whose account is missing or holds less than the
    amount, and the transfer error that of a transfer that
    [transferBetweenAccounts] refuses. *)
Theorem addSpendingEntry_own_errors_unchanged
    (entry : SpendingEntry.input) (st st' : Storage) (message : string) :
  addSpendingEntry clock entry st = (Throw message, st') ->
  message = InsufficientBalance \/ message = TransferFailed ->
  st' = st
  /\ match SpendingEntry.i_type entry with
     | expense =>
         message = InsufficientBalance
         /\ exists a,
              truthy (SpendingEntry.i_accountId entry) = Some a
              /\ forall account,
                   accountOf a st = Some account ->
                   PrimFloat.leb (SpendingEntry.i_amount entry)
                                 (SavingsAccount.balance account) = false
     | transfer =>
         message = TransferFailed
         /\ exists a b,
              truthy (SpendingEntry.i_accountId entry) = Some a
              /\ truthy (SpendingEntry.i_transferToAccountId entry) = Some b
              /\ (accountOf a st = None \/ accountOf b st = None
                  \/ exists f,
                       accountOf a st = Some f
                       /\ PrimFloat.ltb (SavingsAccount.balance f)
                                        (SpendingEntry.i_amount entry) = true)
     end.
Proof.
  intros H _. split; [exact (addSpendingEntry_throw_unchanged clock entry st st' message H)|].
  revert H. rewrite addSpendingEntry_blocks. unfold applyOf, accountOf.
  destruct (SpendingEntry.i_type entry);
    destruct (truthy (SpendingEntry.i_accountId entry)) as [a|];
    try destruct (truthy (SpendingEntry.i_transferToAccountId entry)) as [b|];
    run_storage; unfold getSavingsAccounts; run_storage; try discriminate.
  - destruct (List.find (hasId a) (savings st)) as [account|] eqn:Ea.
    + destruct (PrimFloat.leb (SpendingEntry.i_amount entry)
                  (SavingsAccount.balance account)) eqn:Hle.
      * destruct (updateSavingsAccount_frame a
                    (SavingsAccount.balanceOnly
                       (SavingsAccount.balance account
                        - SpendingEntry.i_amount entry)%float) st)
          as (r & st1 & -> & _).
        discriminate.
      * intros [= <- <-]. split; [reflexivity|]. exists a.
        split; [reflexivity|]. intros account' E'. rewrite Ea in E'.
        injection E' as <-. exact Hle.
    + intros [= <- <-]. split; [reflexivity|]. exists a.
      split; [reflexivity|]. intros account E'. rewrite Ea in E'. discriminate.
  - destruct (List.find (hasId a) (savings st)) as [account|] eqn:Ea.
    + destruct (PrimFloat.leb (SpendingEntry.i_amount entry)
                  (SavingsAccount.balance account)) eqn:Hle.
      * destruct (updateSavingsAccount_frame a
                    (SavingsAccount.balanceOnly
                       (SavingsAccount.balance account
                        - SpendingEntry.i_amount entry)%float) st)
          as (r & st1 & -> & _).
        discriminate.
      * intros [= <- <-]. split; [reflexivity|]. exists a.
        split; [reflexivity|]. intros account' E'. rewrite Ea in E'.
        injection E' as <-. exact Hle.
    + intros [= <- <-]. split; [reflexivity|]. exists a.
      split; [reflexivity|]. intros account E'. rewrite Ea in E'. discriminate.
  - destruct (transferBetweenAccounts clock a b (SpendingEntry.i_amount entry) st)
      as [[[|]|e] st1] eqn:E; try discriminate.
    + intros [= <- <-]. split; [reflexivity|]. exists a, b.
      split; [reflexivity|]. split; [reflexivity|].
      revert E. unfold transferBetweenAccounts, getSavingsAccounts. run_storage.
      destruct (List.find (hasId a) (savings st)) as [f|]; [|now left].
      destruct (List.find (hasId b) (savings st)) as [t|]; [|now right; left].
      destruct (PrimFloat.ltb (SavingsAccount.balance f) (SpendingEntry.i_amount entry))
        eqn:Hlt; [intros _; right; right; now exists f|].
      unfold updateSavingsAccount, getSavingsAccounts. run_storage.
      destruct (findIndex (hasId a) (savings st)) as [[i x]|];
        cbn [savings setSavings];
        match goal with
        | |- context [findIndex (hasId b) ?l] =>
            destruct (findIndex (hasId b) l) as [[j y]|]
        end; discriminate.
    + destruct (transferBetweenAccounts_frame a b (SpendingEntry.i_amount entry) st)
        as (r & st2 & E2 & _). congruence.
Qed.

(** A transfer entry between two accounts named in it: when both are
    stored, differ, and the source covers the amount, the entry is stored
    and the amount moves from the source to the destination (the amount and
    the two new balances being their own JSON images); when an account is
    missing or the source holds less, the call throws its transfer error,
    having written nothing. *)
Theorem addSpendingEntry_transfer
    (entry : SpendingEntry.input) (st : Storage) (a b : string) :
  SpendingEntry.i_type entry = transfer ->
  SpendingEntry.i_accountId entry = Some a -> a <> "" ->
  SpendingEntry.i_transferToAccountId entry = Some b -> b <> "" ->
  (forall f t,
      a <> b -> accountOf a st = Some f -> accountOf b st = Some t ->
      PrimFloat.ltb (SavingsAccount.balance f) (SpendingEntry.i_amount entry) = false ->
      Num.jsonNumber (SpendingEntry.i_amount entry)
      = Some (SpendingEntry.i_amount entry) ->
      Num.jsonNumber (SavingsAccount.balance f - SpendingEntry.i_amount entry)%float
      = Some (SavingsAccount.balance f - SpendingEntry.i_amount entry)%float ->
      Num.jsonNumber (SavingsAccount.balance t + SpendingEntry.i_amount entry)%float
      = Some (SavingsAccount.balance t + SpendingEntry.i_amount entry)%float ->
      exists st',
        addSpendingEntry clock entry st = (Ok (newSpendingEntry clock entry), st')
        /\ spending st' = (spending st ++ [newSpendingEntry clock entry])%list
        /\ balanceOf a st'
           = Some (SavingsAccount.balance f - SpendingEntry.i_amount entry)%float
        /\ balanceOf b st'
           = Some (SavingsAccount.balance t + SpendingEntry.i_amount entry)%float
        /\ (forall other, other <> a -> other <> b ->
              accountOf other st' = accountOf other st))
  /\ (accountOf a st = None \/ accountOf b st = None
      \/ (exists f, accountOf a st = Some f
                    /\ PrimFloat.ltb (SavingsAccount.balance f)
                                     (SpendingEntry.i_amount entry) = true) ->
      addSpendingEntry clock entry st = (Throw TransferFailed, st)).
Proof.
  intros Hty Ha Hna Hb Hnb.
  rewrite addSpendingEntry_blocks, Hty, Ha, Hb. unfold applyOf.
  rewrite (truthy_nonempty a Hna), (truthy_nonempty b Hnb). run_storage.
  split.
  - intros f t Hne Hf Ht Hlt _ _ _.
    destruct (transferBetweenAccounts_moved clock a b (SpendingEntry.i_amount entry)
                st f t Hne Hf Ht Hlt) as (st1 & -> & Hfa & Htb & Ho & _).
    eexists. split; [reflexivity|]. split; [reflexivity|].
    split; [exact Hfa|]. split; [exact Htb | exact Ho].
  - intros Hrefused.
    now rewrite (transferBetweenAccounts_refused clock a b
                   (SpendingEntry.i_amount entry) st Hrefused).
Qed.

Lemma deleteSpendingEntry_result (id : string) (st : Storage) :
  exists st',
    deleteSpendingEntry clock id st = (Ok (hasEntry id st), st')
    /\ spending st' = List.filter (fun e => negb (entryHasId id e)) (spending st)
    /\ hasEntry id st' = false
    /\ investments st' = investments st
    /\ (hasEntry id st = false -> st' = st).
Proof.
  rewrite deleteSpendingEntry_blocks, hasEntry_findIndex.
  destruct (findIndex (entryHasId id) (spending st)) as [[i entry]|] eqn:E.
  - destruct (revertOf_frame entry st) as (st1 & -> & (_ & B & _)).
    eexists. split; [reflexivity|]. split; [reflexivity|].
    split; [apply hasEntry_filtered|]. split; [exact B | discriminate].
  - exists st. split; [reflexivity|].
    assert (List.filter (fun e => negb (entryHasId id e)) (spending st) = spending st)
      as Hf.
    { apply filter_forallb. rewrite existsb_forallb_negb.
      change (existsb (entryHasId id) (spending st)) with (hasEntry id st).
      now rewrite hasEntry_findIndex, E. }
    split; [now rewrite Hf|]. split; [now rewrite hasEntry_findIndex, E|].
    split; reflexivity.
Qed.

(** What [deleteSpendingEntry] returns and leaves: for an id no entry has,
    [false], having written nothing; and whenever it returns, its answer is
    whether an entry had the id, no entry with the id is left, the other
    entries are kept in their order and the investments are untouched. *)
Theorem deleteSpendingEntry_removes (id : string) (st : Storage) :
  (hasEntry id st = false -> deleteSpendingEntry clock id st = (Ok false, st))
  /\ (forall b st',
        deleteSpendingEntry clock id st = (Ok b, st') ->
        b = hasEntry id st
        /\ spending st'
           = List.filter (fun e => negb (entryHasId id e)) (spending st)
        /\ hasEntry id st' = false
        /\ investments st' = investments st).
Proof.
  destruct (deleteSpendingEntry_result id st) as (st1 & E & Hs & Hn & Hi & Hsame).
  split.
  - intros Hno. rewrite E, Hno. now rewrite (Hsame Hno).
  - intros b st' H. rewrite E in H. injection H as <- <-. auto.
Qed.

(** Deleting an expense credits its amount back to its account, when the
    account is still stored and the new balance is its own JSON image, and
    removes the entry. *)
Theorem deleteSpendingEntry_expense_credits
    (id : string) (st : Storage) (entry : SpendingEntry.t) (accId : string)
    (account : SavingsAccount.t) :
  List.find (entryHasId id) (spending st) = Some entry ->
  SpendingEntry.type entry = expense ->
  SpendingEntry.accountId entry = Some accId -> accId <> "" ->
  accountOf accId st = Some account ->
  Num.jsonNumber (SavingsAccount.balance account + SpendingEntry.amount entry)%float
  = Some (SavingsAccount.balance account + SpendingEntry.amount entry)%float ->
  exists st',
    deleteSpendingEntry clock id st = (Ok true, st')
    /\ hasEntry id st' = false
    /\ balanceOf accId st'
       = Some (SavingsAccount.balance account + SpendingEntry.amount entry)%float
    /\ (forall other, other <> accId -> accountOf other st' = accountOf other st).
Proof.
  intros He Hty Hacc Hne Ha _.
  destruct (findIndex_of_find _ _ _ He) as [i Ei].
  destruct (findIndex_of_find _ _ _ Ha) as [k Ek].
  rewrite deleteSpendingEntry_blocks, Ei.
  rewrite (revertOf_expense entry st accId k account Hty Hacc Hne Ek).
  destruct (balance_written clock accId
              (SavingsAccount.balance account + SpendingEntry.amount entry)%float
              st k account Ek) as (_ & Hid & Ho).
  eexists. split; [reflexivity|]. split; [apply hasEntry_filtered|].
  split.
  - unfold balanceOf, accountOf in *. cbn [savings setSpending] in *.
    now rewrite Hid.
  - intros other Hother. exact (proj2 (Ho other Hother)).
Qed.

(** Deleting a transfer whose reverse transfer is refused (an account is
    gone, or the destination now holds less than the amount) still removes
    the entry and answers [true], with every balance left as it is. *)
Theorem deleteSpendingEntry_transfer_not_reverted
    (id : string) (st : Storage) (entry : SpendingEntry.t) (a b : string) :
  List.find (entryHasId id) (spending st) = Some entry ->
  SpendingEntry.type entry = transfer ->
  SpendingEntry.accountId entry = Some a -> a <> "" ->
  SpendingEntry.transferToAccountId entry = Some b -> b <> "" ->
  (accountOf b st = None \/ accountOf a st = None
   \/ exists t, accountOf b st = Some t
                /\ PrimFloat.ltb (SavingsAccount.balance t)
                                 (SpendingEntry.amount entry) = true) ->
  deleteSpendingEntry clock id st
  = (Ok true,
     setSpending (List.filter (fun e => negb (entryHasId id e)) (spending st)) st).
Proof.
  intros He Hty Ha Hna Hb Hnb Hrefused.
  destruct (findIndex_of_find _ _ _ He) as [i Ei].
  rewrite deleteSpendingEntry_blocks, Ei. unfold revertOf.
  rewrite Hty, Ha, Hb, (truthy_nonempty a Hna), (truthy_nonempty b Hnb).
  run_storage.
  now rewrite (transferBetweenAccounts_refused clock b a
                 (SpendingEntry.amount entry) st Hrefused).
Qed.

(** [updateSpendingEntry] for an id no entry has answers [null] and changes
    nothing. *)
Theorem updateSpendingEntry_unknown_id
    (id : string) (updates : SpendingEntry.partial) (st : Storage) :
  hasEntry id st = false ->
  updateSpendingEntry clock id updates st = (Ok None, st).
Proof.
  rewrite hasEntry_findIndex, updateSpendingEntry_blocks.
  now destruct (findIndex (entryHasId id) (spending st)).
Qed.

(** The two halves of an update of the amount of an expense: the account is
    first credited with the old amount, and then asked for the new one. *)
Lemma updateSpendingEntry_expense_amount_steps
    (id : string) (x : Num.number) (st : Storage) (entry : SpendingEntry.t)
    (accId : string) (i k : nat) (account : SavingsAccount.t) :
  findIndex (entryHasId id) (spending st) = Some (i, entry) ->
  SpendingEntry.type entry = expense ->
  SpendingEntry.accountId entry = Some accId -> accId <> "" ->
  findIndex (hasId accId) (savings st) = Some (k, account) ->
  let credited := (SavingsAccount.balance account + SpendingEntry.amount entry)%float in
  let account1 := mergeAccount clock account (SavingsAccount.balanceOnly credited) in
  let st1 := setSavings (<[k := account1]> (savings st)) st in
  let updated := mergeEntry clock entry (amountOnly x) in
  updateSpendingEntry clock id (amountOnly x) st
  = if PrimFloat.leb x credited
    then (Ok (Some updated),
          setSpending (<[i := updated]> (spending st))
            (setSavings
               (<[k := mergeAccount clock account1
                         (SavingsAccount.balanceOnly (credited - x)%float)]>
                  (savings st1)) st1))
    else (Throw InsufficientBalance, st1).
Proof.
  intros Ei Hty Hacc Hne Ek credited account1 st1 updated.
  rewrite updateSpendingEntry_blocks, Ei.
  rewrite (revertOf_expense entry st accId k account Hty Hacc Hne Ek).
  fold credited account1 st1. cbv zeta.
  destruct (balance_written clock accId credited st k account Ek) as (Ek1 & _ & _).
  fold account1 st1 in Ek1.
  change (SpendingEntry.type (mergeEntry clock entry (amountOnly x)))
    with (SpendingEntry.type entry).
  change (SpendingEntry.accountId (mergeEntry clock entry (amountOnly x)))
    with (SpendingEntry.accountId entry).
  change (SpendingEntry.amount (mergeEntry clock entry (amountOnly x))) with x.
  rewrite Hty, Hacc.
  rewrite (applyOf_expense accId _ x st1 k account1 Hne Ek1).
  change (SavingsAccount.balance account1) with credited.
  now destruct (PrimFloat.leb x credited).
Qed.

(** Changing the amount of an expense to one the account can cover once the
    old amount is credited back: the entry carries the new amount and the
    balance is the old balance, plus the old amount, minus the new one.  The
    new amount and the two balances written are their own JSON images. *)
Theorem updateSpendingEntry_expense_amount
    (id : string) (x : Num.number) (st : Storage) (entry : SpendingEntry.t)
    (accId : string) (account : SavingsAccount.t) :
  List.find (entryHasId id) (spending st) = Some entry ->
  SpendingEntry.type entry = expense ->
  SpendingEntry.accountId entry = Some accId -> accId <> "" ->
  accountOf accId st = Some account ->
  PrimFloat.leb x (SavingsAccount.balance account + SpendingEntry.amount entry)%float
  = true ->
  Num.jsonNumber x = Some x ->
  Num.jsonNumber (SavingsAccount.balance account + SpendingEntry.amount entry)%float
  = Some (SavingsAccount.balance account + SpendingEntry.amount entry)%float ->
  Num.jsonNumber (SavingsAccount.balance account + SpendingEntry.amount entry - x)%float
  = Some (SavingsAccount.balance account + SpendingEntry.amount entry - x)%float ->
  exists entry' st',
    updateSpendingEntry clock id (amountOnly x) st = (Ok (Some entry'), st')
    /\ List.find (entryHasId id) (spending st') = Some entry'
    /\ SpendingEntry.amount entry' = x
    /\ SpendingEntry.accountId entry' = Some accId
    /\ length (spending st') = length (spending st)
    /\ balanceOf accId st'
       = Some (SavingsAccount.balance account + SpendingEntry.amount entry - x)%float
    /\ (forall other, other <> accId -> accountOf other st' = accountOf other st).
Proof.
  intros He Hty Hacc Hne Ha Hle _ _ _.
  destruct (findIndex_of_find _ _ _ He) as [i Ei].
  destruct (findIndex_of_find _ _ _ Ha) as [k Ek].
  rewrite (updateSpendingEntry_expense_amount_steps id x st entry accId i k account
             Ei Hty Hacc Hne Ek).
  cbv zeta. rewrite Hle.
  set (credited := (SavingsAccount.balance account + SpendingEntry.amount entry)%float).
  destruct (balance_written clock accId credited st k account Ek) as (Ek1 & _ & Ho1).
  set (account1 := mergeAccount clock account _) in *.
  set (st1 := setSavings (<[k := account1]> (savings st)) st) in *.
  destruct (balance_written clock accId (credited - x)%float st1 k account1 Ek1)
    as (_ & Hid2 & Ho2).
  destruct (findIndex_Some _ _ _ _ Ei) as [_ Hid].
  eexists _, _. split; [reflexivity|]. cbn [spending setSpending].
  split; [exact (find_insert_hit _ _ _ _ (mergeEntry clock entry (amountOnly x)) Ei Hid)|].
  split; [reflexivity|]. split; [exact Hacc|].
  split; [apply length_insert|]. split.
  - unfold balanceOf, accountOf in *. cbn [savings setSpending] in *.
    now rewrite Hid2.
  - intros other Hother. unfold accountOf in *. cbn [savings setSpending] in *.
    rewrite (proj2 (Ho2 other Hother)). exact (proj2 (Ho1 other Hother)).
Qed.

(** Changing the amount of an expense to one the account cannot cover even
    with the old amount credited back: the call throws, the entry is stored
    with its old amount, and the account keeps the credit (the credited
    balance, which is written, being its own JSON image). *)
Theorem updateSpendingEntry_expense_amount_refused
    (id : string) (x : Num.number) (st : Storage) (entry : SpendingEntry.t)
    (accId : string) (account : SavingsAccount.t) :
  List.find (entryHasId id) (spending st) = Some entry ->
  SpendingEntry.type entry = expense ->
  SpendingEntry.accountId entry = Some accId -> accId <> "" ->
  accountOf accId st = Some account ->
  PrimFloat.leb x (SavingsAccount.balance account + SpendingEntry.amount entry)%float
  = false ->
  Num.jsonNumber (SavingsAccount.balance account + SpendingEntry.amount entry)%float
  = Some (SavingsAccount.balance account + SpendingEntry.amount entry)%float ->
  exists st',
    updateSpendingEntry clock id (amountOnly x) st = (Throw InsufficientBalance, st')
    /\ spending st' = spending st
    /\ balanceOf accId st'
       = Some (SavingsAccount.balance account + SpendingEntry.amount entry)%float
    /\ (forall other, other <> accId -> accountOf other st' = accountOf other st).
Proof.
  intros He Hty Hacc Hne Ha Hle _.
  destruct (findIndex_of_find _ _ _ He) as [i Ei].
  destruct (findIndex_of_find _ _ _ Ha) as [k Ek].
  rewrite (updateSpendingEntry_expense_amount_steps id x st entry accId i k account
             Ei Hty Hacc Hne Ek).
  cbv zeta. rewrite Hle.
  destruct (balance_written clock accId
              (SavingsAccount.balance account + SpendingEntry.amount entry)%float
              st k account Ek) as (_ & Hid & Ho).
  eexists. split; [reflexivity|]. split; [reflexivity|]. split.
  - unfold balanceOf. now rewrite Hid.
  - intros other Hother. exact (proj2 (Ho other Hother)).
Qed.

End Entries.

Lemma addSpendingEntry_expense_debits_witness :
  exists st',
    DataManager.addSpendingEntry Sample.clock (Sample.expenseOf 30%float (Some "a"))
      Sample.ledger100
    = (Ok (DataManager.newSpendingEntry Sample.clock
             (Sample.expenseOf 30%float (Some "a"))), st')
    /\ Conditions.balanceOf "a" st' = Some 70%float.
Proof.
  destruct (addSpendingEntry_expense_debits Sample.clock
              (Sample.expenseOf 30%float (Some "a")) Sample.ledger100 "a"
              (Sample.account "a" 100%float))
    as (st' & E & _ & Hb & _);
    [reflexivity | reflexivity | discriminate | reflexivity | reflexivity
     | reflexivity | reflexivity |].
  exists st'. split; assumption.
Defined.

Lemma addSpendingEntry_transfer_witness :
  exists st',
    DataManager.addSpendingEntry Sample.clock Sample.transferOf25
      Sample.ledgerWithTransfer
    = (Ok (DataManager.newSpendingEntry Sample.clock Sample.transferOf25), st')
    /\ Conditions.balanceOf "a" st' = Some 35%float
    /\ Conditions.balanceOf "b" st' = Some 65%float.
Proof.
  destruct (proj1 (addSpendingEntry_transfer Sample.clock Sample.transferOf25
                     Sample.ledgerWithTransfer "a" "b" eq_refl eq_refl
                     ltac:(discriminate) eq_refl ltac:(discriminate))
              (Sample.account "a" 60%float) (Sample.account "b" 40%float)
              ltac:(discriminate) eq_refl eq_refl eq_refl eq_refl eq_refl eq_refl)
    as (st' & E & _ & Ha & Hb & _).
  exists st'. repeat split; assumption.
Defined.

Lemma deleteSpendingEntry_expense_credits_witness :
  exists st',
    DataManager.deleteSpendingEntry Sample.clock "e1" Sample.ledgerWithEntry
    = (Ok true, st')
    /\ Conditions.balanceOf "a" st' = Some 140%float.
Proof.
  destruct (deleteSpendingEntry_expense_credits Sample.clock "e1"
              Sample.ledgerWithEntry Sample.entry40 "a" (Sample.account "a" 100%float))
    as (st' & E & _ & Hb & _);
    [reflexivity | reflexivity | reflexivity | discriminate | reflexivity
     | reflexivity |].
  exists st'. split; assumption.
Defined.

Lemma deleteSpendingEntry_transfer_not_reverted_witness :
  DataManager.deleteSpendingEntry Sample.clock "t1" Sample.ledgerAfterWithdrawal
  = (Ok true, setSpending [] Sample.ledgerAfterWithdrawal).
Proof.
  apply (deleteSpendingEntry_transfer_not_reverted Sample.clock "t1"
           Sample.ledgerAfterWithdrawal Sample.transfer40 "a" "b");
    try reflexivity; try discriminate.
  right. right. exists (Sample.account "b" 10%float). split; reflexivity.
Defined.

Lemma updateSpendingEntry_unknown_id_witness :
  DataManager.updateSpendingEntry Sample.clock "nothing" Sample.amount500
    Sample.ledgerWithEntry
  = (Ok None, Sample.ledgerWithEntry).
Proof.
  apply (updateSpendingEntry_unknown_id Sample.clock "nothing" Sample.amount500
           Sample.ledgerWithEntry).
  reflexivity.
Defined.

Lemma updateSpendingEntry_expense_amount_witness :
  exists entry' st',
    DataManager.updateSpendingEntry Sample.clock "e1" (Conditions.amountOnly 90%float)
      Sample.ledgerWithEntry = (Ok (Some entry'), st')
    /\ Conditions.balanceOf "a" st' = Some 50%float.
Proof.
  destruct (updateSpendingEntry_expense_amount Sample.clock "e1" 90%float
              Sample.ledgerWithEntry Sample.entry40 "a" (Sample.account "a" 100%float))
    as (entry' & st' & E & _ & _ & _ & _ & Hb & _);
    [reflexivity | reflexivity | reflexivity | discriminate | reflexivity
     | reflexivity | reflexivity | reflexivity | reflexivity |].
  exists entry', st'. split; assumption.
Defined.

Lemma updateSpendingEntry_expense_amount_refused_witness :
  exists st',
    DataManager.updateSpendingEntry Sample.clock "e1" (Conditions.amountOnly 500%float)
      Sample.ledgerWithEntry = (Throw DataManager.InsufficientBalance, st')
    /\ Conditions.balanceOf "a" st' = Some 140%float.
Proof.
  destruct (updateSpendingEntry_expense_amount_refused Sample.clock "e1" 500%float
              Sample.ledgerWithEntry Sample.entry40 "a" (Sample.account "a" 100%float))
    as (st' & E & _ & Hb & _);
    [reflexivity | reflexivity | reflexivity | discriminate | reflexivity
     | reflexivity | reflexivity |].
  exists st'. split; assumption.
Defined.

Lemma addSpendingEntry_own_errors_unchanged_witness :
  snd (DataManager.addSpendingEntry Sample.clock
         (Sample.expenseOf 150%float (Some "a")) Sample.ledger100)
  = Sample.ledger100.
Proof.
  apply (addSpendingEntry_own_errors_unchanged Sample.clock
           (Sample.expenseOf 150%float (Some "a")) Sample.ledger100 _
           DataManager.InsufficientBalance).
  - reflexivity.
  - now left.
Defined.

(** ** Parsing what [format] printed *)

Section RoundTrip.

Import JS Num Spec Conditions CurrencyFormatter.

Lemma replaceFirst_eq (pat rep s : string) :
  replaceFirst pat rep s
  = if String.prefix pat s then rep ++ dropChars (String.length pat) s
    else match s with
         | EmptyString => EmptyString
         | String c r => String c (replaceFirst pat rep r)
         end.
Proof. destruct s; reflexivity. Qed.

Lemma prefix_append (a b : string) : String.prefix a (a ++ b) = true.
Proof.
  induction a as [|c a IH]; [now destruct b|].
  rewrite append_cons. cbn [String.prefix].
  destruct (ascii_dec c c); [exact IH | congruence].
Qed.

Lemma prefix_other (p : ascii -> bool) (s0 c : ascii) (r t : string) :
  p c = true -> p s0 = false -> String.prefix (String s0 r) (String c t) = false.
Proof.
  intros Hc Hs. cbn [String.prefix].
  destruct (ascii_dec s0 c) as [->|]; [congruence | reflexivity].
Qed.

(** The first occurrence of a pattern whose first character the text before
    it lacks. *)
Lemma replaceFirst_at (p : ascii -> bool) (s0 : ascii) (r rep a b : string) :
  all_chars p a = true -> p s0 = false ->
  replaceFirst (String s0 r) rep (a ++ String s0 r ++ b) = a ++ rep ++ b.
Proof.
  intros Ha Hs. induction a as [|c a IH].
  - rewrite !append_empty_l, replaceFirst_eq, prefix_append.
    now rewrite dropChars_append.
  - cbn [all_chars] in Ha. apply andb_prop in Ha as [Hc Ha].
    rewrite !(append_cons c a), replaceFirst_eq, (prefix_other p s0 c _ _ Hc Hs).
    now rewrite (IH Ha).
Qed.

Lemma replaceFirst_absent (p : ascii -> bool) (s0 : ascii) (r rep a : string) :
  all_chars p a = true -> p s0 = false ->
  replaceFirst (String s0 r) rep a = a.
Proof.
  intros Ha Hs. induction a as [|c a IH]; [reflexivity|].
  cbn [all_chars] in Ha. apply andb_prop in Ha as [Hc Ha].
  rewrite replaceFirst_eq, (prefix_other p s0 c _ _ Hc Hs).
  now rewrite (IH Ha).
Qed.

Lemma replaceAllChar_append (c : ascii) (rep a b : string) :
  replaceAllChar c rep (a ++ b) = replaceAllChar c rep a ++ replaceAllChar c rep b.
Proof.
  induction a as [|e a IH]; [now rewrite !append_empty_l|].
  rewrite append_cons. cbn [replaceAllChar]. now rewrite IH, append_assoc.
Qed.

Lemma replaceAllChar_absent (p : ascii -> bool) (c : ascii) (rep s : string) :
  all_chars p s = true -> p c = false -> replaceAllChar c rep s = s.
Proof.
  intros Hs Hc. induction s as [|e s IH]; [reflexivity|].
  cbn [all_chars] in Hs. apply andb_prop in Hs as [He Hs].
  cbn [replaceAllChar]. rewrite (IH Hs).
  destruct (Ascii.eqb_spec e c) as [->|_]; [congruence|].
  now rewrite append_cons, append_empty_l.
Qed.

(** Removing the separator from digits grouped with it gives the digits. *)
Lemma replaceAllChar_groupFromRight (k : nat) (t : ascii) (s : string) :
  isDigit t = false -> all_chars isDigit s = true ->
  replaceAllChar t "" (groupFromRight k (String t "") s) = s.
Proof.
  intros Ht. induction s as [|c s IH]; [reflexivity|].
  intros Hs. cbn [all_chars] in Hs. apply andb_prop in Hs as [Hc Hs].
  cbn [groupFromRight replaceAllChar].
  destruct (Ascii.eqb_spec c t) as [->|_]; [congruence|].
  rewrite append_cons, append_empty_l, replaceAllChar_append, (IH Hs).
  destruct ((0 <? String.length s)%nat && (String.length s mod k =? 0)%nat).
  - cbn [replaceAllChar]. rewrite Ascii.eqb_refl. reflexivity.
  - reflexivity.
Qed.

Lemma takeChars_dropChars (n : nat) (s : string) : takeChars n s ++ dropChars n s = s.
Proof.
  revert n. induction s as [|c s IH]; intros [|n]; try reflexivity.
  cbn [takeChars dropChars]. now rewrite append_cons, IH.
Qed.

Lemma all_chars_impl (p q : ascii -> bool) (s : string) :
  (forall c, p c = true -> q c = true) -> all_chars p s = true -> all_chars q s = true.
Proof.
  intros Hpq. induction s as [|c s IH]; [reflexivity|].
  cbn [all_chars]. intros H. apply andb_prop in H as [Hc Hs].
  now rewrite (Hpq c Hc), (IH Hs).
Qed.

Lemma all_chars_groupFromRight (p : ascii -> bool) (k : nat) (sep s : string) :
  all_chars p sep = true -> all_chars p s = true ->
  all_chars p (groupFromRight k sep s) = true.
Proof.
  intros Hsep. induction s as [|c s IH]; [reflexivity|].
  cbn [all_chars groupFromRight]. intros H. apply andb_prop in H as [Hc Hs].
  rewrite Hc, all_chars_append, (IH Hs).
  destruct ((0 <? String.length s)%nat && (String.length s mod k =? 0)%nat);
    [now rewrite Hsep | reflexivity].
Qed.

(** *** White space at the two ends *)

Lemma endsWithoutSpace_append (a b : string) :
  b <> "" -> endsWithoutSpace (a ++ b) = endsWithoutSpace b.
Proof.
  intros Hb. induction a as [|c a IH]; [now rewrite append_empty_l|].
  rewrite append_cons. destruct (a ++ b) as [|e r] eqn:E.
  - destruct a; [rewrite append_empty_l in E; congruence | discriminate].
  - cbn [endsWithoutSpace]. exact IH.
Qed.

Lemma endsWithoutSpace_digits (s : string) :
  all_chars isDigit s = true -> endsWithoutSpace s = true.
Proof.
  induction s as [|c s IH]; [reflexivity|].
  cbn [all_chars]. intros H. apply andb_prop in H as [Hc Hs].
  destruct s as [|e s]; [|exact (IH Hs)].
  cbn [endsWithoutSpace]. revert Hc. unfold isDigit, isSpace.
  generalize (nat_of_ascii c). intros n Hn.
  apply andb_prop in Hn as [H1 H2]. apply Nat.leb_le in H1, H2.
  apply negb_true_iff, orb_false_iff. split.
  - apply Nat.eqb_neq. lia.
  - apply andb_false_iff. right. apply Nat.leb_gt. lia.
Qed.

Lemma trimEnd_kept (s : string) : endsWithoutSpace s = true -> trimEnd s = s.
Proof.
  induction s as [|c s IH]; [reflexivity|].
  destruct s as [|e s].
  - cbn [endsWithoutSpace trimEnd]. intros H. apply negb_true_iff in H. now rewrite H.
  - intros H. change (endsWithoutSpace (String e s) = true) in H.
    change (trimEnd (String c (String e s)))
      with (match trimEnd (String e s) with
            | EmptyString => if isSpace c then EmptyString else String c EmptyString
            | r' => String c r'
            end).
    now rewrite (IH H).
Qed.

Lemma trimEnd_space (s : string) :
  endsWithoutSpace s = true -> trimEnd (s ++ " ") = s.
Proof.
  induction s as [|c s IH]; [reflexivity|].
  rewrite append_cons.
  change (trimEnd (String c (s ++ " ")))
    with (match trimEnd (s ++ " ") with
          | EmptyString => if isSpace c then EmptyString else String c EmptyString
          | r' => String c r'
          end).
  destruct s as [|e s].
  - cbn [endsWithoutSpace]. intros H. apply negb_true_iff in H.
    rewrite append_empty_l. cbn [trimEnd isSpace]. now rewrite H.
  - intros H. change (endsWithoutSpace (String e s) = true) in H.
    now rewrite (IH H).
Qed.

Lemma endsWithoutSpace_groupFromRight (k : nat) (sep s : string) :
  all_chars isDigit s = true -> endsWithoutSpace (groupFromRight k sep s) = true.
Proof.
  induction s as [|c s IH]; [reflexivity|].
  intros H. pose proof H as Hcs.
  cbn [all_chars] in H. apply andb_prop in H as [Hc Hs].
  destruct s as [|e s].
  - cbn [groupFromRight String.length Nat.ltb Nat.leb andb].
    rewrite append_empty_l. exact (endsWithoutSpace_digits _ Hcs).
  - change (groupFromRight k sep (String c (String e s)))
      with (String c ((if (0 <? String.length (String e s))%nat
                          && (String.length (String e s) mod k =? 0)%nat
                       then sep else "")
                      ++ groupFromRight k sep (String e s))).
    rewrite <- append_cons, endsWithoutSpace_append; [exact (IH Hs)|].
    cbn [groupFromRight]. discriminate.
Qed.

Lemma digit_no_space (c : ascii) : isDigit c = true -> isSpace c = false.
Proof.
  intros H. pose proof (endsWithoutSpace_digits (String c "")) as E.
  cbn [all_chars endsWithoutSpace] in E. rewrite H in E.
  now apply negb_true_iff, E.
Qed.

(** *** The grouped integer digits *)

Lemma integerGrouping_parts (config : CurrencyConfig) (t : ascii) (int : string) :
  thousandsSeparator config = String t "" -> isDigit t = false ->
  (String.eqb (code config) "INR" = true -> t = ","%char) ->
  all_chars isDigit int = true -> (1 <= String.length int)%nat ->
  let G := integerGrouping config int in
  replaceAllChar t "" G = int
  /\ all_chars (fun c => isDigit c || Ascii.eqb c t) G = true
  /\ (exists c r, G = String c r /\ isDigit c = true)
  /\ endsWithoutSpace G = true.
Proof.
  intros Et Ht Hinr Hi Hl G. subst G. unfold integerGrouping. rewrite Et.
  set (p := fun c => isDigit c || Ascii.eqb c t).
  assert (forall s, all_chars isDigit s = true -> all_chars p s = true) as Hp.
  { intros s. apply all_chars_impl. intros c Hc. unfold p. now rewrite Hc. }
  assert (all_chars p (String t "") = true) as Hsep.
  { unfold p. cbn [all_chars]. now rewrite Ascii.eqb_refl, orb_true_r. }
  destruct int as [|c r]; [cbn in Hl; lia|].
  pose proof Hi as Hcr. cbn [all_chars] in Hi. apply andb_prop in Hi as [Hc Hr].
  assert (forall k, replaceAllChar t "" (groupFromRight k (String t "") (String c r))
                    = String c r
                    /\ all_chars p (groupFromRight k (String t "") (String c r)) = true
                    /\ (exists c' r', groupFromRight k (String t "") (String c r)
                                       = String c' r' /\ isDigit c' = true)
                    /\ endsWithoutSpace (groupFromRight k (String t "") (String c r))
                       = true) as Hplain.
  { intros k. split; [now apply replaceAllChar_groupFromRight|].
    split; [apply all_chars_groupFromRight; auto|].
    split; [|now apply endsWithoutSpace_groupFromRight].
    cbn [groupFromRight]. eauto. }
  destruct (String.eqb (code config) "INR") eqn:Ecode; [|apply Hplain].
  rewrite (Hinr eq_refl) in *.
  destruct (3 <? String.length (String c r))%nat eqn:E3.
  - apply Nat.ltb_lt in E3. unfold sliceButLast, sliceLast.
    set (n := (String.length (String c r) - 3)%nat).
    assert (all_chars isDigit (takeChars n (String c r)) = true) as Hhi
      by now apply all_chars_takeChars.
    assert (all_chars isDigit (dropChars n (String c r)) = true) as Hlo
      by now apply all_chars_dropChars.
    assert (dropChars n (String c r) <> "") as Hne.
    { intros E. pose proof (length_dropChars n (String c r)) as L.
      rewrite E in L. cbn [String.length] in L. unfold n in L.
      cbn [String.length] in L, E3. lia. }
    split.
    { rewrite !replaceAllChar_append, replaceAllChar_groupFromRight by assumption.
      cbn [replaceAllChar Ascii.eqb Bool.eqb].
      rewrite (replaceAllChar_absent isDigit) by (assumption || reflexivity).
      rewrite !append_empty_l. apply takeChars_dropChars. }
    split.
    { rewrite !all_chars_append, all_chars_groupFromRight, Hsep by auto.
      now rewrite (Hp _ Hlo). }
    split.
    { destruct n as [|n'] eqn:En; [unfold n in En; cbn [String.length] in En, E3; lia|].
      cbn [takeChars groupFromRight]. rewrite append_cons. eauto. }
    rewrite endsWithoutSpace_append.
    + rewrite endsWithoutSpace_append by exact Hne.
      now apply endsWithoutSpace_digits.
    + destruct (dropChars n (String c r)); [congruence | discriminate].
  - split; [now apply (replaceAllChar_absent isDigit)|].
    split; [now apply Hp|]. split; [eauto|].
    now apply endsWithoutSpace_digits.
Qed.

Lemma rendered_parts (config : CurrencyConfig) (t d : ascii) (int frac : string) :
  thousandsSeparator config = String t "" ->
  decimalSeparator config = String d "" ->
  isDigit t = false -> isDigit d = false -> Ascii.eqb t d = false ->
  (String.eqb (code config) "INR" = true -> t = ","%char) ->
  all_chars isDigit int = true -> (1 <= String.length int)%nat ->
  all_chars isDigit frac = true -> String.length frac = decimals config ->
  let text := rendered config int frac in
  replaceAllChar t "" text
  = match decimals config with
    | O => int
    | S _ => int ++ String d frac
    end
  /\ all_chars (numericChar t d) text = true
  /\ (exists c r, text = String c r /\ isDigit c = true)
  /\ endsWithoutSpace text = true.
Proof.
  intros Et Ed Ht Hd Htd Hinr Hi Hl Hf Hlf text. subst text.
  destruct (integerGrouping_parts config t int Et Ht Hinr Hi Hl)
    as (G1 & G2 & (c & r & G3 & Hc) & G4).
  assert (all_chars (numericChar t d) (integerGrouping config int) = true) as G2'.
  { revert G2. apply all_chars_impl. intros e He. unfold numericChar.
    apply orb_prop in He as [-> | ->]; [reflexivity | now rewrite orb_true_r]. }
  unfold rendered. rewrite Ed. destruct (decimals config) as [|n]; [eauto 10|].
  destruct frac as [|f frac]; [discriminate|].
  rewrite append_cons, append_empty_l.
  split.
  { rewrite replaceAllChar_append, G1. f_equal.
    change (String d (String f frac)) with (String d "" ++ String f frac).
    rewrite replaceAllChar_append.
    rewrite (replaceAllChar_absent isDigit t "" (String f frac)) by assumption.
    cbn [replaceAllChar]. rewrite Ascii.eqb_sym, Htd.
    now rewrite append_empty_r. }
  split.
  { rewrite all_chars_append, G2'. cbn [all_chars andb].
    assert (numericChar t d d = true) as ->.
    { unfold numericChar. now rewrite Ascii.eqb_refl, !orb_true_r. }
    revert Hf. change (all_chars isDigit (String f frac) = true
                       -> all_chars (numericChar t d) (String f frac) = true).
    apply all_chars_impl. intros e He. unfold numericChar. now rewrite He. }
  split; [rewrite G3, append_cons; eauto|].
  rewrite endsWithoutSpace_append by discriminate.
  change (endsWithoutSpace (String d (String f frac)))
    with (endsWithoutSpace (String f frac)).
  now apply endsWithoutSpace_digits.
Qed.

(** What [parse] hands to [parseFloat] for a formatted amount is the text
    [toFixed] printed. *)
Lemma parse_format_text (amount : number) (currencyCode : string) :
  plainSeparators (configOf currencyCode) = true ->
  PrimFloat.leb 0 amount = true -> fixedRange amount = true ->
  parse (format amount currencyCode) currencyCode
  = orZero (parseFloat (toFixed amount (decimals (configOf currencyCode)))).
Proof.
  intros Hplain Hpos Hr. unfold parse, format.
  set (config := configOf currencyCode) in *. cbv zeta.
  destruct (formatNumber_rendered amount config Hpos Hr)
    as (int & frac & Hi & Hl & Hf & Hlf & E & ->).
  unfold plainSeparators in Hplain.
  destruct (thousandsSeparator config) as [|t [|]] eqn:Et; try discriminate.
  destruct (decimalSeparator config) as [|d [|]] eqn:Ed; try discriminate.
  repeat (apply andb_prop in Hplain as [Hplain ?]).
  repeat match goal with
         | H : negb _ = true |- _ => apply negb_true_iff in H
         end.
  assert (String.eqb (code config) "INR" = true -> t = ","%char) as Hinr.
  { intros Hc. rewrite Hc in *. cbn [negb orb] in *. now apply Ascii.eqb_eq. }
  destruct (rendered_parts config t d int frac Et Ed) as (R1 & R2 & (c & r & R3 & Hc) & R4);
    try assumption.
  set (text := rendered config int frac) in *.
  assert (trim (replaceFirst (symbol config) ""
                  match symbolPosition config with
                  | before => symbol config ++ text
                  | after => text ++ " " ++ symbol config
                  end) = text) as ->.
  { destruct (symbolPosition config).
    - rewrite replaceFirst_eq, prefix_append, dropChars_append, append_empty_l.
      unfold trim. rewrite R3. cbn [trimStart]. rewrite (digit_no_space c Hc).
      rewrite <- R3. now apply trimEnd_kept.
    - destruct (symbol config) as [|s0 sym]; [discriminate|].
      match goal with
      | H : negb (numericChar t d s0) = true |- _ =>
          apply negb_true_iff in H; rename H into Hs0
      end.
      replace (text ++ " " ++ String s0 sym)
        with ((text ++ " ") ++ String s0 sym ++ "")
        by now rewrite append_empty_r, append_assoc.
      rewrite (replaceFirst_at (numericChar t d)); [|
        rewrite all_chars_append, R2; cbn [all_chars andb]; unfold numericChar;
        now rewrite !orb_true_r | exact Hs0].
      rewrite !append_empty_r. unfold trim. rewrite R3, append_cons.
      cbn [trimStart]. rewrite (digit_no_space c Hc).
      rewrite <- append_cons, <- R3. now apply trimEnd_space. }
  assert (String.eqb (String t "") "." = false) as ->.
  { cbn [String.eqb]. match goal with H : Ascii.eqb t "." = false |- _ => now rewrite H end. }
  cbn [negb stripSeparator]. rewrite R1.
  match goal with H : String.eqb (code config) "IDR" = false |- _ => rewrite H end.
  rewrite E. unfold fixedShape.
  destruct (Ascii.eqb_spec d ".") as [->|Hdot].
  - cbn [String.eqb Ascii.eqb Bool.eqb negb]. reflexivity.
  - assert (String.eqb (String d "") "." = false) as ->.
    { cbn [String.eqb]. now apply Ascii.eqb_neq in Hdot as ->. }
    cbn [negb]. destruct (decimals config).
    + now rewrite (replaceFirst_absent isDigit).
    + replace (int ++ String d frac) with (int ++ String d "" ++ frac)
        by now rewrite append_cons, append_empty_l.
      rewrite (replaceFirst_at isDigit) by assumption.
      now rewrite append_cons, append_empty_l.
Qed.

(** [parse] undoes [format] on the text: for a currency code that is no
    member of [Object.prototype], whose separators [parse] can take apart,
    and a non-negative amount printed in fixed decimals, it returns what
    [parseFloat] reads in the text [toFixed] printed.  The currencies of the
    table it cannot take apart are the five with the dot as thousands
    separator, and IDR. *)
Theorem parse_format_recovers_toFixed :
  (forall (amount : number) (currencyCode : string),
      inheritedKey currencyCode = false ->
      plainSeparators (configOf currencyCode) = true ->
      PrimFloat.leb 0 amount = true -> fixedRange amount = true ->
      parse (format amount currencyCode) currencyCode
      = orZero (parseFloat (toFixed amount (decimals (configOf currencyCode)))))
  /\ List.filter (fun c => negb (plainSeparators (configOf c))) supportedCodes
     = ["EUR"; "IDR"; "DKK"; "BRL"; "VND"; "TRY"].
Proof.
  split; [intros amount currencyCode _; apply parse_format_text|].
  vm_compute. reflexivity.
Qed.

End RoundTrip.

Lemma parse_format_recovers_toFixed_witness :
  CurrencyFormatter.parse (CurrencyFormatter.format 1234.5%float "SEK") "SEK"
  = Num.orZero (Num.parseFloat (Num.toFixed 1234.5%float 2)).
Proof.
  apply (proj1 parse_format_recovers_toFixed 1234.5%float "SEK"); reflexivity.
Defined.

(** ** Chart labels *)

Section Charts.

Import Num NumberFormatter Conditions.

(** *** Comparisons of numbers *)

Lemma SFcompare_antisym (a b : spec_float) (c : comparison) :
  SFcompare a b = Some c -> SFcompare b a = Some (CompOpp c).
Proof.
  destruct a as [sa|sa| |sa ma ea], b as [sb|sb| |sb mb eb]; cbn [SFcompare];
    try discriminate; intros [= <-]; f_equal;
    try (destruct sa; reflexivity); try (destruct sb; reflexivity);
    try (destruct sa, sb; reflexivity).
  rewrite (Z.compare_antisym ea eb).
  pose proof (Pos.compare_cont_antisym ma mb Eq) as H. cbn [CompOpp] in H.
  destruct sa, sb; try reflexivity; destruct (ea ?= eb)%Z; cbn [CompOpp];
    try reflexivity; rewrite <- H; try reflexivity;
    now destruct (Pos.compare_cont Eq ma mb).
Qed.

Lemma leb_not_ltb (a b : number) :
  PrimFloat.leb a b = true -> PrimFloat.ltb b a = false.
Proof.
  rewrite leb_spec, ltb_spec. unfold SFleb, SFltb.
  destruct (SFcompare (Prim2SF a) (Prim2SF b)) as [c|] eqn:E; [|discriminate].
  rewrite (SFcompare_antisym _ _ _ E). now destruct c.
Qed.

(** Of two numbers that are not [NaN], one is at most the other. *)
Lemma not_leb_ltb (a b c : number) :
  PrimFloat.leb a b = false -> PrimFloat.eqb a a = true ->
  PrimFloat.leb c b = true -> PrimFloat.ltb b a = true.
Proof.
  rewrite !leb_spec, ltb_spec, FloatAxioms.eqb_spec. unfold SFleb, SFltb, SFeqb.
  intros Hab Ha Hc.
  destruct (SFcompare (Prim2SF a) (Prim2SF b)) as [r|] eqn:E.
  - rewrite (SFcompare_antisym _ _ _ E). now destruct r.
  - destruct (Prim2SF a) as [sa|sa| |sa ma ea], (Prim2SF b) as [sb|sb| |sb mb eb],
      (Prim2SF c) as [sc|sc| |sc mc ec]; discriminate.
Qed.

(** A number that reaches a threshold reaches every threshold with a smaller
    exponent. *)
Lemma leb_chain (a b x : number) (ma mb : positive) (ea eb : Z) :
  Prim2SF a = S754_finite false ma ea -> Prim2SF b = S754_finite false mb eb ->
  (ea < eb)%Z -> PrimFloat.leb b x = true -> PrimFloat.leb a x = true.
Proof.
  intros Ea Eb Hlt. rewrite !leb_spec, Ea, Eb. unfold SFleb.
  destruct (Prim2SF x) as [s|s| |s m e]; cbn [SFcompare]; try discriminate.
  - now destruct s.
  - destruct s; [discriminate|].
    destruct (Z.compare_spec eb e) as [<-|H|H]; try discriminate.
    + intros _. now rewrite (proj2 (Z.compare_lt_iff ea eb) Hlt).
    + intros _. rewrite (proj2 (Z.compare_lt_iff ea e)); [reflexivity | lia].
Qed.

Lemma reaches_1000 (x : number) :
  (PrimFloat.leb 1e3 x || PrimFloat.leb 1e6 x || PrimFloat.leb 1e9 x
   || PrimFloat.leb 1e12 x)%float = true ->
  PrimFloat.leb 1e3 x = true.
Proof.
  intros H. repeat apply orb_prop in H as [H|H]; try exact H.
  - eapply (leb_chain 1e3 1e6 x)%float; [reflexivity | reflexivity | reflexivity | exact H].
  - eapply (leb_chain 1e3 1e9 x)%float; [reflexivity | reflexivity | reflexivity | exact H].
  - eapply (leb_chain 1e3 1e12 x)%float; [reflexivity | reflexivity | reflexivity | exact H].
Qed.

(** A number whose absolute value reaches 1000 is not zero. *)
Lemma reaches_not_zero (value : number) :
  PrimFloat.leb 1e3 (PrimFloat.abs value) = true -> PrimFloat.eqb value 0 = false.
Proof.
  rewrite leb_spec, FloatAxioms.eqb_spec, abs_spec.
  destruct (Prim2SF value) as [s|s| |s m e]; try reflexivity;
    try (intros _; now destruct s).
  discriminate.
Qed.

(** When the quotient printed is at least 10, [formatForChart] prints what
    [abbreviateCurrency] prints without forced decimals, and so the chart
    label and the abbreviated amount of the ledger are the same text when
    the stored currency is no member of [Object.prototype].  (For a stored
    currency that is one, [getSymbol] returns [undefined]: [formatForChart]
    then takes its default symbol, the empty string, while
    [abbreviateCurrency] prints ["undefined"], so the two differ.) *)
Theorem formatForChart_agrees_from_ten
    (value : number) (currencySymbol : string) (q : number) :
  quotientOf value = Some q -> PrimFloat.leb 10 q = true ->
  formatForChart value currencySymbol = abbreviateCurrency value currencySymbol false
  /\ forall st,
       JS.inheritedKey (default "USD" (settings st ≫= AppSettings.j_currency))
       = false ->
       DataManager.formatNumberForChart value st
       = DataManager.abbreviateCurrency value st.
Proof.
  intros Hq H10.
  assert (forall symbol,
            formatForChart value symbol = abbreviateCurrency value symbol false) as Hall;
    [intros symbol|
     split; [apply Hall|];
     intros st _; unfold DataManager.formatNumberForChart, DataManager.abbreviateCurrency;
     cbv [mbind M_bind mret M_ret];
     destruct (DataManager.getCurrencySymbol st) as [[symbol|e] st1];
     [now rewrite Hall | reflexivity]].
  clear currencySymbol. rename symbol into currencySymbol.
  assert (forall abbrev,
            decimals abbrev = 1%nat ->
            (value / threshold abbrev)%float = q ->
            renderForChart value abbrev = render value false abbrev) as Hsame.
  { intros abbrev Ed E. unfold renderForChart, render. cbv zeta. rewrite E, Ed.
    cbn [orb]. destruct (PrimFloat.leb 100 q) eqn:E100.
    - now rewrite (leb_not_ltb _ _ E100), andb_false_r.
    - rewrite H10, (not_leb_ltb 100%float q 10%float E100 eq_refl H10), andb_true_r.
      now destruct (PrimFloat.eqb (rem1 q) 0). }
  unfold quotientOf, Spec.largestNotExceeding, Spec.suffixes in Hq.
  cbn [fold_left fst snd] in Hq.
  assert (PrimFloat.leb 1e3 (PrimFloat.abs value) = true) as H3.
  { apply reaches_1000.
    destruct (PrimFloat.leb 1e3 (PrimFloat.abs value));
      destruct (PrimFloat.leb 1e6 (PrimFloat.abs value));
      destruct (PrimFloat.leb 1e9 (PrimFloat.abs value));
      destruct (PrimFloat.leb 1e12 (PrimFloat.abs value));
      try reflexivity; discriminate. }
  unfold formatForChart, abbreviateCurrency, abbreviate.
  rewrite (reaches_not_zero value H3), (leb_not_ltb _ _ H3).
  unfold abbreviations. cbn [chartLoop abbreviateLoop threshold].
  rewrite H3 in *.
  destruct (PrimFloat.leb 1e12 (PrimFloat.abs value));
    destruct (PrimFloat.leb 1e9 (PrimFloat.abs value));
    destruct (PrimFloat.leb 1e6 (PrimFloat.abs value));
    f_equal; (apply Hsame; [reflexivity|]); cbn [threshold]; revert Hq; cbv;
    congruence.
Qed.

End Charts.

Lemma formatForChart_agrees_from_ten_witness :
  NumberFormatter.formatForChart 15500000%float "$"
  = NumberFormatter.abbreviateCurrency 15500000%float "$" false.
Proof.
  apply (proj1 (formatForChart_agrees_from_ten 15500000%float "$" 15.5%float
                  eq_refl eq_refl)).
Defined.

(** ** Saved settings *)

Section SavedSettings.

Import DataManager Spec.

(** [updateSettings], step by step: what it returns is the spread of the
    update over what [getSettings] read, and what it saves is the JSON image
    of that. *)
Lemma updateSettings_eq (updates : AppSettings.partial) (st : Storage) :
  exists before s,
    getSettings st = (Ok before, st)
    /\ updateSettings updates st = (Ok s, setSettings (AppSettings.jsonImage s) st)
    /\ AppSettings.j_monthlyTarget s
       = spread (Some (AppSettings.monthlyTarget before))
           (AppSettings.u_monthlyTarget updates)
    /\ AppSettings.j_categories s
       = spread (Some (AppSettings.categories before))
           (AppSettings.u_categories updates)
    /\ AppSettings.j_currency s
       = spread (Some (AppSettings.currency before))
           (AppSettings.u_currency updates)
    /\ AppSettings.j_darkMode s
       = spread (Some (AppSettings.darkMode before))
           (AppSettings.u_darkMode updates)
    /\ AppSettings.j_appTitle s
       = spread (Some (AppSettings.appTitle before))
           (AppSettings.u_appTitle updates)
    /\ AppSettings.j_logoUrl s
       = spread (AppSettings.logoUrl before) (AppSettings.u_logoUrl updates)
    /\ AppSettings.j_categoryColors s
       = match AppSettings.u_categories updates with
         | Some (Some categories) =>
             Some (ensureColors categories
                     (default ∅ (spread (Some (AppSettings.categoryColors before))
                                   (AppSettings.u_categoryColors updates))))
         | _ => spread (Some (AppSettings.categoryColors before))
                  (AppSettings.u_categoryColors updates)
         end.
Proof.
  destruct (getSettings_eq st) as (s0 & E & _).
  unfold updateSettings. cbv [mbind M_bind]. rewrite E.
  cbv [mret M_ret modifyStorage]. cbv zeta.
  eexists _, _. split; [reflexivity|]. split; [reflexivity|].
  repeat split.
Qed.

(** [updateSettings] with a list of categories returns settings with these
    categories and, colour by colour, what the update gave (or, without
    colours in the update, what [getSettings] read), with gray for every
    listed category whose colour was falsy; so every listed category whose
    name is no member of [Object.prototype] has a colour that is not empty.
    What is saved is the JSON image of what is returned. *)
Theorem updateSettings_colors_every_category
    (updates : AppSettings.partial) (categories : list string) (st : Storage) :
  AppSettings.u_categories updates = Some (Some categories) ->
  exists before s colors base,
    getSettings st = (Ok before, st)
    /\ updateSettings updates st = (Ok s, setSettings (AppSettings.jsonImage s) st)
    /\ AppSettings.j_categories s = Some categories
    /\ AppSettings.j_categoryColors s = Some colors
    /\ AppSettings.j_categoryColors (AppSettings.jsonImage s) = Some colors
    /\ base = match AppSettings.u_categoryColors updates with
              | Some (Some custom) => custom
              | Some None => ∅
              | None => AppSettings.categoryColors before
              end
    /\ (forall k, colors !! k
                  = if hasColor base k || negb (bool_decide (k ∈ categories))
                    then base !! k else Some defaultGray)
    /\ (forall c, c ∈ categories -> JS.inheritedKey c = false ->
          exists v, colors !! c = Some v /\ v <> ""
                    /\ (base !! c = Some v \/ v = defaultGray)).
Proof.
  intros Hc.
  destruct (updateSettings_eq updates st)
    as (before & s & E & Eu & _ & Ecat & _ & _ & _ & _ & Ecol).
  rewrite Hc in Ecat, Ecol. cbn [spread] in Ecat.
  set (base := match AppSettings.u_categoryColors updates with
               | Some (Some custom) => custom
               | Some None => ∅
               | None => AppSettings.categoryColors before
               end).
  assert (default ∅ (spread (Some (AppSettings.categoryColors before))
                       (AppSettings.u_categoryColors updates)) = base) as Hbase.
  { unfold base. now destruct (AppSettings.u_categoryColors updates) as [[custom|]|]. }
  rewrite Hbase in Ecol.
  exists before, s, (ensureColors categories base), base.
  split; [exact E|]. split; [exact Eu|]. split; [exact Ecat|].
  split; [exact Ecol|]. split; [exact Ecol|]. split; [reflexivity|].
  split; [intros k; apply ensureColors_lookup|].
  intros c Hin Hinh. rewrite ensureColors_lookup.
  rewrite (bool_decide_eq_true_2 _ Hin). cbn [negb]. rewrite orb_false_r.
  unfold hasColor. rewrite Hinh.
  destruct (base !! c) as [v|] eqn:Ev.
  - destruct (String.eqb_spec v "") as [->|Hne]; cbn [negb].
    + exists defaultGray. split; [reflexivity|]. split; [discriminate | now right].
    + exists v. split; [reflexivity|]. split; [exact Hne | now left].
  - exists defaultGray. split; [reflexivity|]. split; [discriminate | now right].
Qed.

(** What [getSettings] reads after [updateSettings]: for each plain field
    the value given, the default when the update gave [undefined], and the
    value read before when the update had no such key; but a [monthlyTarget]
    is read back through its JSON image, so one that is [NaN] or infinite
    comes back as the default 1000, and [-0] as [0]. *)
Theorem updateSettings_then_getSettings
    (updates : AppSettings.partial) (st : Storage) :
  exists before saved st' after,
    getSettings st = (Ok before, st)
    /\ updateSettings updates st = (Ok saved, st')
    /\ getSettings st' = (Ok after, st')
    /\ AppSettings.currency after
       = match AppSettings.u_currency updates with
         | Some (Some c) => c
         | Some None => "USD"
         | None => AppSettings.currency before
         end
    /\ AppSettings.monthlyTarget after
       = match AppSettings.u_monthlyTarget updates with
         | Some (Some x) => default 1000%float (Num.jsonNumber x)
         | Some None => 1000%float
         | None => default 1000%float
                     (Num.jsonNumber (AppSettings.monthlyTarget before))
         end
    /\ AppSettings.categories after
       = match AppSettings.u_categories updates with
         | Some (Some l) => l
         | Some None => defaultCategories
         | None => AppSettings.categories before
         end
    /\ AppSettings.darkMode after
       = match AppSettings.u_darkMode updates with
         | Some (Some b) => b
         | Some None => false
         | None => AppSettings.darkMode before
         end
    /\ AppSettings.appTitle after
       = match AppSettings.u_appTitle updates with
         | Some (Some t) => t
         | Some None => "Personal Finance Dashboard"
         | None => AppSettings.appTitle before
         end
    /\ AppSettings.logoUrl after
       = match AppSettings.u_logoUrl updates with
         | Some url => url
         | None => AppSettings.logoUrl before
         end.
Proof.
  destruct (updateSettings_eq updates st)
    as (before & s & E & Eu & Emt & Ecat & Ecur & Edm & Eat & Elu & _).
  exists before, s, (setSettings (AppSettings.jsonImage s) st).
  unfold getSettings at 2, getStorage. cbv [mbind M_bind mret M_ret]. cbv zeta.
  eexists. split; [exact E|]. split; [exact Eu|]. split; [reflexivity|].
  cbn [settings setSettings default from_option id AppSettings.jsonImage
       AppSettings.j_currency AppSettings.j_monthlyTarget AppSettings.j_categories
       AppSettings.j_darkMode AppSettings.j_appTitle AppSettings.j_logoUrl
       AppSettings.currency AppSettings.monthlyTarget AppSettings.categories
       AppSettings.darkMode AppSettings.appTitle AppSettings.logoUrl].
  rewrite Emt, Ecat, Ecur, Edm, Eat, Elu.
  repeat split.
  - now destruct (AppSettings.u_currency updates) as [[c|]|].
  - now destruct (AppSettings.u_monthlyTarget updates) as [[c|]|].
  - now destruct (AppSettings.u_categories updates) as [[c|]|].
  - now destruct (AppSettings.u_darkMode updates) as [[c|]|].
  - now destruct (AppSettings.u_appTitle updates) as [[c|]|].
Qed.

(** After the currency is set through [updateSettings] to a code that is no
    member of [Object.prototype], the currency helpers format, parse and
    give the symbol in that currency; a code that is not in the table then
    behaves as USD. *)
Theorem currency_helpers_after_updateSettings
    (updates : AppSettings.partial) (st : Storage) (c : string)
    (amount : Num.number) (text : string) :
  AppSettings.u_currency updates = Some (Some c) ->
  JS.inheritedKey c = false ->
  exists saved st',
    updateSettings updates st = (Ok saved, st')
    /\ formatCurrency amount st' = (Ok (CurrencyFormatter.format amount c), st')
    /\ getCurrencySymbol st' = (Ok (CurrencyFormatter.getSymbol c), st')
    /\ parseCurrency text st' = (Ok (CurrencyFormatter.parse text c), st')
    /\ (lookupCurrency CURRENCIES c = None ->
          CurrencyFormatter.format amount c = CurrencyFormatter.format amount "USD"
          /\ CurrencyFormatter.getSymbol c = "$"
          /\ CurrencyFormatter.parse text c = CurrencyFormatter.parse text "USD").
Proof.
  intros Hc _.
  destruct (updateSettings_eq updates st)
    as (before & s & _ & Eu & _ & _ & Ecur & _).
  rewrite Hc in Ecur. cbn [spread] in Ecur.
  eexists _, _. split; [exact Eu|].
  unfold formatCurrency, getCurrencySymbol, parseCurrency, getSettings, getStorage.
  cbv [mbind M_bind mret M_ret]. cbv zeta.
  cbn [settings setSettings default from_option id AppSettings.jsonImage
       AppSettings.j_currency AppSettings.currency].
  rewrite Ecur. cbn [default from_option id].
  repeat (split; [reflexivity|]).
  intros Hnone.
  unfold CurrencyFormatter.format, CurrencyFormatter.getSymbol, CurrencyFormatter.parse.
  assert (configOf c = configOf "USD") as -> by (unfold configOf; now rewrite Hnone).
  repeat split.
Qed.

End SavedSettings.

Lemma updateSettings_colors_every_category_witness :
  exists s colors,
    DataManager.updateSettings (Sample.withCategories ["Food"; "Pets"]) Sample.ledger100
    = (Ok s, setSettings (AppSettings.jsonImage s) Sample.ledger100)
    /\ AppSettings.j_categoryColors s = Some colors
    /\ exists v, colors !! "Pets" = Some v /\ v <> "".
Proof.
  destruct (updateSettings_colors_every_category
              (Sample.withCategories ["Food"; "Pets"]) ["Food"; "Pets"]
              Sample.ledger100 eq_refl)
    as (before & s & colors & base & _ & E & _ & Ec & _ & _ & _ & Hall).
  exists s, colors. split; [exact E|]. split; [exact Ec|].
  destruct (Hall "Pets") as (v & Hv & Hne & _);
    [apply list_elem_of_further, list_elem_of_here | reflexivity |].
  exists v. split; assumption.
Defined.

Lemma currency_helpers_after_updateSettings_witness :
  exists saved st',
    DataManager.updateSettings (Sample.withCurrency "EUR") Sample.ledger100
    = (Ok saved, st')
    /\ DataManager.formatCurrency 1234.5%float st'
       = (Ok (CurrencyFormatter.format 1234.5%float "EUR"), st').
Proof.
  destruct (currency_helpers_after_updateSettings (Sample.withCurrency "EUR")
              Sample.ledger100 "EUR" 1234.5%float "" eq_refl eq_refl)
    as (saved & st' & E & Hf & _).
  exists saved, st'. split; assumption.
Defined.

(** ** Spending totals *)

Section Totals.

Import DataManager Conditions.

Variable clock : Clock.
Variable getFullYear getMonth getTime : string -> Num.number.

Lemma addSpendingEntry_appends (entry : SpendingEntry.input) (st st' : Storage)
    (e : SpendingEntry.t) :
  addSpendingEntry clock entry st = (Ok e, st') ->
  e = newSpendingEntry clock entry /\ spending st' = (spending st ++ [e])%list.
Proof.
  rewrite addSpendingEntry_blocks.
  destruct (applyOf clock _ _ _ _ st) as [[u|m] st1]; [|discriminate].
  intros [= <- <-]. now split.
Qed.

(** Once [addSpendingEntry] has stored an entry whose amount is its own
    JSON image, [getMonthlySpending] of a month has grown by the amount when
    the entry is an expense dated in the month, and is what it was
    otherwise: transfers are not counted. *)
Theorem addSpendingEntry_then_getMonthlySpending
    (entry : SpendingEntry.input) (st st' : Storage) (e : SpendingEntry.t)
    (year month : Num.number) :
  addSpendingEntry clock entry st = (Ok e, st') ->
  Num.jsonNumber (SpendingEntry.i_amount entry) = Some (SpendingEntry.i_amount entry) ->
  exists total,
    getMonthlySpending getFullYear getMonth year month st = (Ok total, st)
    /\ getMonthlySpending getFullYear getMonth year month st'
       = (Ok (if PrimFloat.eqb (getFullYear (SpendingEntry.i_date entry)) year
                 && PrimFloat.eqb (getMonth (SpendingEntry.i_date entry)) month
              then match SpendingEntry.i_type entry with
                   | expense => (total + SpendingEntry.i_amount entry)%float
                   | transfer => total
                   end
              else total), st').
Proof.
  intros H _. destruct (addSpendingEntry_appends entry st st' e H) as [-> Hs].
  unfold getMonthlySpending, getSpendingEntries, getStorage.
  cbv [mbind M_bind mret M_ret].
  eexists. split; [reflexivity|]. rewrite Hs, List.filter_app, fold_left_app.
  cbn [List.filter newSpendingEntry SpendingEntry.date SpendingEntry.type isExpense].
  destruct (PrimFloat.eqb (getFullYear (SpendingEntry.i_date entry)) year
            && PrimFloat.eqb (getMonth (SpendingEntry.i_date entry)) month);
    [|reflexivity].
  unfold isExpense at 1. cbn [newSpendingEntry SpendingEntry.type].
  now destruct (SpendingEntry.i_type entry).
Qed.




End Totals.

Lemma addSpendingEntry_then_getMonthlySpending_witness :
  fst (DataManager.getMonthlySpending (fun _ => 2023%float) (fun _ => 10%float)
         2023%float 10%float
         (snd (DataManager.addSpendingEntry Sample.clock
                 (Sample.expenseOf 30%float (Some "a")) Sample.ledgerWithEntry)))
  = Ok 70%float.
Proof.
  destruct (addSpendingEntry_then_getMonthlySpending Sample.clock
              (fun _ => 2023%float) (fun _ => 10%float)
              (Sample.expenseOf 30%float (Some "a")) Sample.ledgerWithEntry
              (snd (DataManager.addSpendingEntry Sample.clock
                      (Sample.expenseOf 30%float (Some "a")) Sample.ledgerWithEntry))
              (DataManager.newSpendingEntry Sample.clock
                 (Sample.expenseOf 30%float (Some "a")))
              2023%float 10%float eq_refl eq_refl) as (total & E & ->).
  injection E as <-. reflexivity.
Defined.
